(** * mp3tools: metadata transfer between ID3 tags, CSV tables and the JSON index

    A shallow embedding of

      - [src/mp3metadata/transfer-mp3md.py]   (export_metadata, import_metadata),
      - [src/transfer-mp3md/transfer-mp3md.py] (the earlier importer),
      - [src/mp3metadata/md-csv2json.py]      (convert_csvs_to_json),

    together with the parts of the Python runtime these functions lean on
    ([str.strip], [str.lower], [int], [json.dumps], [json.loads],
    [os.path.splitext], the ordered [dict]) and of the two libraries they
    call (the frame dictionary of mutagen's [ID3], the rectangular
    [DataFrame] of pandas).

    Conventions.
      - A Python [str] is the list of its code points ([pystr]).
      - A table cell is its text, or [NaN] where the reader found no field;
        the column type inference of the table reader is not modelled.
      - An exception is a value of [exn]; a function that can raise returns
        [result]. *)

From Stdlib Require Import Ascii String.
From Stdlib Require Import List NArith ZArith Lia Bool.
Import ListNotations.

Set Warnings "-register-all".

(** Arithmetic on code points is left to [lia]; [simpl] leaves it alone. *)
#[global] Arguments N.add : simpl never.
#[global] Arguments N.sub : simpl never.
#[global] Arguments N.mul : simpl never.
#[global] Arguments N.div : simpl never.
#[global] Arguments N.modulo : simpl never.
#[global] Arguments N.pow : simpl never.

(* ================================================================== *)
(** * Results and exceptions *)

Inductive exn : Type :=
| JSONDecodeError
| ValueError
| TypeError
| KeyError
| IndexError
| AttributeError
| FileNotFoundError
| EmptyDataError
| SystemExit
| OutOfFuel.

Inductive result (A : Type) : Type :=
| Ok (a : A)
| Raise (e : exn).

Arguments Ok {A} a.
Arguments Raise {A} e.

Definition bind {A B : Type} (r : result A) (k : A -> result B) : result B :=
  match r with
  | Ok a => k a
  | Raise e => Raise e
  end.

Notation "'do' x <- r ; k" := (bind r (fun x => k))
  (at level 10, x pattern, r at level 100, k at level 200).

Definition is_ok {A : Type} (r : result A) : bool :=
  match r with Ok _ => true | Raise _ => false end.

(* ================================================================== *)
(** * Python strings *)

Module Py.

Local Open Scope N_scope.

Definition pystr := list N.

(** A literal: the code points of an ASCII string. *)
Definition str (s : string) : pystr := map N_of_ascii (list_ascii_of_string s).

Fixpoint eqb (a b : pystr) : bool :=
  match a, b with
  | [], [] => true
  | x :: a', y :: b' => (x =? y) && eqb a' b'
  | _, _ => false
  end.

(** Truth value of a [str]: non-empty. *)
Definition truthy (s : pystr) : bool :=
  match s with [] => false | _ :: _ => true end.

(** [str.startswith]. *)
Fixpoint startswith (p s : pystr) : bool :=
  match p, s with
  | [], _ => true
  | x :: p', y :: s' => (x =? y) && startswith p' s'
  | _ :: _, [] => false
  end.

(** [str.isspace] on one code point. *)
Definition isspace (c : N) : bool :=
  ((9 <=? c) && (c <=? 13)) || ((28 <=? c) && (c <=? 32))
  || (c =? 133) || (c =? 160) || (c =? 5760)
  || ((8192 <=? c) && (c <=? 8202))
  || (c =? 8232) || (c =? 8233) || (c =? 8239) || (c =? 8287) || (c =? 12288).

Fixpoint lstrip (s : pystr) : pystr :=
  match s with
  | c :: r => if isspace c then lstrip r else s
  | [] => []
  end.

Definition rstrip (s : pystr) : pystr := rev (lstrip (rev s)).

(** [str.strip()]. *)
Definition strip (s : pystr) : pystr := rstrip (lstrip s).

(** [str.lower()] on one code point: the ASCII capitals, and the Kelvin
    sign, the one code point outside ASCII whose lower case is an ASCII
    letter.  The lower case of any other code point holds a non-ASCII code
    point, so a comparison of the result with an ASCII word is decided by
    this table. *)
Definition lower_char (c : N) : N :=
  if (65 <=? c) && (c <=? 90) then c + 32
  else if c =? 8490 then 107
  else c.

Definition lower (s : pystr) : pystr := map lower_char s.

Definition is_digit (c : N) : bool := (48 <=? c) && (c <=? 57).

(** ** [str(n)] for an [int] *)

Fixpoint dec_digits_aux (fuel : nat) (n : N) (acc : pystr) : pystr :=
  match fuel with
  | O => acc
  | S f =>
      let acc' := (48 + n mod 10) :: acc in
      if n / 10 =? 0 then acc' else dec_digits_aux f (n / 10) acc'
  end.

Definition dec_digits (n : N) : pystr :=
  dec_digits_aux (S (N.to_nat (N.log2 n))) n [].

Definition repr_int (z : Z) : pystr :=
  match z with
  | Zneg p => 45 :: dec_digits (Npos p)
  | _ => dec_digits (Z.to_N z)
  end.

(** ** [int(s)] for a [str], base 10

    Surrounding white space is dropped, one sign is allowed, the digits may
    be grouped by single underscores, and a digit is any code point with a
    decimal value.  [None] stands for [ValueError].  The interpreter's limit
    on the number of digits (a setting, 4300 by default) is not modelled. *)

(** The code points with the decimal value zero (Unicode 14.0); the nine
    code points after each have the values one to nine. *)
Definition decimal_zeros : list N :=
  [ 48; 1632; 1776; 1984; 2406; 2534; 2662; 2790; 2918; 3046; 3174; 3302;
    3430; 3558; 3664; 3792; 3872; 4160; 4240; 6112; 6160; 6470; 6608; 6784;
    6800; 6992; 7088; 7232; 7248; 42528; 43216; 43264; 43472; 43504; 43600;
    44016; 65296; 66720; 68912; 69734; 69872; 69942; 70096; 70384; 70736;
    70864; 71248; 71360; 71472; 71904; 72016; 72784; 73040; 73120; 92768;
    92864; 93008; 120782; 120792; 120802; 120812; 120822; 123200; 123632;
    125264; 130032 ].

(** The decimal value of a code point, if it has one. *)
Definition decimal (c : N) : option N :=
  match find (fun z => (z <=? c) && (c <? z + 10)) decimal_zeros with
  | Some z => Some (c - z)
  | None => None
  end.

Fixpoint digits_acc (acc : N) (after_digit : bool) (s : pystr) : option N :=
  match s with
  | [] => if after_digit then Some acc else None
  | c :: r =>
      match decimal c with
      | Some d => digits_acc (10 * acc + d) true r
      | None =>
          if c =? 95 then
            (if after_digit then digits_acc acc false r else None)
          else None
      end
  end.

Definition int_of_str (s : pystr) : option Z :=
  match strip s with
  | [] => None
  | c :: r =>
      if c =? 45 then option_map (fun n => Z.opp (Z.of_N n)) (digits_acc 0 false r)
      else if c =? 43 then option_map Z.of_N (digits_acc 0 false r)
      else option_map Z.of_N (digits_acc 0 false (c :: r))
  end.

(** ** [os.path.splitext] (POSIX) *)

(** Index of the last occurrence of [c] in [s], as [str.rfind]; [None] is -1. *)
Fixpoint rfind_from (i : nat) (c : N) (s : pystr) (last : option nat) : option nat :=
  match s with
  | [] => last
  | x :: r => rfind_from (S i) c r (if x =? c then Some i else last)
  end.

Definition rfind (c : N) (s : pystr) : option nat := rfind_from 0 c s None.

(** The loop over the leading dots of the last path component: is there a
    code point other than the dot in [s[from:upto]]? *)
Fixpoint has_non_dot (s : pystr) (from upto : nat) : bool :=
  match upto with
  | O => false
  | S u =>
      match s with
      | [] => false
      | x :: r =>
          match from with
          | O => negb (x =? 46) || has_non_dot r O u
          | S f => has_non_dot r f u
          end
      end
  end.

Definition splitext (p : pystr) : pystr * pystr :=
  let sepIndex := rfind 47 p in
  match rfind 46 p with
  | Some dotIndex =>
      let after_sep :=
        match sepIndex with Some i => Nat.ltb i dotIndex | None => true end in
      let filenameIndex :=
        match sepIndex with Some i => S i | None => O end in
      if after_sep && has_non_dot p filenameIndex dotIndex
      then (firstn dotIndex p, skipn dotIndex p)
      else (p, [])
  | None => (p, [])
  end.

(** [os.path.join(a, b)] (POSIX). *)
Definition endswith_sep (s : pystr) : bool :=
  match rev s with 47 :: _ => true | _ => false end.

Definition path_join (a b : pystr) : pystr :=
  match b with
  | 47 :: _ => b
  | _ => if negb (truthy a) || endswith_sep a then a ++ b else a ++ 47 :: b
  end.

(** [a in l] for a list of strings. *)
Definition mem (a : pystr) (l : list pystr) : bool := existsb (eqb a) l.

End Py.

Abbreviation pystr := Py.pystr.

(** A string literal, as the list of its code points. *)
Notation "'lit:(' s ')'" :=
  (ltac:(let v := eval cbv in (Py.str s) in exact v)) (only parsing).


(* ================================================================== *)
(** * The ordered dictionary

    A Python [dict] keeps its keys in insertion order; assigning to a key
    that is present replaces the value in place. *)

Module Dict.

Definition t (V : Type) := list (pystr * V).

Fixpoint get {V : Type} (k : pystr) (d : t V) : option V :=
  match d with
  | [] => None
  | (k', v) :: r => if Py.eqb k k' then Some v else get k r
  end.

Fixpoint set {V : Type} (k : pystr) (v : V) (d : t V) : t V :=
  match d with
  | [] => [(k, v)]
  | (k', v') :: r => if Py.eqb k k' then (k', v) :: r else (k', v') :: set k v r
  end.

Definition mem {V : Type} (k : pystr) (d : t V) : bool :=
  match get k d with Some _ => true | None => false end.

(** [dict(pairs)]. *)
Definition of_pairs {V : Type} (pairs : list (pystr * V)) : t V :=
  fold_left (fun d kv => set (fst kv) (snd kv) d) pairs [].

Definition keys {V : Type} (d : t V) : list pystr := map fst d.

End Dict.

(* ================================================================== *)
(** * [json.dumps] and [json.loads] *)

Module Json.

Local Open Scope N_scope.

(** The Python values the [json] module produces and consumes.  A float is
    kept as the text that denotes it; no float arithmetic is modelled. *)
Inductive value : Type :=
| JNull
| JBool (b : bool)
| JInt (z : Z)
| JFloat (lexeme : pystr)
| JStr (s : pystr)
| JList (l : list value)
| JDict (d : list (pystr * value)).

(** ** Encoder ([ensure_ascii=False], default separators) *)

Definition hex_digit (n : N) : N := if n <? 10 then 48 + n else 87 + n.

(** [ESCAPE_DCT]: the quote, the backslash, the five short escapes, and
    [\u00XX] for the other code points below 0x20. *)
Definition escape_char (c : N) : pystr :=
  if c =? 34 then [92; 34]
  else if c =? 92 then [92; 92]
  else if c =? 10 then [92; 110]
  else if c =? 13 then [92; 114]
  else if c =? 9 then [92; 116]
  else if c =? 8 then [92; 98]
  else if c =? 12 then [92; 102]
  else if c <? 32 then [92; 117; 48; 48; hex_digit (c / 16); hex_digit (c mod 16)]
  else [c].

Definition encode_basestring (s : pystr) : pystr :=
  34 :: flat_map escape_char s ++ [34].

(** [sep.join(items)]. *)
Fixpoint join (sep : pystr) (items : list pystr) : pystr :=
  match items with
  | [] => []
  | [x] => x
  | x :: r => x ++ sep ++ join sep r
  end.

Definition item_separator : pystr := [44; 32].
Definition key_separator : pystr := [58; 32].

Fixpoint dumps (v : value) : pystr :=
  match v with
  | JNull => [110; 117; 108; 108]
  | JBool true => [116; 114; 117; 101]
  | JBool false => [102; 97; 108; 115; 101]
  | JInt z => Py.repr_int z
  | JFloat lexeme => lexeme
  | JStr s => encode_basestring s
  | JList l => 91 :: join item_separator (map dumps l) ++ [93]
  | JDict d =>
      123 :: join item_separator
               (map (fun kv => encode_basestring (fst kv) ++ key_separator ++ dumps (snd kv)) d)
          ++ [125]
  end.

(** ** Decoder *)

Definition is_ws (c : N) : bool := (c =? 32) || (c =? 9) || (c =? 10) || (c =? 13).

(** [WHITESPACE.match(s, end).end()]. *)
Fixpoint skip_ws (s : pystr) : pystr :=
  match s with
  | c :: r => if is_ws c then skip_ws r else s
  | [] => []
  end.

Definition hex_val (c : N) : option N :=
  if (48 <=? c) && (c <=? 57) then Some (c - 48)
  else if (97 <=? c) && (c <=? 102) then Some (c - 87)
  else if (65 <=? c) && (c <=? 70) then Some (c - 55)
  else None.

(** [_decode_uXXXX]: four hexadecimal digits. *)
Definition hex4 (a b c d : N) : option N :=
  match hex_val a, hex_val b, hex_val c, hex_val d with
  | Some x, Some y, Some z, Some w => Some (x * 4096 + y * 256 + z * 16 + w)
  | _, _, _, _ => None
  end.

(** The [BACKSLASH] table. *)
Definition backslash (e : N) : option N :=
  if e =? 34 then Some 34
  else if e =? 92 then Some 92
  else if e =? 47 then Some 47
  else if e =? 98 then Some 8
  else if e =? 102 then Some 12
  else if e =? 110 then Some 10
  else if e =? 114 then Some 13
  else if e =? 116 then Some 9
  else None.

Definition push (c : N) (r : result (pystr * pystr)) : result (pystr * pystr) :=
  do xr <- r; Ok (c :: fst xr, snd xr).

(** [scanstring(s, end, strict=True)], entered after the opening quote:
    the decoded text and the input that follows the closing quote. *)
Fixpoint scanstring (s : pystr) : result (pystr * pystr) :=
  match s with
  | [] => Raise JSONDecodeError
  | c :: r =>
      if c =? 34 then Ok ([], r)
      else if c =? 92 then
        match r with
        | [] => Raise JSONDecodeError
        | e :: r1 =>
            if e =? 117 then
              match r1 with
              | h1 :: h2 :: h3 :: h4 :: r2 =>
                  match hex4 h1 h2 h3 h4 with
                  | None => Raise JSONDecodeError
                  | Some uni =>
                      if (55296 <=? uni) && (uni <=? 56319) then
                        match r2 with
                        | b :: u :: r3 =>
                            if (b =? 92) && (u =? 117) then
                              match r3 with
                              | k1 :: k2 :: k3 :: k4 :: r4 =>
                                  match hex4 k1 k2 k3 k4 with
                                  | None => Raise JSONDecodeError
                                  | Some uni2 =>
                                      if (56320 <=? uni2) && (uni2 <=? 57343) then
                                        push (65536 + N.lor (N.shiftl (uni - 55296) 10)
                                                            (uni2 - 56320))
                                             (scanstring r4)
                                      else push uni (scanstring r2)
                                  end
                              | _ => Raise JSONDecodeError
                              end
                            else push uni (scanstring r2)
                        | _ => push uni (scanstring r2)
                        end
                      else push uni (scanstring r2)
                  end
              | _ => Raise JSONDecodeError
              end
            else
              match backslash e with
              | Some ch => push ch (scanstring r1)
              | None => Raise JSONDecodeError
              end
        end
      else if c <? 32 then Raise JSONDecodeError
      else push c (scanstring r)
  end.

(** [NUMBER_RE]: an integer part (an optional minus sign, then a single
    zero or a non-zero digit and more digits), an optional fraction (a dot
    and one digit or more) and an optional exponent (e or E, an optional
    sign, one digit or more). *)

Fixpoint span_digits (s : pystr) : pystr * pystr :=
  match s with
  | c :: r =>
      if Py.is_digit c then let (d, r') := span_digits r in (c :: d, r')
      else ([], s)
  | [] => ([], [])
  end.

Definition match_integer (s : pystr) : option (pystr * pystr) :=
  let (sign, s1) :=
    match s with
    | c :: r => if c =? 45 then ([45], r) else ([], s)
    | [] => ([], s)
    end in
  match s1 with
  | c :: r =>
      if c =? 48 then Some (sign ++ [48], r)
      else if Py.is_digit c then
        let (d, r') := span_digits r in Some (sign ++ c :: d, r')
      else None
  | [] => None
  end.

Definition match_frac (s : pystr) : pystr * pystr :=
  match s with
  | c :: r =>
      if c =? 46 then
        let (d, r') := span_digits r in
        match d with [] => ([], s) | _ :: _ => (46 :: d, r') end
      else ([], s)
  | [] => ([], s)
  end.

Definition match_exp (s : pystr) : pystr * pystr :=
  match s with
  | c :: r =>
      if (c =? 101) || (c =? 69) then
        let (sg, r1) :=
          match r with
          | x :: r0 => if (x =? 43) || (x =? 45) then ([x], r0) else ([], r)
          | [] => ([], r)
          end in
        let (d, r2) := span_digits r1 in
        match d with [] => ([], s) | _ :: _ => (c :: sg ++ d, r2) end
      else ([], s)
  | [] => ([], s)
  end.

(** The number at the head of [s], if one matches: the value and the rest. *)
Definition match_number (s : pystr) : option (result (value * pystr)) :=
  match match_integer s with
  | None => None
  | Some (integer, r) =>
      let (frac, r1) := match_frac r in
      let (exp, r2) := match_exp r1 in
      match frac, exp with
      | [], [] =>
          Some (match Py.int_of_str integer with
                | Some z => Ok (JInt z, r2)
                | None => Raise ValueError
                end)
      | _, _ => Some (Ok (JFloat (integer ++ frac ++ exp), r2))
      end
  end.

Definition lit_null : pystr := [110; 117; 108; 108].
Definition lit_true : pystr := [116; 114; 117; 101].
Definition lit_false : pystr := [102; 97; 108; 115; 101].
Definition lit_NaN : pystr := [78; 97; 78].
Definition lit_Infinity : pystr := [73; 110; 102; 105; 110; 105; 116; 121].
Definition lit_minus_Infinity : pystr := 45 :: lit_Infinity.

(** [scan_once], [JSONArray] and [JSONObject].  Each call of [scan_once]
    and each turn of the two loops spends one unit of [fuel]. *)
Fixpoint scan_once (fuel : nat) (s : pystr) {struct fuel} : result (value * pystr) :=
  match fuel with
  | O => Raise OutOfFuel
  | S f =>
      match s with
      | [] => Raise JSONDecodeError
      | c :: r =>
          if c =? 34 then
            do xr <- scanstring r; Ok (JStr (fst xr), snd xr)
          else if c =? 123 then
            match skip_ws r with
            | c1 :: r1 =>
                if c1 =? 125 then Ok (JDict [], r1)
                else if c1 =? 34 then
                  do pr <- object_pairs f r1; Ok (JDict (Dict.of_pairs (fst pr)), snd pr)
                else Raise JSONDecodeError
            | [] => Raise JSONDecodeError
            end
          else if c =? 91 then
            match skip_ws r with
            | c1 :: r1 =>
                if c1 =? 93 then Ok (JList [], r1)
                else do vr <- array_items f (c1 :: r1); Ok (JList (fst vr), snd vr)
            | [] => Raise JSONDecodeError
            end
          else if Py.startswith lit_null s then Ok (JNull, skipn 4 s)
          else if Py.startswith lit_true s then Ok (JBool true, skipn 4 s)
          else if Py.startswith lit_false s then Ok (JBool false, skipn 5 s)
          else
            match match_number s with
            | Some res => res
            | None =>
                if Py.startswith lit_NaN s then Ok (JFloat lit_NaN, skipn 3 s)
                else if Py.startswith lit_Infinity s then Ok (JFloat lit_Infinity, skipn 8 s)
                else if Py.startswith lit_minus_Infinity s
                then Ok (JFloat lit_minus_Infinity, skipn 9 s)
                else Raise JSONDecodeError
            end
      end
  end

with array_items (fuel : nat) (s : pystr) {struct fuel} : result (list value * pystr) :=
  match fuel with
  | O => Raise OutOfFuel
  | S f =>
      do vr <- scan_once f s;
      match skip_ws (snd vr) with
      | c :: r =>
          if c =? 93 then Ok ([fst vr], r)
          else if c =? 44 then
            do vsr <- array_items f (skip_ws r); Ok (fst vr :: fst vsr, snd vsr)
          else Raise JSONDecodeError
      | [] => Raise JSONDecodeError
      end
  end

(** Entered after the opening quote of a property name. *)
with object_pairs (fuel : nat) (s : pystr) {struct fuel}
  : result (list (pystr * value) * pystr) :=
  match fuel with
  | O => Raise OutOfFuel
  | S f =>
      do kr <- scanstring s;
      match skip_ws (snd kr) with
      | c :: r =>
          if c =? 58 then
            do vr <- scan_once f (skip_ws r);
            match skip_ws (snd vr) with
            | c1 :: r1 =>
                if c1 =? 125 then Ok ([(fst kr, fst vr)], r1)
                else if c1 =? 44 then
                  match skip_ws r1 with
                  | q :: r2 =>
                      if q =? 34 then
                        do pr <- object_pairs f r2;
                        Ok ((fst kr, fst vr) :: fst pr, snd pr)
                      else Raise JSONDecodeError
                  | [] => Raise JSONDecodeError
                  end
                else Raise JSONDecodeError
            | [] => Raise JSONDecodeError
            end
          else Raise JSONDecodeError
      | [] => Raise JSONDecodeError
      end
  end.

(** [json.loads(s)] for a [str]: no byte order mark, one value between
    optional white space, nothing after it.  The fuel is never used
    up: see [JsonOutcomeFacts.loads_decodes]. *)
Definition loads (s : pystr) : result value :=
  match s with
  | 65279 :: _ => Raise JSONDecodeError
  | _ =>
      do vr <- scan_once (S (2 * length s)) (skip_ws s);
      match skip_ws (snd vr) with
      | [] => Ok (fst vr)
      | _ :: _ => Raise JSONDecodeError
      end
  end.

(** What may follow the digits of an integer for the number to end there. *)
Definition ends_number (r : pystr) : Prop :=
  match r with
  | c :: _ => Py.is_digit c = false /\ c <> 46 /\ c <> 101 /\ c <> 69
  | [] => True
  end.

(** The outcome is a value or a decoding error. *)
Definition decodes {A : Type} (r : result A) : Prop :=
  match r with
  | Ok _ => True
  | Raise e => e = JSONDecodeError
  end.

End Json.


(* ================================================================== *)
(** * The tag container (mutagen's [ID3])

    [ID3] is a dictionary from hash keys to frames.  A frame carries its
    hash key, so the container is the list of its frames in storage order.
    A frame holds the attributes the program reads or passes; the byte
    layout ([encoding=3], [v2_version=4]) is not represented. *)

Module ID3.

Inductive frame : Type :=
| TextFrame (id : pystr) (text : list pystr)
| TXXX (desc : pystr) (text : list pystr)
| COMM (desc lang : pystr) (text : list pystr)
| USLT (desc lang : pystr) (text : pystr + list pystr)
| SYLT (desc lang : pystr) (type : Z) (text time : list Json.value)
| Other (key : pystr).

Definition tags := list frame.

Definition colon : pystr := [58%N].

Definition HashKey (f : frame) : pystr :=
  match f with
  | TextFrame id _ => id
  | TXXX desc _ => lit:("TXXX") ++ colon ++ desc
  | COMM desc lang _ => lit:("COMM") ++ colon ++ desc ++ colon ++ lang
  | USLT desc lang _ => lit:("USLT") ++ colon ++ desc ++ colon ++ lang
  | SYLT desc lang _ _ _ => lit:("SYLT") ++ colon ++ desc ++ colon ++ lang
  | Other key => key
  end.

Definition has_key (key : pystr) (f : frame) : bool := Py.eqb (HashKey f) key.

Definition has_prefix (key : pystr) (f : frame) : bool :=
  Py.startswith (key ++ colon) (HashKey f).

(** [key in tags]. *)
Definition contains (key : pystr) (t : tags) : bool := existsb (has_key key) t.

(** [tags.get(key)]. *)
Definition get (key : pystr) (t : tags) : option frame := find (has_key key) t.

(** [tags.getall(key)]: the frame stored under [key], or else every frame
    whose hash key starts with [key + ":"], in storage order. *)
Definition getall (key : pystr) (t : tags) : list frame :=
  match get key t with
  | Some f => [f]
  | None => filter (has_prefix key) t
  end.

(** [tags.delall(key)]. *)
Definition delall (key : pystr) (t : tags) : tags :=
  if contains key t then filter (fun f => negb (has_key key f)) t
  else filter (fun f => negb (has_prefix key f)) t.

(** [tags.add(frame)]: [tags[frame.HashKey] = frame]. *)
Fixpoint add (f : frame) (t : tags) : tags :=
  match t with
  | [] => [f]
  | g :: r => if has_key (HashKey f) g then f :: r else g :: add f r
  end.

(** [frame.desc]. *)
Definition desc (f : frame) : result pystr :=
  match f with
  | TXXX d _ | COMM d _ _ | USLT d _ _ | SYLT d _ _ _ _ => Ok d
  | TextFrame _ _ | Other _ => Raise AttributeError
  end.

(** [frame.text[0]]. *)
Definition text0 (f : frame) : result pystr :=
  match f with
  | TextFrame _ text | TXXX _ text | COMM _ _ text | USLT _ _ (inr text) =>
      match text with
      | x :: _ => Ok x
      | [] => Raise IndexError
      end
  | USLT _ _ (inl s) =>
      match s with
      | c :: _ => Ok [c]
      | [] => Raise IndexError
      end
  | SYLT _ _ _ text _ =>
      match text with
      | Json.JStr x :: _ => Ok x
      | _ :: _ => Raise TypeError
      | [] => Raise IndexError
      end
  | Other _ => Raise AttributeError
  end.

(** What [ID3(path)] finds in an audio file: a container, or no header
    ([ID3NoHeaderError], answered with the empty [ID3()]). *)
Definition file := option tags.

Definition load (f : file) : tags :=
  match f with
  | Some t => t
  | None => []
  end.

End ID3.

(* ================================================================== *)
(** * Tables (pandas' [DataFrame])

    A frame is a header and rectangular rows.  A table read from a CSV file
    has text cells, and [NaN] where a line is shorter than the header.  The
    CSV file itself is represented by the frame it reads as. *)

Module Pandas.

Inductive cell : Type :=
| NaN
| Str (s : pystr).

Record DataFrame (C : Type) : Type := mkDataFrame {
  columns : list pystr;
  data : list (list C)
}.

Arguments mkDataFrame {C} _ _.
Arguments columns {C} _.
Arguments data {C} _.

Definition table := DataFrame cell.

Fixpoint index_of (c : pystr) (cols : list pystr) : option nat :=
  match cols with
  | [] => None
  | x :: r => if Py.eqb c x then Some O else option_map S (index_of c r)
  end.

(** [row.get(c)]: [None] when the frame has no column [c]. *)
Definition row_get (cols : list pystr) (row : list cell) (c : pystr) : option cell :=
  match index_of c cols with
  | Some i => Some (nth i row NaN)
  | None => None
  end.

(** [row[c]]. *)
Definition row_item (cols : list pystr) (row : list cell) (c : pystr) : result cell :=
  match row_get cols row c with
  | Some x => Ok x
  | None => Raise KeyError
  end.

(** [df.empty]. *)
Definition empty {C : Type} (df : DataFrame C) : bool :=
  match columns df, data df with
  | [], _ | _, [] => true
  | _, _ => false
  end.

(** [pd.read_csv(path, keep_default_na=False)] on what is at [path]. *)
Definition read_csv (f : option table) : result table :=
  match f with
  | None => Raise FileNotFoundError
  | Some df =>
      match columns df with
      | [] => Raise EmptyDataError
      | _ :: _ => Ok df
      end
  end.

(** [df.fillna("", inplace=True)]. *)
Definition fillna (df : table) : table :=
  mkDataFrame (columns df)
    (map (map (fun c => match c with NaN => Str [] | Str s => Str s end)) (data df)).

(** [df.rename(columns=f, inplace=True)]. *)
Definition rename (f : pystr -> pystr) (df : table) : table :=
  mkDataFrame (map f (columns df)) (data df).

(** Truth value and [str()] of a cell; [NaN] is a float. *)
Definition truthy (c : cell) : bool :=
  match c with
  | NaN => true
  | Str s => Py.truthy s
  end.

Definition cell_str (c : cell) : pystr :=
  match c with
  | NaN => lit:("nan")
  | Str s => s
  end.

(** The rows [to_csv(columns=cols, na_rep="")] writes: the cells of the
    chosen columns as text, or [KeyError] when a chosen column is not a
    column of the frame. *)
Definition to_csv_rows {C : Type} (render : C -> pystr) (na : C)
    (df : DataFrame C) (cols : list pystr) : result (list (list cell)) :=
  if forallb (fun c => Py.mem c (columns df)) cols then
    Ok (map (fun row =>
               map (fun c =>
                      match index_of c (columns df) with
                      | Some i => Str (render (nth i row na))
                      | None => Str []
                      end) cols)
            (data df))
  else Raise KeyError.

(** The text of a cell read from a file: [na_rep] is the empty string. *)
Definition render_cell (c : cell) : pystr :=
  match c with
  | NaN => []
  | Str s => s
  end.

(** A row of text cells that is as long as the header, as every row is
    after [fillna]. *)
Definition is_text (c : cell) : bool :=
  match c with
  | Str _ => true
  | NaN => false
  end.

Definition text_row (cols : list pystr) (row : list cell) : bool :=
  Nat.leb (length cols) (length row) && forallb is_text row.

End Pandas.

(* ================================================================== *)
(** * [src/mp3metadata/transfer-mp3md.py] *)

Module Transfer.

Import ID3 Pandas.

(** ** The file system the two commands touch: audio files by path, with
    the tag container of each.  A path that is empty or ends with the
    separator never names a regular file. *)

Definition filesystem := Dict.t ID3.file.

Definition isfile (fs : filesystem) (path : pystr) : bool :=
  Py.truthy path && negb (Py.endswith_sep path) && Dict.mem path fs.

Definition read_file (fs : filesystem) (path : pystr) : ID3.file :=
  match Dict.get path fs with
  | Some f => f
  | None => None
  end.

(** ** export_metadata *)

(** A value of a record: text, or the bit rate, an [int]. *)
Inductive value : Type :=
| VStr (s : pystr)
| VInt (z : Z).

Definition record := Dict.t value.

(** One audio file as the scan finds it. *)
Record audio : Type := mkAudio {
  basename : pystr;
  secs : Z;            (* int(audio.info.length) *)
  info_bitrate : Z;    (* audio.info.bitrate *)
  id3_file : ID3.file
}.

(** [f"{s:02d}"]. *)
Definition format_02d (s : Z) : pystr :=
  if ((0 <=? s) && (s <? 10))%Z then 48%N :: Py.repr_int s else Py.repr_int s.

Definition format_length (length_format : pystr) (secs : Z) : pystr :=
  if Py.eqb length_format lit:("seconds") then Py.repr_int secs
  else
    let m := (secs / 60)%Z in
    let s := (secs mod 60)%Z in
    Py.repr_int m ++ [58%N] ++ format_02d s.

Definition get_txt (id3 : tags) (frame : pystr) : result pystr :=
  match get frame id3 with
  | Some f => text0 f
  | None => Ok []
  end.

Definition is_disc_desc (d : pystr) : bool :=
  let x := Py.lower (Py.strip d) in
  Py.eqb x lit:("disc") || Py.eqb x lit:("disk").

(** The loop over the [TXXX] frames, left at the first match. *)
Fixpoint scan_txxx (disc : pystr) (frames : list frame) : result pystr :=
  match frames with
  | [] => Ok disc
  | txxx :: rest =>
      do d <- desc txxx;
      if is_disc_desc d then text0 txxx else scan_txxx disc rest
  end.

Definition decode_disc (id3 : tags) : result pystr :=
  do disc <- get_txt id3 lit:("TPOS");
  if negb (Py.truthy disc) then scan_txxx disc (getall lit:("TXXX") id3)
  else Ok disc.

(** [text if isinstance(text, str) else text[0]] for [uslt[0].text]. *)
Definition lyrics_text (f : frame) : result pystr :=
  match f with
  | USLT _ _ (inl s) => Ok s
  | _ => text0 f
  end.

Definition cue_entry (text2 ts : Json.value) : Json.value :=
  Json.JDict [(lit:("ts_ms"), ts); (lit:("text"), text2)].

(** [zip(f2.text, f2.time)] turned into entries. *)
Definition frame_entries (f2 : frame) : result (list Json.value) :=
  match f2 with
  | SYLT _ _ _ text time => Ok (map (fun p => cue_entry (fst p) (snd p)) (combine text time))
  | _ => Raise AttributeError
  end.

Fixpoint sync_entries (sync : list frame) : result (list Json.value) :=
  match sync with
  | [] => Ok []
  | f2 :: rest =>
      do es <- frame_entries f2;
      do more <- sync_entries rest;
      Ok (es ++ more)
  end.

Definition export_record (length_format : pystr) (a : audio) : result record :=
  let length := format_length length_format (secs a) in
  let bitrate_kbps := (info_bitrate a / 1000)%Z in
  let id3 := load (id3_file a) in
  do disc <- decode_disc id3;
  let comms := getall lit:("COMM") id3 in
  do title <- get_txt id3 lit:("TIT2");
  do artist <- get_txt id3 lit:("TPE1");
  do album <- get_txt id3 lit:("TALB");
  do tracknumber <- get_txt id3 lit:("TRCK");
  do genre <- get_txt id3 lit:("TCON");
  do date <- get_txt id3 lit:("TDRC");
  do composer <- get_txt id3 lit:("TCOM");
  do comments <- match comms with
                 | c :: _ => text0 c
                 | [] => Ok []
                 end;
  let rec0 : record :=
    [ (lit:("filename"), VStr (basename a));
      (lit:("title"), VStr title);
      (lit:("artist"), VStr artist);
      (lit:("album"), VStr album);
      (lit:("tracknumber"), VStr tracknumber);
      (lit:("disc"), VStr disc);
      (lit:("genre"), VStr genre);
      (lit:("date"), VStr date);
      (lit:("composer"), VStr composer);
      (lit:("comments"), VStr comments);
      (lit:("length"), VStr length);
      (lit:("bitrate"), VInt bitrate_kbps) ] in
  do rec1 <- match getall lit:("USLT") id3 with
             | u :: _ =>
                 do text <- lyrics_text u;
                 Ok (Dict.set lit:("lyrics") (VStr text) rec0)
             | [] => Ok rec0
             end;
  match getall lit:("SYLT") id3 with
  | [] => Ok rec1
  | sync =>
      do entries <- sync_entries sync;
      Ok (Dict.set lit:("synced_lyrics") (VStr (Json.dumps (Json.JList entries))) rec1)
  end.

Fixpoint export_records (length_format : pystr) (files : list audio)
  : result (list record) :=
  match files with
  | [] => Ok []
  | a :: rest =>
      do r <- export_record length_format a;
      do rs <- export_records length_format rest;
      Ok (r :: rs)
  end.

(** [pd.DataFrame(records)]: the columns are the keys of the records in the
    order of their first appearance; a key a record lacks reads as NaN. *)
Definition add_columns (cols keys : list pystr) : list pystr :=
  fold_left (fun acc k => if Py.mem k acc then acc else acc ++ [k]) keys cols.

Definition record_columns (records : list record) : list pystr :=
  fold_left (fun acc r => add_columns acc (Dict.keys r)) records [].

Definition DataFrame_of_records (records : list record) : DataFrame (option value) :=
  let cols := record_columns records in
  mkDataFrame cols (map (fun r => map (fun c => Dict.get c r) cols) records).

Definition render_value (v : option value) : pystr :=
  match v with
  | None => []
  | Some (VStr s) => s
  | Some (VInt z) => Py.repr_int z
  end.

(** [df[c] = ""]. *)
Definition fit (n : nat) (row : list cell) : list cell :=
  firstn n (row ++ repeat NaN n).

Fixpoint set_nth (i : nat) (v : cell) (row : list cell) : list cell :=
  match i, row with
  | O, _ :: r => v :: r
  | S j, x :: r => x :: set_nth j v r
  | _, [] => []
  end.

Definition set_column (c : pystr) (v : cell) (df : table) : table :=
  let n := length (columns df) in
  match index_of c (columns df) with
  | Some i => mkDataFrame (columns df) (map (fun row => set_nth i v (fit n row)) (data df))
  | None => mkDataFrame (columns df ++ [c]) (map (fun row => fit n row ++ [v]) (data df))
  end.

(** The last step of [export_metadata]: write the records to the CSV file,
    appending when the file has data.  The result is the file afterwards and
    how the step ended. *)
Definition write_records (records : list record) (csv : option table)
  : option table * result unit :=
  let df_new := DataFrame_of_records records in
  let write_new :=
    match to_csv_rows render_value None df_new (columns df_new) with
    | Ok rows => (Some (mkDataFrame (columns df_new) rows), Ok tt)
    | Raise e => (csv, Raise e)
    end in
  match read_csv csv with
  | Ok df_exist =>
      if negb (empty df_exist) then
        let existing_cols := columns df_exist in
        let missing := filter (fun c => negb (Py.mem c existing_cols)) (columns df_new) in
        let rewritten :=
          match missing with
          | [] => Ok (csv, existing_cols)
          | _ :: _ =>
              let df_exist' := fold_left (fun df c => set_column c (Str []) df) missing df_exist in
              let existing_cols' := existing_cols ++ missing in
              do rows <- to_csv_rows render_cell NaN df_exist' existing_cols';
              Ok (Some (mkDataFrame existing_cols' rows), existing_cols')
          end in
        match rewritten with
        | Raise e => (csv, Raise e)
        | Ok (csv1, cols) =>
            match to_csv_rows render_value None df_new cols with
            | Ok rows =>
                (option_map (fun f => mkDataFrame (columns f) (data f ++ rows)) csv1, Ok tt)
            | Raise e => (csv1, Raise e)
            end
        end
      else write_new
  | Raise _ => write_new
  end.

Definition export_metadata (files : list audio) (csv : option table)
    (length_format : pystr) : option table * result unit :=
  match export_records length_format files with
  | Ok records => write_records records csv
  | Raise e => (csv, Raise e)
  end.

(** ** import_metadata *)

(** [for e in entries]. *)
Definition iter (v : Json.value) : result (list Json.value) :=
  match v with
  | Json.JList l => Ok l
  | Json.JDict d => Ok (map Json.JStr (Dict.keys d))
  | Json.JStr s => Ok (map (fun c => Json.JStr [c]) s)
  | _ => Raise TypeError
  end.

(** [e[k]] for a string [k]. *)
Definition getitem (k : pystr) (e : Json.value) : result Json.value :=
  match e with
  | Json.JDict d =>
      match Dict.get k d with
      | Some v => Ok v
      | None => Raise KeyError
      end
  | _ => Raise TypeError
  end.

Fixpoint comprehension (f : Json.value -> result Json.value) (l : list Json.value)
  : result (list Json.value) :=
  match l with
  | [] => Ok []
  | e :: rest =>
      do x <- f e;
      do xs <- comprehension f rest;
      Ok (x :: xs)
  end.

Definition loads_cell (c : cell) : result Json.value :=
  match c with
  | NaN => Raise TypeError
  | Str s => Json.loads s
  end.

(** The texts and the times read from a cue cell. *)
Definition load_cues (c : cell) : result (list Json.value * list Json.value) :=
  do entries <- loads_cell c;
  do es <- iter entries;
  do texts <- comprehension (getitem lit:("text")) es;
  do times <- comprehension (getitem lit:("ts_ms")) es;
  Ok (texts, times).

Definition managed_frames : list pystr :=
  [ lit:("TIT2"); lit:("TPE1"); lit:("TALB"); lit:("TRCK"); lit:("TPOS");
    lit:("TCON"); lit:("TDRC"); lit:("TCOM"); lit:("COMM"); lit:("USLT");
    lit:("SYLT"); lit:("TXXX") ].

Definition delete_managed (t : tags) : tags :=
  fold_left (fun t frame => delall frame t) managed_frames t.

(** [if row.get(c): tags.add(F(text=[row[c]]))]. *)
Definition add_if (cols : list pystr) (row : list cell) (c : pystr)
    (mk : list pystr -> frame) (t : tags) : tags :=
  match row_get cols row c with
  | Some x => if truthy x then add (mk [cell_str x]) t else t
  | None => t
  end.

Definition eng : pystr := lit:("eng").

(** The body of the loop from the deletion of the managed frames to the
    last [tags.add]. *)
Definition write_frames (cols : list pystr) (row : list cell) (t0 : tags) : result tags :=
  let t := delete_managed t0 in
  let t := add_if cols row lit:("title") (TextFrame lit:("TIT2")) t in
  let t := add_if cols row lit:("artist") (TextFrame lit:("TPE1")) t in
  let t := add_if cols row lit:("album") (TextFrame lit:("TALB")) t in
  let t := add_if cols row lit:("tracknumber") (TextFrame lit:("TRCK")) t in
  let t := add_if cols row lit:("disc") (TextFrame lit:("TPOS")) t in
  let t := add_if cols row lit:("genre") (TextFrame lit:("TCON")) t in
  let t := add_if cols row lit:("date") (TextFrame lit:("TDRC")) t in
  let t := add_if cols row lit:("composer") (TextFrame lit:("TCOM")) t in
  let t := add_if cols row lit:("comments") (COMM [] eng) t in
  let t := add_if cols row lit:("lyrics") (fun text => USLT [] eng (inr text)) t in
  match row_get cols row lit:("synced_lyrics") with
  | Some c =>
      if truthy c then
        do cues <- load_cues c;
        Ok (add (SYLT [] eng 1 (fst cues) (snd cues)) t)
      else Ok t
  | None => Ok t
  end.

Record state : Type := mkState {
  fs : filesystem;
  updated : nat;
  stderr : list pystr
}.

(** The loop over the rows.  An exception leaves the loop with the state
    reached so far. *)
Fixpoint import_rows (mp3_dir : pystr) (cols : list pystr) (rows : list (list cell))
    (st : state) : state * result unit :=
  match rows with
  | [] => (st, Ok tt)
  | row :: rest =>
      match row_item cols row lit:("filename") with
      | Raise e => (st, Raise e)
      | Ok fn =>
          let full_path := Py.path_join mp3_dir (cell_str fn) in
          if negb (isfile (fs st) full_path) then import_rows mp3_dir cols rest st
          else
            match write_frames cols row (load (read_file (fs st) full_path)) with
            | Raise e => (st, Raise e)
            | Ok tags =>
                import_rows mp3_dir cols rest
                  (mkState (Dict.set full_path (Some tags) (fs st))
                           (S (updated st)) (stderr st))
            end
      end
  end.

Definition normalize (c : pystr) : pystr := Py.lower (Py.strip c).

Definition quote : pystr := [39%N].

Definition import_metadata (csv_path : pystr) (csv : option table) (mp3_dir : pystr)
    (fs0 : filesystem) : state * result unit :=
  let st := mkState fs0 O [] in
  match read_csv csv with
  | Raise FileNotFoundError =>
      (mkState fs0 O [lit:("Error: ") ++ quote ++ csv_path ++ quote ++ lit:(" not found.")],
       Ok tt)
  | Raise e => (st, Raise e)
  | Ok df =>
      let df := rename normalize (fillna df) in
      if negb (Py.mem lit:("filename") (columns df)) then
        (mkState fs0 O [lit:("Error: 'filename' column not found.")], Ok tt)
      else import_rows mp3_dir (columns df) (data df) st
  end.

(** ** Notions the properties are stated with *)

(** The columns a record always has, in the order of the dictionary
    display, and the two keys added after it. *)
Definition base_columns : list pystr :=
  [ lit:("filename"); lit:("title"); lit:("artist"); lit:("album");
    lit:("tracknumber"); lit:("disc"); lit:("genre"); lit:("date");
    lit:("composer"); lit:("comments"); lit:("length"); lit:("bitrate") ].

Definition col_lyrics : pystr := lit:("lyrics").
Definition col_synced_lyrics : pystr := lit:("synced_lyrics").

Definition optional_orders : list (list pystr) :=
  [ []; [col_lyrics]; [col_synced_lyrics];
    [col_lyrics; col_synced_lyrics]; [col_synced_lyrics; col_lyrics] ].

(** Is the field [c] of the row set: is [row.get(c)] true? *)
Definition field_set (cols : list pystr) (row : list cell) (c : pystr) : bool :=
  match row_get cols row c with
  | Some x => truthy x
  | None => false
  end.

Definition field_text (cols : list pystr) (row : list cell) (c : pystr) : pystr :=
  match row_get cols row c with
  | Some x => cell_str x
  | None => []
  end.

(** The columns with a text frame of their own, and the frame of each. *)
Definition text_fields : list (pystr * pystr) :=
  [ (lit:("title"), lit:("TIT2")); (lit:("artist"), lit:("TPE1"));
    (lit:("album"), lit:("TALB")); (lit:("tracknumber"), lit:("TRCK"));
    (lit:("disc"), lit:("TPOS")); (lit:("genre"), lit:("TCON"));
    (lit:("date"), lit:("TDRC")); (lit:("composer"), lit:("TCOM")) ].

Definition text_ids : list pystr := map snd text_fields.

Definition described_ids : list pystr :=
  [ lit:("COMM"); lit:("USLT"); lit:("SYLT"); lit:("TXXX") ].

(** A container as the library builds it: the hash key of a frame is its
    identifier, followed by a colon and the description only for the frame
    types that have one.  So no hash key is a text-frame identifier followed
    by a colon, and none is the bare identifier of a described frame. *)
Definition wf_frame (f : frame) : bool :=
  forallb (fun m => negb (has_prefix m f)) text_ids
  && forallb (fun m => negb (has_key m f)) described_ids.

Definition wf_tags (t : tags) : bool := forallb wf_frame t.

(** A frame with a description that is not one of the two disc words. *)
Definition no_disc_desc (g : frame) : Prop :=
  exists dg, desc g = Ok dg /\ is_disc_desc dg = false.

(** The dedicated frame has no text to offer: it is absent, or its first
    text is empty. *)
Definition no_tpos (id3 : tags) : Prop :=
  get lit:("TPOS") id3 = None
  \/ exists f, get lit:("TPOS") id3 = Some f /\ text0 f = Ok [].

(** The keys of a record: the base columns, then the optional ones it has. *)
Definition record_keys_ok (r : record) : Prop :=
  exists opt,
    Dict.keys r = base_columns ++ opt
    /\ In opt [[]; [col_lyrics]; [col_synced_lyrics]; [col_lyrics; col_synced_lyrics]].

(** The file has no data to append to: it is absent, it has no header, or
    it has no row. *)
Definition no_data (csv : option table) : Prop :=
  match csv with
  | None => True
  | Some df => empty df = true
  end.

(** A frame no managed identifier selects. *)
Definition unmanaged (f : frame) : bool :=
  forallb (fun m => negb (has_key m f) && negb (has_prefix m f)) managed_frames.

(** A frame that is there when [b] holds. *)
Definition opt_frame (b : bool) (f : frame) : list frame := if b then [f] else [].

(** [if b: tags.add(f)]. *)
Definition cond_add (t : tags) (p : bool * frame) : tags :=
  if fst p then add (snd p) t else t.

(** The frames of the pieces whose condition holds, in order. *)
Definition frames_of (pieces : list (bool * frame)) : list frame :=
  flat_map (fun p => opt_frame (fst p) (snd p)) pieces.

(** The condition and the frame of one [if row.get(c): tags.add(...)]. *)
Definition piece (cols : list pystr) (row : list cell) (c : pystr)
    (mk : list pystr -> frame) : bool * frame :=
  (field_set cols row c, mk [field_text cols row c]).

Definition text_pieces (cols : list pystr) (row : list cell) : list (bool * frame) :=
  [ piece cols row lit:("title") (TextFrame lit:("TIT2"));
    piece cols row lit:("artist") (TextFrame lit:("TPE1"));
    piece cols row lit:("album") (TextFrame lit:("TALB"));
    piece cols row lit:("tracknumber") (TextFrame lit:("TRCK"));
    piece cols row lit:("disc") (TextFrame lit:("TPOS"));
    piece cols row lit:("genre") (TextFrame lit:("TCON"));
    piece cols row lit:("date") (TextFrame lit:("TDRC"));
    piece cols row lit:("composer") (TextFrame lit:("TCOM"));
    piece cols row lit:("comments") (COMM [] eng);
    piece cols row lit:("lyrics") (fun text => USLT [] eng (inr text)) ].

(** No string occurs twice. *)
Fixpoint distinct (ks : list pystr) : bool :=
  match ks with
  | [] => true
  | k :: r => negb (Py.mem k r) && distinct r
  end.

(** The identifier [m] does not select the frame. *)
Definition clean (m : pystr) (f : frame) : bool :=
  negb (has_key m f) && negb (has_prefix m f).

(** The keys the importer writes under. *)
Definition written_keys : list pystr :=
  text_ids ++ [ lit:("COMM::eng"); lit:("USLT::eng"); lit:("SYLT::eng") ].

(** The frame of the cues, always added once they are read. *)
Definition sylt_piece (cues : list Json.value * list Json.value) : bool * frame :=
  (true, SYLT [] eng 1 (fst cues) (snd cues)).

(** Does the row name a file of the directory? *)
Definition names_file (mp3_dir : pystr) (cols : list pystr) (files : filesystem)
    (row : list cell) : bool :=
  match row_get cols row lit:("filename") with
  | Some fn => isfile files (Py.path_join mp3_dir (cell_str fn))
  | None => false
  end.


(** The row of a record under the columns [cols]: the text of each field,
    empty for a field the record lacks. *)
Definition record_row (cols : list pystr) (r : record) : list cell :=
  map (fun c => Str (render_value (Dict.get c r))) cols.

(** A row of a table of [n] columns written again with [k] new, empty
    columns. *)
Definition widen (n k : nat) (row : list cell) : list cell :=
  map (fun c => Str (render_cell c)) (fit n row) ++ repeat (Str []) k.

End Transfer.

(* ================================================================== *)
(** * [src/transfer-mp3md/transfer-mp3md.py]: the earlier importer *)

Module TransferV1.

Import ID3 Pandas.

Record filesystem : Type := mkFilesystem {
  dirs : list pystr;
  files : Dict.t ID3.file
}.

Definition isdir (fs : filesystem) (path : pystr) : bool := Py.mem path (dirs fs).

Definition isfile (fs : filesystem) (path : pystr) : bool :=
  Transfer.isfile (files fs) path.

Record state : Type := mkState {
  fs : filesystem;
  updated : nat;
  stderr : list pystr
}.

Definition standard_frames : list pystr :=
  [ lit:("TIT2"); lit:("TPE1"); lit:("TALB"); lit:("TRCK");
    lit:("TCON"); lit:("TDRC"); lit:("TCOM"); lit:("COMM") ].

Definition write_frames (cols : list pystr) (row : list cell) (t0 : tags) : tags :=
  let t := fold_left (fun t frame => delall frame t) standard_frames t0 in
  let t := Transfer.add_if cols row lit:("title") (TextFrame lit:("TIT2")) t in
  let t := Transfer.add_if cols row lit:("artist") (TextFrame lit:("TPE1")) t in
  let t := Transfer.add_if cols row lit:("album") (TextFrame lit:("TALB")) t in
  let t := Transfer.add_if cols row lit:("tracknumber") (TextFrame lit:("TRCK")) t in
  let t := Transfer.add_if cols row lit:("genre") (TextFrame lit:("TCON")) t in
  let t := Transfer.add_if cols row lit:("date") (TextFrame lit:("TDRC")) t in
  let t := Transfer.add_if cols row lit:("composer") (TextFrame lit:("TCOM")) t in
  Transfer.add_if cols row lit:("comments") (COMM [] Transfer.eng) t.

Definition warn_missing_filename (idx : nat) : pystr :=
  lit:("Warning: missing filename on row ") ++ Py.repr_int (Z.of_nat idx)
  ++ lit:(", skipping.").

Definition warn_not_found (full_path : pystr) : pystr :=
  lit:("Warning: ") ++ Transfer.quote ++ full_path ++ Transfer.quote
  ++ lit:(" not found, skipping.").

Fixpoint import_rows (mp3_dir : pystr) (cols : list pystr) (idx : nat)
    (rows : list (list cell)) (st : state) : state * result unit :=
  match rows with
  | [] => (st, Ok tt)
  | row :: rest =>
      match row_item cols row lit:("filename") with
      | Raise e => (st, Raise e)
      | Ok fn =>
          if negb (truthy fn) then
            import_rows mp3_dir cols (S idx) rest
              (mkState (fs st) (updated st) (stderr st ++ [warn_missing_filename idx]))
          else
            let full_path := Py.path_join mp3_dir (cell_str fn) in
            if negb (isfile (fs st) full_path) then
              import_rows mp3_dir cols (S idx) rest
                (mkState (fs st) (updated st) (stderr st ++ [warn_not_found full_path]))
            else
              let tags := write_frames cols row
                            (load (Transfer.read_file (files (fs st)) full_path)) in
              import_rows mp3_dir cols (S idx) rest
                (mkState (mkFilesystem (dirs (fs st))
                            (Dict.set full_path (Some tags) (files (fs st))))
                         (S (updated st)) (stderr st))
      end
  end.

Definition import_metadata (csv_path : pystr) (csv : option table) (mp3_dir : pystr)
    (fs0 : filesystem) : state * result unit :=
  let q := Transfer.quote in
  if negb (isdir fs0 mp3_dir) then
    (mkState fs0 O [lit:("Error: ") ++ q ++ mp3_dir ++ q ++ lit:(" is not a directory.")],
     Raise SystemExit)
  else
    match csv with
    | None =>
        (mkState fs0 O [lit:("Error: CSV file ") ++ q ++ csv_path ++ q ++ lit:(" not found.")],
         Raise SystemExit)
    | Some _ =>
        match read_csv csv with
        | Raise e => (mkState fs0 O [], Raise e)
        | Ok df =>
            let df := rename Transfer.normalize (fillna df) in
            if negb (Py.mem lit:("filename") (columns df)) then
              (mkState fs0 O [lit:("Error: 'filename' column not found in CSV.")],
               Raise SystemExit)
            else import_rows mp3_dir (columns df) O (data df) (mkState fs0 O [])
        end
    end.

(** ** export_metadata *)

(** One audio file as the walk over the directory finds it. *)
Record mp3 : Type := mkMp3 {
  basename : pystr;
  id3_file : ID3.file
}.

Definition export_record (a : mp3) : result Transfer.record :=
  let id3 := load (id3_file a) in
  let comms := getall lit:("COMM") id3 in
  do title <- Transfer.get_txt id3 lit:("TIT2");
  do artist <- Transfer.get_txt id3 lit:("TPE1");
  do album <- Transfer.get_txt id3 lit:("TALB");
  do tracknumber <- Transfer.get_txt id3 lit:("TRCK");
  do genre <- Transfer.get_txt id3 lit:("TCON");
  do date <- Transfer.get_txt id3 lit:("TDRC");
  do composer <- Transfer.get_txt id3 lit:("TCOM");
  do comments <- match comms with
                 | c :: _ => text0 c
                 | [] => Ok []
                 end;
  Ok [ (lit:("filename"), Transfer.VStr (basename a));
       (lit:("title"), Transfer.VStr title);
       (lit:("artist"), Transfer.VStr artist);
       (lit:("album"), Transfer.VStr album);
       (lit:("tracknumber"), Transfer.VStr tracknumber);
       (lit:("genre"), Transfer.VStr genre);
       (lit:("date"), Transfer.VStr date);
       (lit:("composer"), Transfer.VStr composer);
       (lit:("comments"), Transfer.VStr comments) ].

Fixpoint export_records (found : list mp3) : result (list Transfer.record) :=
  match found with
  | [] => Ok []
  | a :: rest =>
      do r <- export_record a;
      do rs <- export_records rest;
      Ok (r :: rs)
  end.

Definition col_filename : pystr := lit:("filename").

(** [['filename'] + [c for c in existing_cols
                       if c in df_new.columns and c != 'filename']]. *)
Definition cols_to_write (existing_cols new_cols : list pystr) : list pystr :=
  col_filename
  :: filter (fun c => Py.mem c new_cols && negb (Py.eqb c col_filename)) existing_cols.

Definition warn_no_columns (csv_path : pystr) : pystr :=
  lit:("Warning: no matching columns to append to ") ++ csv_path.

(** [export_metadata] on the audio files [found] under [mp3_dir].  The
    result is the CSV file afterwards, what was written to the error stream,
    and how the command ended. *)
Definition export_metadata (fs0 : filesystem) (mp3_dir : pystr) (found : list mp3)
    (csv_path : pystr) (csv : option table)
  : option table * list pystr * result unit :=
  let q := Transfer.quote in
  if negb (isdir fs0 mp3_dir) then
    (csv, [lit:("Error: ") ++ q ++ mp3_dir ++ q ++ lit:(" is not a directory.")],
     Raise SystemExit)
  else
    match export_records found with
    | Raise e => (csv, [], Raise e)
    | Ok records =>
        let df_new := Transfer.DataFrame_of_records records in
        let write_new :=
          match to_csv_rows Transfer.render_value None df_new (columns df_new) with
          | Ok rows => (Some (mkDataFrame (columns df_new) rows), [], Ok tt)
          | Raise e => (csv, [], Raise e)
          end in
        match read_csv csv with
        | Ok df_existing =>
            if negb (empty df_existing) then
              let existing_cols := columns df_existing in
              let cols := cols_to_write existing_cols (columns df_new) in
              if Nat.eqb (length cols) 1 then (csv, [warn_no_columns csv_path], Ok tt)
              else
                match to_csv_rows Transfer.render_value None df_new cols with
                | Ok rows =>
                    (Some (mkDataFrame existing_cols (data df_existing ++ rows)), [],
                     Ok tt)
                | Raise e => (csv, [], Raise e)
                end
            else write_new
        | Raise _ => write_new
        end
    end.

(** The nine keys of a record. *)
Definition record_keys : list pystr :=
  [ lit:("filename"); lit:("title"); lit:("artist"); lit:("album");
    lit:("tracknumber"); lit:("genre"); lit:("date"); lit:("composer");
    lit:("comments") ].

End TransferV1.

(* ================================================================== *)
(** * [src/mp3metadata/md-csv2json.py] *)

Module Csv2Json.

Import Pandas.

(** The names of the twelve modes, in Farsi, and their acronyms. *)
Definition GENRE_ACRONYMS : Dict.t pystr :=
  [
    ([1583; 1587; 1578; 1711; 1575; 1607; 32; 1605; 1575; 1607; 1608; 1585]%N,
     lit:("MHUR"));
    ([1583; 1587; 1578; 1711; 1575; 1607; 32; 1670; 1607; 1575; 1585; 1711; 1575; 1607]%N,
     lit:("CHGH"));
    ([1583; 1587; 1578; 1711; 1575; 1607; 32; 1587; 1607; 8204; 1711; 1575; 1607]%N,
     lit:("SGAH"));
    ([1583; 1587; 1578; 1711; 1575; 1607; 32; 1607; 1605; 1575; 1740; 1608; 1606]%N,
     lit:("HMYN"));
    ([1570; 1608; 1575; 1586; 32; 1575; 1589; 1601; 1607; 1575; 1606]%N,
     lit:("H-ESF"));
    ([1583; 1587; 1578; 1711; 1575; 1607; 32; 1606; 1608; 1575]%N,
     lit:("NAVA"));
    ([1583; 1587; 1578; 1711; 1575; 1607; 32; 1585; 1575; 1587; 1578; 8204; 1662; 1606; 1580; 1711; 1575; 1607]%N,
     lit:("RSTP"));
    ([1583; 1587; 1578; 1711; 1575; 1607; 32; 1588; 1608; 1585]%N,
     lit:("SHUR"));
    ([1570; 1608; 1575; 1586; 32; 1575; 1576; 1608; 1593; 1591; 1575]%N,
     lit:("S-ABT"));
    ([1570; 1608; 1575; 1586; 32; 1575; 1601; 1588; 1575; 1585; 1740]%N,
     lit:("S-AFS"));
    ([1570; 1608; 1575; 1586; 32; 1576; 1740; 1575; 1578; 8204; 1578; 1585; 1705]%N,
     lit:("S-TRK"));
    ([1570; 1608; 1575; 1586; 32; 1583; 1588; 1578; 1740]%N,
     lit:("S-DST"))
  ].

Inductive disc_value : Type :=
| DNone
| DInt (z : Z)
| DStr (s : pystr).

Record entry : Type := mkEntry {
  filename : pystr;
  title : pystr;
  artist : pystr;
  genre : pystr;
  composer : pystr;
  poet : pystr;
  length : option Z;
  disc : disc_value;
  bitrate : option Z
}.

(** [row.get(c, '').strip()]. *)
Definition get_strip (cols : list pystr) (row : list cell) (c : pystr) : result pystr :=
  match row_get cols row c with
  | None => Ok (Py.strip [])
  | Some NaN => Raise AttributeError
  | Some (Str s) => Ok (Py.strip s)
  end.

(** The disc number from the trimmed cell. *)
Definition parse_disc (disc_val : pystr) : disc_value :=
  if Py.truthy disc_val then
    match Py.int_of_str disc_val with
    | Some z => DInt z
    | None => DStr disc_val
    end
  else DNone.

(** [int(v) if pd.notna(v) and v != '' else None] for [v = row.get(c)]. *)
Definition parse_int (v : option cell) : result (option Z) :=
  match v with
  | None | Some NaN => Ok None
  | Some (Str s) =>
      if Py.truthy s then
        match Py.int_of_str s with
        | Some z => Ok (Some z)
        | None => Raise ValueError
        end
      else Ok None
  end.

(** [row.get('album', '').strip() or row.get('genre', '').strip()]. *)
Definition genre_name (cols : list pystr) (row : list cell) : result pystr :=
  do album <- get_strip cols row lit:("album");
  if Py.truthy album then Ok album else get_strip cols row lit:("genre").

Definition pipe : pystr := [124%N].

Definition make_key (acronym filename : pystr) : pystr :=
  let base_name := fst (Py.splitext filename) in
  acronym ++ pipe ++ base_name.

(** The body of the loop over the rows of a file, up to the assignment:
    [None] when the row is passed over ([continue]), else the key and the
    value that are assigned. *)
Definition row_update (cols : list pystr) (row : list cell)
  : result (option (pystr * entry)) :=
  do name <- genre_name cols row;
  let acronym := Dict.get name GENRE_ACRONYMS in
  do filename <- get_strip cols row lit:("filename");
  match acronym with
  | None => Ok None
  | Some acronym =>
      if negb (Py.truthy acronym) || negb (Py.truthy filename) then Ok None
      else
        let key := make_key acronym filename in
        do disc_val <- get_strip cols row lit:("disc");
        let disc := parse_disc disc_val in
        do length <- parse_int (row_get cols row lit:("length"));
        do bitrate <- parse_int (row_get cols row lit:("bitrate"));
        do title <- get_strip cols row lit:("title");
        do artist <- get_strip cols row lit:("artist");
        do genre <- get_strip cols row lit:("album");
        do composer <- get_strip cols row lit:("composer");
        do poet <- get_strip cols row lit:("comments");
        Ok (Some (key, mkEntry filename title artist genre composer poet
                               length disc bitrate))
  end.

(** One turn of the loop: [combined[key] = {...}]. *)
Definition process_row (cols : list pystr) (row : list cell) (combined : Dict.t entry)
  : result (Dict.t entry) :=
  do u <- row_update cols row;
  match u with
  | None => Ok combined
  | Some (key, e) => Ok (Dict.set key e combined)
  end.

Fixpoint process_rows (cols : list pystr) (rows : list (list cell))
    (combined : Dict.t entry) : result (Dict.t entry) :=
  match rows with
  | [] => Ok combined
  | row :: rest =>
      do combined' <- process_row cols row combined;
      process_rows cols rest combined'
  end.

Fixpoint process_files (csv_files : list table) (combined : Dict.t entry)
  : result (Dict.t entry) :=
  match csv_files with
  | [] => Ok combined
  | f :: rest =>
      do df <- read_csv (Some f);
      do combined' <- process_rows (columns df) (data df) combined;
      process_files rest combined'
  end.

(** [convert_csvs_to_json] on the CSV files the inputs name, in the order
    they were collected.  [output] is what is at the output path; the
    function returns what is there afterwards and how it ended. *)
Definition convert_csvs_to_json (csv_files : list table) (output : option (Dict.t entry))
  : option (Dict.t entry) * result unit :=
  match csv_files with
  | [] => (output, Raise SystemExit)
  | _ :: _ =>
      match process_files csv_files [] with
      | Ok combined => (Some combined, Ok tt)
      | Raise e => (output, Raise e)
      end
  end.

(** ** Notions the properties are stated with *)

(** The entry stands under the key made from its own file name and the
    acronym of some mode of the table. *)
Definition keyed (k : pystr) (e : entry) : Prop :=
  exists name acr,
    Dict.get name GENRE_ACRONYMS = Some acr
    /\ filename e <> []
    /\ k = make_key acr (filename e).

(** The cell under [c] is empty, absent, or an integer literal. *)
Definition int_cell (cols : list pystr) (row : list cell) (c : pystr) : bool :=
  match row_get cols row c with
  | Some (Str s) =>
      negb (Py.truthy s)
      || match Py.int_of_str s with Some _ => true | None => false end
  | _ => true
  end.

(** A row the converter can read: text cells, and a length and a bit rate
    that are empty or integer literals. *)
Definition readable (cols : list pystr) (row : list cell) : bool :=
  text_row cols row
  && int_cell cols row lit:("length")
  && int_cell cols row lit:("bitrate").

(** A file with a header and readable rows. *)
Definition readable_file (f : table) : bool :=
  match columns f with
  | [] => false
  | _ :: _ => forallb (readable (columns f)) (data f)
  end.

End Csv2Json.

(* ================================================================== *)
(** * Cue serialization, as the two commands perform it

    [export_metadata] writes the cues of the [SYLT] frames as one JSON
    array of [{"ts_ms": ..., "text": ...}] objects; [import_metadata] reads
    such a cell back into the texts and the times of one [SYLT] frame. *)

Module Cues.

Import Json.

Record cue : Type := mkCue {
  offset_ms : Z;
  text : pystr
}.

Definition cue_texts (x : list cue) : list value := map (fun c => JStr (text c)) x.
Definition cue_times (x : list cue) : list value := map (fun c => JInt (offset_ms c)) x.

(** The frame that holds the cues [x]. *)
Definition cue_frame (x : list cue) : ID3.frame :=
  ID3.SYLT [] Transfer.eng 1 (cue_texts x) (cue_times x).

Definition entry_of (c : cue) : value :=
  Transfer.cue_entry (JStr (text c)) (JInt (offset_ms c)).

(** [json.dumps(entries, ensure_ascii=False)] for the entries of [x]. *)
Definition EncodeCues (x : list cue) : pystr := dumps (JList (map entry_of x)).

(** What the importer reads from a cue cell: the texts and the times. *)
Definition DecodeCues (s : pystr) : result (list value * list value) :=
  Transfer.load_cues (Pandas.Str s).

(** The cues as a sequence again, when the texts are strings and the times
    integers. *)
Fixpoint zip_cues (texts times : list value) : option (list cue) :=
  match texts, times with
  | [], [] => Some []
  | JStr t :: texts', JInt z :: times' =>
      option_map (cons (mkCue z t)) (zip_cues texts' times')
  | _, _ => None
  end.

(** The text of one entry is [entry_head], the offset, [entry_middle], the
    escaped text, and the closing quote and brace. *)
Definition entry_head : pystr :=
  [123; 34; 116; 115; 95; 109; 115; 34; 58; 32]%N.
Definition entry_middle : pystr :=
  [44; 32; 34; 116; 101; 120; 116; 34; 58; 32; 34]%N.

(** The text between the brackets. *)
Definition entries_text (x : list cue) : pystr :=
  join item_separator (map dumps (map entry_of x)).

End Cues.

(* ================================================================== *)
(** * [src/mp4-to-mp3/_mp4-2-mp3.py] *)

Module Mp4ToMp3.

(** A code point of the class [؀-ۿ]. *)
Definition arabic (c : N) : bool := ((1536 <=? c) && (c <=? 1791))%N.

(** [arabic_re.sub(_reverse_match, text)]: every maximal run of Arabic
    script is replaced by its reverse.  [run] is the run being read, last
    code point first. *)
Fixpoint fix_rtl_from (run : pystr) (text : pystr) : pystr :=
  match text with
  | [] => run
  | c :: r =>
      if arabic c then fix_rtl_from (c :: run) r
      else run ++ c :: fix_rtl_from [] r
  end.

Definition fix_rtl (text : pystr) : pystr := fix_rtl_from [] text.

End Mp4ToMp3.

(* ================================================================== *)
(** * [src/convert-real2mp3/convert_real_to_mp3-v2.py] *)

Module ConvertReal.

(** [get_bitrate_kbps], on what [ffprobe] printed, or the exception the call
    ended with. *)
Definition get_bitrate_kbps (stdout : result pystr) : pystr :=
  match stdout with
  | Ok out =>
      match Py.int_of_str (Py.strip out) with
      | Some bitrate_bps =>
          let bitrate_kbps := Z.max 32 (bitrate_bps / 1000) in
          Py.repr_int bitrate_kbps ++ lit:("k")
      | None => lit:("192k")
      end
  | Raise _ => lit:("192k")
  end.

End ConvertReal.

(* ================================================================== *)
(** * The column order the specification states *)

Module Stated.

(** The order of the columns as the specification gives it. *)
Definition claimed_order : list pystr :=
  [ lit:("filename"); lit:("title"); lit:("artist"); lit:("album");
    lit:("tracknumber"); lit:("disc"); lit:("genre"); lit:("date");
    lit:("composer"); lit:("comments"); lit:("lyrics"); lit:("synced_lyrics");
    lit:("length"); lit:("bitrate") ].

(** Do the strings of [a] occur in [b], in the same order? *)
Fixpoint is_subsequence (a b : list pystr) : bool :=
  match b with
  | [] => match a with [] => true | _ :: _ => false end
  | y :: b' =>
      match a with
      | [] => true
      | x :: a' => if Py.eqb x y then is_subsequence a' b' else is_subsequence a b'
      end
  end.
End Stated.

(* ================================================================== *)
(** * Sample inputs *)

Module Samples.

Import ID3 Pandas.

(** Cues with a repeated offset, text outside ASCII, and text that needs
    escaping. *)
Definition cues : list Cues.cue :=
  [ Cues.mkCue 1000 [1587; 1604; 1575; 1605]%N;
    Cues.mkCue 1000 [97; 34; 98; 92; 99; 10; 1; 128512]%N;
    Cues.mkCue 0 [] ].

Definition mp3_dir : pystr := lit:("music").
Definition csv_path : pystr := lit:("tags.csv").
Definition mm_ss : pystr := lit:("mm:ss").

(** A container with a title, a disc frame, a fallback disc description, a
    comment and a picture. *)
Definition tagged : ID3.tags :=
  [ TextFrame lit:("TIT2") [lit:("Song A")];
    TextFrame lit:("TPOS") [lit:("1")];
    TXXX lit:("Note") [lit:("x")];
    TXXX lit:(" Disc ") [lit:("9")];
    COMM [] lit:("eng") [lit:("old")];
    Other lit:("APIC:cover") ].

(** The same without the dedicated disc frame. *)
Definition tagged_fallback : ID3.tags :=
  [ TextFrame lit:("TIT2") [lit:("Song A")];
    TXXX lit:("Note") [lit:("x")];
    TXXX lit:(" Disc ") [lit:("9")];
    TXXX lit:("disk") [lit:("7")] ].

Definition with_lyrics : ID3.tags :=
  [ TextFrame lit:("TIT2") [lit:("Song B")];
    USLT [] lit:("eng") (inl lit:("la la")) ].

Definition audio_a : Transfer.audio :=
  Transfer.mkAudio lit:("a.mp3") 225 128000 (Some tagged).

Definition audio_b : Transfer.audio :=
  Transfer.mkAudio lit:("b.mp3") 61 192000 (Some with_lyrics).

Definition audio_bare : Transfer.audio :=
  Transfer.mkAudio lit:("c.mp3") 7 64000 None.

(** A directory with four audio files. *)
Definition files : Transfer.filesystem :=
  [ (lit:("music/a.mp3"), Some tagged);
    (lit:("music/b.mp3"), None);
    (lit:("music/c.mp3"), Some with_lyrics);
    (lit:("music/d.mp3"), None) ].

Definition str_row (l : list pystr) : list cell := map Str l.

(** Five rows, the third without a file name. *)
Definition five_rows : table :=
  mkDataFrame [lit:("filename"); lit:("title")]
    [ str_row [lit:("a.mp3"); lit:("A")];
      str_row [lit:("b.mp3"); lit:("B")];
      str_row [lit:(""); lit:("C")];
      str_row [lit:("c.mp3"); lit:("")];
      str_row [lit:("d.mp3"); lit:("D")] ].

(** Two rows, the first with a cue cell that is no JSON. *)
Definition bad_cue_rows : table :=
  mkDataFrame [lit:("filename"); lit:("title"); lit:("synced_lyrics")]
    [ str_row [lit:("a.mp3"); lit:("A"); lit:("not json")];
      str_row [lit:("b.mp3"); lit:("B"); lit:("")] ].

(** A row to import: a title, no artist, a disc number. *)
Definition import_cols : list pystr :=
  [lit:("filename"); lit:("title"); lit:("artist"); lit:("disc");
   lit:("synced_lyrics")].
Definition import_row : list cell :=
  str_row [lit:("a.mp3"); lit:("New"); lit:(""); lit:("2"); lit:("[]")].

Definition imported : ID3.tags :=
  match Transfer.write_frames import_cols import_row tagged with
  | Ok t => t
  | Raise _ => []
  end.

(** A table exported earlier from files with lyrics. *)
Definition table_with_lyrics : table :=
  mkDataFrame (Transfer.base_columns ++ [Transfer.col_lyrics])
    [ str_row [lit:("z.mp3"); lit:("Z"); lit:(""); lit:(""); lit:("");
               lit:(""); lit:(""); lit:(""); lit:(""); lit:("");
               lit:("1:01"); lit:("128"); lit:("la") ] ].

(** The name of the mode Shur. *)
Definition shur : pystr := [1583; 1587; 1578; 1711; 1575; 1607; 32; 1588; 1608; 1585]%N.

Definition index_cols : list pystr :=
  [lit:("filename"); lit:("album"); lit:("genre"); lit:("disc"); lit:("length")].

(** A row with the mode in the album cell. *)
Definition album_row : list cell :=
  str_row [lit:("01 Track.mp3"); shur; lit:(""); lit:("3"); lit:("225")].

(** A row with a blank album cell and the mode in the genre cell. *)
Definition genre_row : list cell :=
  str_row [lit:("01 Track.mp3"); lit:(" "); shur; lit:("3/5"); lit:("")].

(** A row whose length is in the exporter's default format. *)
Definition mmss_row : list cell :=
  str_row [lit:("02 Track.mp3"); shur; lit:(""); lit:(""); lit:("3:45")].

Definition index_table : table := mkDataFrame index_cols [album_row; mmss_row].

(** A file whose title frame holds no text. *)
Definition audio_broken : Transfer.audio :=
  Transfer.mkAudio lit:("e.mp3") 10 128000 (Some [TextFrame lit:("TIT2") []]).

(** A table exported earlier from files without lyrics. *)
Definition table_plain : table :=
  mkDataFrame Transfer.base_columns
    [ str_row [lit:("z.mp3"); lit:("Z"); lit:(""); lit:(""); lit:("");
               lit:(""); lit:(""); lit:(""); lit:(""); lit:("");
               lit:("1:01"); lit:("128") ] ].

(** A table of the earlier exporter, and one with a column it does not
    know. *)
Definition table_v1 : table :=
  mkDataFrame [lit:("filename"); lit:("title"); lit:("artist")]
    [ str_row [lit:("z.mp3"); lit:("Z"); lit:("")] ].

Definition table_foreign : table :=
  mkDataFrame [lit:("filename"); lit:("rating")]
    [ str_row [lit:("z.mp3"); lit:("5")] ].

Definition mp3_a : TransferV1.mp3 := TransferV1.mkMp3 lit:("a.mp3") (Some tagged).

Definition v1_files : TransferV1.filesystem :=
  TransferV1.mkFilesystem [mp3_dir] files.

(** Two rows of the same mode and file name, and a file of both. *)
Definition good_index_table : table := mkDataFrame index_cols [album_row; genre_row].

End Samples.

(* ################################################################## *)
(** * Properties *)

(** ** Strings and integers *)

Module PyFacts.

Import Py.
Local Open Scope N_scope.

Lemma eqb_refl (a : pystr) : eqb a a = true.
Proof.
  induction a as [|x a IH]; simpl; [reflexivity|].
  now rewrite N.eqb_refl.
Qed.

Lemma eqb_eq (a b : pystr) : eqb a b = true <-> a = b.
Proof.
  split.
  - revert b; induction a as [|x a IH]; intros [|y b] H; simpl in H;
      try discriminate; [reflexivity|].
    apply andb_true_iff in H as [Hx Hr].
    apply N.eqb_eq in Hx. apply IH in Hr. now subst.
  - intros ->. apply eqb_refl.
Qed.

Lemma eqb_neq (a b : pystr) : eqb a b = false <-> a <> b.
Proof.
  split.
  - intros H E. apply eqb_eq in E. congruence.
  - intros H. destruct (eqb a b) eqn:E; [|reflexivity].
    apply eqb_eq in E. contradiction.
Qed.

Lemma eqb_sym (a b : pystr) : eqb a b = eqb b a.
Proof.
  destruct (eqb a b) eqn:E.
  - apply eqb_eq in E. subst. symmetry. apply eqb_refl.
  - symmetry. apply eqb_neq. apply eqb_neq in E. congruence.
Qed.

Lemma is_digit_spec (c : N) : is_digit c = true <-> 48 <= c <= 57.
Proof.
  unfold is_digit. rewrite andb_true_iff, !N.leb_le. reflexivity.
Qed.

Lemma isspace_spec (c : N) :
  isspace c = true ->
  9 <= c <= 13 \/ 28 <= c <= 32 \/ 133 <= c.
Proof.
  unfold isspace.
  rewrite !orb_true_iff, !andb_true_iff, !N.leb_le, !N.eqb_eq. lia.
Qed.

Lemma decimal_ascii (c : N) : is_digit c = true -> decimal c = Some (c - 48).
Proof.
  intros H. apply is_digit_spec in H.
  unfold decimal, decimal_zeros. cbn [find].
  destruct (N.leb_spec 48 c); [|lia].
  destruct (N.ltb_spec c (48 + 10)); [reflexivity|lia].
Qed.

Lemma digit_not_space (c : N) : is_digit c = true -> isspace c = false.
Proof.
  intros H. apply is_digit_spec in H.
  destruct (isspace c) eqn:E; [|reflexivity].
  apply isspace_spec in E. lia.
Qed.

Lemma dec_digits_aux_S (f : nat) (n : N) (acc : pystr) :
  dec_digits_aux (S f) n acc =
  if n / 10 =? 0 then (48 + n mod 10) :: acc
  else dec_digits_aux f (n / 10) ((48 + n mod 10) :: acc).
Proof. reflexivity. Qed.

(** The digits of [n]: at least one, all decimal, no leading zero except for
    zero itself, and read back by [digits_acc] as [n]. *)
Lemma dec_digits_aux_spec (f : nat) :
  forall (n : N) (acc : pystr),
    n < 2 ^ N.of_nat (S f) ->
    exists c ds,
      dec_digits_aux (S f) n acc = c :: ds ++ acc
      /\ is_digit c = true
      /\ forallb is_digit ds = true
      /\ (n <> 0 -> c <> 48)
      /\ (n = 0 -> ds = [])
      /\ exists k, forall a b r,
           digits_acc a b (c :: ds ++ r) = digits_acc (a * 10 ^ k + n) true r.
Proof.
  assert (one_digit : forall n acc, n < 10 ->
    exists c ds,
      (48 + n mod 10) :: acc = c :: ds ++ acc
      /\ is_digit c = true
      /\ forallb is_digit ds = true
      /\ (n <> 0 -> c <> 48)
      /\ (n = 0 -> ds = [])
      /\ exists k, forall a b r,
           digits_acc a b (c :: ds ++ r) = digits_acc (a * 10 ^ k + n) true r).
  { intros n acc Hn. rewrite (N.mod_small n 10 Hn).
    assert (Hd : is_digit (48 + n) = true) by (apply is_digit_spec; lia).
    exists (48 + n), [].
    split; [reflexivity|]. split; [exact Hd|]. split; [reflexivity|].
    split; [lia|]. split; [reflexivity|].
    exists 1. intros a b r. cbn [app digits_acc]. rewrite (decimal_ascii _ Hd).
    f_equal. lia. }
  induction f as [|f IH]; intros n acc Hn; rewrite dec_digits_aux_S.
  - change (n < 2) in Hn.
    assert (Hs : n / 10 = 0) by (apply N.div_small; lia).
    rewrite Hs. cbn [N.eqb]. apply one_digit. lia.
  - pose proof (N.mod_lt n 10 ltac:(lia)) as Hm.
    pose proof (N.div_mod n 10 ltac:(lia)) as Hd.
    assert (Hlt : n / 10 < 2 ^ N.of_nat (S f)).
    { rewrite Nat2N.inj_succ, N.pow_succ_r' in Hn.
      apply N.Div0.div_lt_upper_bound. lia. }
    destruct (N.eqb_spec (n / 10) 0) as [Hs|Hs].
    + apply one_digit. apply N.div_small_iff in Hs; lia.
    + set (m := n mod 10) in *. set (q := n / 10) in *. clearbody m q.
      destruct (IH q ((48 + m) :: acc) Hlt)
        as (c & ds & E & Hc & Hds & Hnz & _ & k & Hk).
      assert (Hlast : is_digit (48 + m) = true)
        by (apply is_digit_spec; lia).
      exists c, (ds ++ [48 + m]).
      split. { rewrite E. now rewrite <- app_assoc. }
      split. { exact Hc. }
      split. { rewrite forallb_app, Hds. cbn [forallb]. now rewrite Hlast. }
      split. { intros _. apply Hnz, Hs. }
      split. { intros Hz. exfalso. apply Hs. lia. }
      exists (N.succ k). intros a b r.
      rewrite <- app_assoc. rewrite Hk. cbn [app digits_acc].
      rewrite (decimal_ascii _ Hlast).
      f_equal. rewrite N.pow_succ_r'. lia.
Qed.

Lemma dec_digits_spec (n : N) :
  exists c ds,
    dec_digits n = c :: ds
    /\ is_digit c = true
    /\ forallb is_digit ds = true
    /\ (n <> 0 -> c <> 48)
    /\ (n = 0 -> ds = [])
    /\ forall r, digits_acc 0 false (c :: ds ++ r) = digits_acc n true r.
Proof.
  unfold dec_digits.
  assert (Hn : n < 2 ^ N.of_nat (S (N.to_nat (N.log2 n)))).
  { rewrite Nat2N.inj_succ, N2Nat.id.
    destruct n as [|p]; [reflexivity|].
    apply N.log2_spec. lia. }
  destruct (@dec_digits_aux_spec (N.to_nat (N.log2 n)) n [] Hn)
    as (c & ds & E & Hc & Hds & Hnz & Hz & k & Hk).
  exists c, ds. rewrite app_nil_r in E.
  split; [exact E|]. split; [exact Hc|]. split; [exact Hds|].
  split; [exact Hnz|]. split; [exact Hz|].
  intros r. rewrite Hk. f_equal.
Qed.

Lemma lstrip_not_space (c : N) (r : pystr) :
  isspace c = false -> lstrip (c :: r) = c :: r.
Proof. intros H. simpl. now rewrite H. Qed.

(** A string with no white space at either end is its own [strip]. *)
Lemma strip_id (s : pystr) :
  match s with c :: _ => isspace c = false | [] => True end ->
  match rev s with c :: _ => isspace c = false | [] => True end ->
  strip s = s.
Proof.
  intros Hh Hl. unfold strip, rstrip.
  assert (E : lstrip s = s).
  { destruct s as [|c r]; [reflexivity|]. now apply lstrip_not_space. }
  rewrite E.
  destruct (rev s) as [|c r] eqn:Er.
  - simpl. rewrite <- (rev_involutive s), Er. reflexivity.
  - rewrite (lstrip_not_space c r Hl). rewrite <- Er. apply rev_involutive.
Qed.

Lemma last_of_digits (c : N) (ds : pystr) :
  is_digit c = true -> forallb is_digit ds = true ->
  match rev (c :: ds) with x :: _ => isspace x = false | [] => True end.
Proof.
  intros Hc Hds.
  destruct (rev (c :: ds)) as [|x r] eqn:E; [exact I|].
  apply digit_not_space.
  assert (Hin : In x (c :: ds)).
  { apply in_rev. rewrite E. now left. }
  destruct Hin as [<-|Hin]; [exact Hc|].
  rewrite forallb_forall in Hds. now apply Hds.
Qed.

(** [int(str(z)) == z]. *)
Lemma int_of_str_repr (z : Z) : int_of_str (repr_int z) = Some z.
Proof.
  unfold int_of_str, repr_int.
  destruct z as [|p|p].
  - reflexivity.
  - destruct (dec_digits_spec (Z.to_N (Z.pos p)))
      as (c & ds & E & Hc & Hds & _ & _ & Hv).
    rewrite E. rewrite strip_id.
    + apply is_digit_spec in Hc as Hc'.
      destruct (N.eqb_spec c 45) as [->|_]; [lia|].
      destruct (N.eqb_spec c 43) as [->|_]; [lia|].
      specialize (Hv []). rewrite app_nil_r in Hv. rewrite Hv. reflexivity.
    + now apply digit_not_space.
    + now apply last_of_digits.
  - destruct (dec_digits_spec (N.pos p))
      as (c & ds & E & Hc & Hds & _ & _ & Hv).
    rewrite E. rewrite strip_id.
    + rewrite N.eqb_refl.
      specialize (Hv []). rewrite app_nil_r in Hv. rewrite Hv. reflexivity.
    + reflexivity.
    + change (45 :: c :: ds) with ([45] ++ c :: ds). rewrite rev_app_distr.
      pose proof (last_of_digits c ds Hc Hds) as Hl.
      destruct (rev (c :: ds)); [reflexivity|exact Hl].
Qed.

End PyFacts.

(** ** [json.loads] reads back what [json.dumps] writes *)

Module JsonFacts.

Import Json.
Local Open Scope N_scope.

Lemma below_32 (c : N) :
  c < 32 -> In c (map N.of_nat (seq 0 32)).
Proof.
  intros H. rewrite <- (N2Nat.id c). apply in_map. apply in_seq. lia.
Qed.

(** One code point, escaped, is read back as itself. *)
Lemma scanstring_escape_char (c : N) (rest : pystr) :
  scanstring (escape_char c ++ rest) = push c (scanstring rest).
Proof.
  destruct (N.ltb_spec c 32) as [Hlt|Hge].
  - apply below_32 in Hlt. cbn [map seq] in Hlt.
    repeat (destruct Hlt as [<-|Hlt]; [reflexivity|]).
    destruct Hlt.
  - unfold escape_char.
    destruct (N.eqb_spec c 34) as [->|H34]; [reflexivity|].
    destruct (N.eqb_spec c 92) as [->|H92]; [reflexivity|].
    destruct (N.eqb_spec c 10) as [->|_]; [lia|].
    destruct (N.eqb_spec c 13) as [->|_]; [lia|].
    destruct (N.eqb_spec c 9) as [->|_]; [lia|].
    destruct (N.eqb_spec c 8) as [->|_]; [lia|].
    destruct (N.eqb_spec c 12) as [->|_]; [lia|].
    destruct (N.ltb_spec c 32) as [?|_]; [lia|].
    cbn [app scanstring].
    destruct (N.eqb_spec c 34) as [?|_]; [contradiction|].
    destruct (N.eqb_spec c 92) as [?|_]; [contradiction|].
    destruct (N.ltb_spec c 32) as [?|_]; [lia|].
    reflexivity.
Qed.

Lemma scanstring_escaped (s rest : pystr) :
  scanstring (flat_map escape_char s ++ 34 :: rest) = Ok (s, rest).
Proof.
  induction s as [|c s IH].
  - reflexivity.
  - cbn [flat_map]. rewrite <- app_assoc, scanstring_escape_char, IH.
    reflexivity.
Qed.

(** A string, encoded, is read back by [scanstring] past its opening quote. *)
Lemma scanstring_basestring (s rest : pystr) :
  exists body,
    encode_basestring s ++ rest = 34 :: body
    /\ scanstring body = Ok (s, rest).
Proof.
  exists (flat_map escape_char s ++ 34 :: rest). split.
  - unfold encode_basestring. cbn [app]. now rewrite <- app_assoc.
  - apply scanstring_escaped.
Qed.

(** Unfolding equations. *)
Lemma scan_once_string (f : nat) (r : pystr) :
  scan_once (S f) (34 :: r) = do xr <- scanstring r; Ok (JStr (fst xr), snd xr).
Proof. reflexivity. Qed.

Lemma scan_once_object (f : nat) (r : pystr) :
  scan_once (S f) (123 :: 34 :: r) =
  do pr <- object_pairs f r; Ok (JDict (Dict.of_pairs (fst pr)), snd pr).
Proof. reflexivity. Qed.

Lemma scan_once_array (f : nat) (c : N) (r : pystr) :
  is_ws c = false -> c <> 93 ->
  scan_once (S f) (91 :: c :: r) =
  do vr <- array_items f (c :: r); Ok (JList (fst vr), snd vr).
Proof.
  intros Hws Hc. cbn [scan_once N.eqb Pos.eqb skip_ws]. rewrite Hws.
  destruct (N.eqb_spec c 93); [contradiction|reflexivity].
Qed.

Lemma array_items_S (f : nat) (s : pystr) :
  array_items (S f) s =
  do vr <- scan_once f s;
  match skip_ws (snd vr) with
  | c :: r =>
      if c =? 93 then Ok ([fst vr], r)
      else if c =? 44 then
        do vsr <- array_items f (skip_ws r); Ok (fst vr :: fst vsr, snd vsr)
      else Raise JSONDecodeError
  | [] => Raise JSONDecodeError
  end.
Proof. reflexivity. Qed.

Lemma object_pairs_S (f : nat) (s : pystr) :
  object_pairs (S f) s =
  do kr <- scanstring s;
  match skip_ws (snd kr) with
  | c :: r =>
      if c =? 58 then
        do vr <- scan_once f (skip_ws r);
        match skip_ws (snd vr) with
        | c1 :: r1 =>
            if c1 =? 125 then Ok ([(fst kr, fst vr)], r1)
            else if c1 =? 44 then
              match skip_ws r1 with
              | q :: r2 =>
                  if q =? 34 then
                    do pr <- object_pairs f r2;
                    Ok ((fst kr, fst vr) :: fst pr, snd pr)
                  else Raise JSONDecodeError
              | [] => Raise JSONDecodeError
              end
            else Raise JSONDecodeError
        | [] => Raise JSONDecodeError
        end
      else Raise JSONDecodeError
  | [] => Raise JSONDecodeError
  end.
Proof. reflexivity. Qed.

Lemma span_digits_app (ds r : pystr) :
  forallb Py.is_digit ds = true ->
  match r with c :: _ => Py.is_digit c = false | [] => True end ->
  span_digits (ds ++ r) = (ds, r).
Proof.
  intros Hds Hr. induction ds as [|d ds IH].
  - destruct r as [|c r]; [reflexivity|]. cbn [app span_digits]. now rewrite Hr.
  - cbn [forallb] in Hds. apply andb_true_iff in Hds as [Hd Hds].
    cbn [app span_digits]. rewrite Hd, (IH Hds). reflexivity.
Qed.

Lemma match_frac_none (r : pystr) : ends_number r -> match_frac r = ([], r).
Proof.
  destruct r as [|c r]; [reflexivity|]. intros (_ & H & _). cbn [match_frac].
  destruct (N.eqb_spec c 46); [contradiction|reflexivity].
Qed.

Lemma match_exp_none (r : pystr) : ends_number r -> match_exp r = ([], r).
Proof.
  destruct r as [|c r]; [reflexivity|]. intros (_ & _ & H1 & H2). cbn [match_exp].
  destruct (N.eqb_spec c 101); [contradiction|].
  destruct (N.eqb_spec c 69); [contradiction|reflexivity].
Qed.

Lemma ends_number_digit (r : pystr) :
  ends_number r -> match r with c :: _ => Py.is_digit c = false | [] => True end.
Proof. destruct r; [trivial|]. now intros (H & _). Qed.

Lemma match_number_repr (z : Z) (r : pystr) :
  ends_number r ->
  match_number (Py.repr_int z ++ r) = Some (Ok (JInt z, r)).
Proof.
  intros Hr. unfold match_number.
  assert (Hint : match_integer (Py.repr_int z ++ r) = Some (Py.repr_int z, r)).
  { unfold match_integer, Py.repr_int.
    destruct z as [|p|p].
    - reflexivity.
    - destruct (PyFacts.dec_digits_spec (Z.to_N (Z.pos p)))
        as (c & ds & E & Hc & Hds & Hnz & _ & _).
      rewrite E. cbn [app].
      apply PyFacts.is_digit_spec in Hc as Hc'.
      destruct (N.eqb_spec c 45) as [->|_]; [lia|].
      destruct (N.eqb_spec c 48) as [->|_].
      + exfalso. apply Hnz; [|reflexivity]. discriminate.
      + rewrite Hc. rewrite span_digits_app;
          [reflexivity | exact Hds | now apply ends_number_digit].
    - destruct (PyFacts.dec_digits_spec (N.pos p))
        as (c & ds & E & Hc & Hds & Hnz & _ & _).
      rewrite E. cbn [app N.eqb Pos.eqb].
      destruct (N.eqb_spec c 48) as [->|_].
      + exfalso. apply Hnz; [|reflexivity]. discriminate.
      + rewrite Hc. rewrite span_digits_app;
          [reflexivity | exact Hds | now apply ends_number_digit]. }
  rewrite Hint, (match_frac_none r Hr), (match_exp_none r Hr).
  now rewrite PyFacts.int_of_str_repr.
Qed.

Lemma repr_int_head (z : Z) :
  exists c s, Py.repr_int z = c :: s /\ (c = 45 \/ 48 <= c <= 57).
Proof.
  unfold Py.repr_int. destruct z as [|p|p].
  - exists 48, []. split; [reflexivity|lia].
  - destruct (PyFacts.dec_digits_spec (Z.to_N (Z.pos p)))
      as (c & ds & E & Hc & _).
    exists c, ds. split; [exact E|]. right. now apply PyFacts.is_digit_spec.
  - eexists _, _. split; [reflexivity|]. now left.
Qed.

Lemma skip_ws_repr (z : Z) (r : pystr) :
  skip_ws (Py.repr_int z ++ r) = Py.repr_int z ++ r.
Proof.
  destruct (repr_int_head z) as (c & s & E & Hc). rewrite E. cbn [app skip_ws].
  unfold is_ws.
  destruct (N.eqb_spec c 32) as [->|_]; [lia|].
  destruct (N.eqb_spec c 9) as [->|_]; [lia|].
  destruct (N.eqb_spec c 10) as [->|_]; [lia|].
  destruct (N.eqb_spec c 13) as [->|_]; [lia|].
  reflexivity.
Qed.

Lemma scan_once_number (f : nat) (z : Z) (r : pystr) :
  ends_number r ->
  scan_once (S f) (Py.repr_int z ++ r) = Ok (JInt z, r).
Proof.
  intros Hr. pose proof (match_number_repr z r Hr) as Hm.
  destruct (repr_int_head z) as (c & s & E & Hc).
  rewrite E in *. cbn [app] in *. cbn [scan_once].
  destruct (N.eqb_spec c 34) as [->|_]; [lia|].
  destruct (N.eqb_spec c 123) as [->|_]; [lia|].
  destruct (N.eqb_spec c 91) as [->|_]; [lia|].
  unfold lit_null, lit_true, lit_false. cbn [Py.startswith].
  destruct (N.eqb_spec 110 c) as [<-|_]; [lia|].
  destruct (N.eqb_spec 116 c) as [<-|_]; [lia|].
  destruct (N.eqb_spec 102 c) as [<-|_]; [lia|].
  cbn [andb]. now rewrite Hm.
Qed.

Local Arguments scan_once : simpl never.
Local Arguments array_items : simpl never.
Local Arguments object_pairs : simpl never.

Lemma dumps_entry (c : Cues.cue) :
  dumps (Cues.entry_of c) =
  Cues.entry_head ++ Py.repr_int (Cues.offset_ms c) ++ Cues.entry_middle
  ++ flat_map escape_char (Cues.text c) ++ [34; 125].
Proof.
  unfold Cues.entry_of, Transfer.cue_entry, Cues.entry_head, Cues.entry_middle.
  cbn. unfold encode_basestring.
  repeat (rewrite <- app_assoc; cbn [app]). reflexivity.
Qed.

Lemma scan_once_entry (f : nat) (c : Cues.cue) (r : pystr) :
  scan_once (S (S (S (S f)))) (dumps (Cues.entry_of c) ++ r)
  = Ok (Cues.entry_of c, r).
Proof.
  rewrite dumps_entry. unfold Cues.entry_head, Cues.entry_middle.
  repeat (rewrite <- app_assoc; cbn [app]).
  rewrite scan_once_object, object_pairs_S. cbn.
  rewrite skip_ws_repr, scan_once_number.
  - cbn. rewrite object_pairs_S. cbn. rewrite scan_once_string.
    rewrite scanstring_escaped. cbn. reflexivity.
  - cbn. repeat split; discriminate.
Qed.

Lemma entries_text_cons (c : Cues.cue) (x : list Cues.cue) (r : pystr) :
  Cues.entries_text (c :: x) ++ r =
  dumps (Cues.entry_of c) ++
  match x with
  | [] => r
  | _ :: _ => 44 :: 32 :: Cues.entries_text x ++ r
  end.
Proof.
  unfold Cues.entries_text. destruct x as [|c' x]; [reflexivity|].
  cbn [map join]. unfold item_separator.
  now rewrite <- !app_assoc.
Qed.

Lemma entries_text_head (c : Cues.cue) (x : list Cues.cue) (r : pystr) :
  exists rest, Cues.entries_text (c :: x) ++ r = 123 :: rest.
Proof.
  rewrite entries_text_cons, dumps_entry. unfold Cues.entry_head. cbn [app].
  eexists. reflexivity.
Qed.

Lemma array_items_entries (x : list Cues.cue) :
  forall (c : Cues.cue) (f : nat) (r : pystr),
    array_items (5 + length x + f) (Cues.entries_text (c :: x) ++ 93 :: r)
    = Ok (map Cues.entry_of (c :: x), r).
Proof.
  induction x as [|c' x IH]; intros c f r.
  - rewrite entries_text_cons. cbn [length Nat.add].
    rewrite array_items_S, scan_once_entry. reflexivity.
  - rewrite entries_text_cons.
    change (5 + length (c' :: x) + f)%nat
      with (S (S (S (S (S (1 + length x + f))))))%nat.
    rewrite array_items_S, scan_once_entry. cbn [bind fst snd skip_ws is_ws N.eqb Pos.eqb orb].
    destruct (entries_text_head c' x (93 :: r)) as (rest & E).
    rewrite E. cbn [skip_ws is_ws N.eqb Pos.eqb orb]. rewrite <- E.
    replace (S (S (S (S (1 + length x + f)))))%nat
      with (5 + length x + f)%nat by lia.
    rewrite IH. reflexivity.
Qed.

Lemma dumps_entry_length (c : Cues.cue) : (10 <= length (dumps (Cues.entry_of c)))%nat.
Proof.
  rewrite dumps_entry. rewrite length_app. unfold Cues.entry_head. cbn [length]. lia.
Qed.

Lemma entries_text_length (x : list Cues.cue) :
  (10 * length x <= length (Cues.entries_text x))%nat.
Proof.
  induction x as [|c x IH]; [cbn; lia|].
  pose proof (entries_text_cons c x []) as E. rewrite app_nil_r in E.
  rewrite E, length_app. pose proof (dumps_entry_length c).
  destruct x as [|c' x]; cbn [length] in *; [lia|].
  rewrite app_nil_r. lia.
Qed.

Lemma EncodeCues_eq (x : list Cues.cue) :
  Cues.EncodeCues x = 91 :: Cues.entries_text x ++ [93].
Proof. reflexivity. Qed.

Lemma loads_EncodeCues (x : list Cues.cue) :
  loads (Cues.EncodeCues x) = Ok (JList (map Cues.entry_of x)).
Proof.
  rewrite EncodeCues_eq. destruct x as [|c x]; [reflexivity|].
  unfold loads.
  destruct (entries_text_head c x [93]) as (rest & E).
  pose proof (entries_text_length (c :: x)) as Hlen.
  cbn [skip_ws is_ws N.eqb Pos.eqb orb length].
  rewrite length_app in *. cbn [length] in *.
  remember (length (Cues.entries_text (c :: x))) as n eqn:Hn.
  replace (S (2 * S (n + 1))) with (S (5 + length x + (2 * n - length x - 1)))%nat by lia.
  rewrite E. rewrite scan_once_array; [|reflexivity|discriminate].
  rewrite <- E. rewrite array_items_entries. reflexivity.
Qed.

Lemma comprehension_texts (x : list Cues.cue) :
  Transfer.comprehension (Transfer.getitem lit:("text")) (map Cues.entry_of x)
  = Ok (Cues.cue_texts x).
Proof.
  induction x as [|c x IH]; [reflexivity|].
  cbn [map Transfer.comprehension]. rewrite IH. reflexivity.
Qed.

Lemma comprehension_times (x : list Cues.cue) :
  Transfer.comprehension (Transfer.getitem lit:("ts_ms")) (map Cues.entry_of x)
  = Ok (Cues.cue_times x).
Proof.
  induction x as [|c x IH]; [reflexivity|].
  cbn [map Transfer.comprehension]. rewrite IH. reflexivity.
Qed.

Lemma decode_encode (x : list Cues.cue) :
  Cues.DecodeCues (Cues.EncodeCues x) = Ok (Cues.cue_texts x, Cues.cue_times x).
Proof.
  unfold Cues.DecodeCues, Transfer.load_cues, Transfer.loads_cell.
  rewrite loads_EncodeCues. cbn [bind Transfer.iter].
  now rewrite comprehension_texts, comprehension_times.
Qed.

End JsonFacts.

Module CueFacts.

Import ID3.

Lemma zip_cues_of (x : list Cues.cue) :
  Cues.zip_cues (Cues.cue_texts x) (Cues.cue_times x) = Some x.
Proof.
  induction x as [|[z t] x IH]; [reflexivity|].
  cbn [Cues.cue_texts Cues.cue_times map Cues.zip_cues Cues.text Cues.offset_ms].
  unfold Cues.cue_texts, Cues.cue_times in IH. now rewrite IH.
Qed.

Lemma combine_cues (x : list Cues.cue) :
  map (fun p => Transfer.cue_entry (fst p) (snd p))
      (combine (Cues.cue_texts x) (Cues.cue_times x))
  = map Cues.entry_of x.
Proof.
  induction x as [|c x IH]; [reflexivity|].
  cbn [Cues.cue_texts Cues.cue_times map combine fst snd].
  unfold Cues.cue_texts, Cues.cue_times in IH. now rewrite IH.
Qed.

Lemma sync_entries_cue_frame (x : list Cues.cue) :
  Transfer.sync_entries [Cues.cue_frame x] = Ok (map Cues.entry_of x).
Proof.
  cbn [Transfer.sync_entries Cues.cue_frame Transfer.frame_entries bind].
  now rewrite combine_cues, app_nil_r.
Qed.

End CueFacts.

(** ** The ordered dictionary; integer literals *)

Module DictFacts.

Lemma get_set_same {V : Type} (k : pystr) (v : V) (d : Dict.t V) :
  Dict.get k (Dict.set k v d) = Some v.
Proof.
  induction d as [|[k0 v0] d IH]; cbn [Dict.set Dict.get].
  - now rewrite PyFacts.eqb_refl.
  - destruct (Py.eqb k k0) eqn:E; cbn [Dict.get]; rewrite E; [reflexivity|exact IH].
Qed.

Lemma get_set_other {V : Type} (k k' : pystr) (v : V) (d : Dict.t V) :
  k' <> k -> Dict.get k' (Dict.set k v d) = Dict.get k' d.
Proof.
  intros Hne. induction d as [|[k0 v0] d IH]; cbn [Dict.set Dict.get].
  - apply PyFacts.eqb_neq in Hne. now rewrite Hne.
  - destruct (Py.eqb k k0) eqn:E; cbn [Dict.get].
    + apply PyFacts.eqb_eq in E. subst k0.
      apply PyFacts.eqb_neq in Hne. now rewrite Hne.
    + destruct (Py.eqb k' k0); [reflexivity|exact IH].
Qed.

Lemma mem_set {V : Type} (k k' : pystr) (v : V) (d : Dict.t V) :
  Dict.mem k' d = true -> Dict.mem k' (Dict.set k v d) = true.
Proof.
  unfold Dict.mem. intros H.
  destruct (PyFacts.eqb_neq k' k) as [_ Hn].
  destruct (Py.eqb k' k) eqn:E.
  - apply PyFacts.eqb_eq in E. subst. now rewrite get_set_same.
  - rewrite get_set_other; [exact H|]. now apply PyFacts.eqb_neq.
Qed.

Lemma mem_set_iff {V : Type} (k k' : pystr) (v : V) (d : Dict.t V) :
  Dict.mem k d = true -> Dict.mem k' (Dict.set k v d) = Dict.mem k' d.
Proof.
  unfold Dict.mem. intros H.
  destruct (Py.eqb k' k) eqn:E.
  - apply PyFacts.eqb_eq in E. subst. rewrite get_set_same.
    destruct (Dict.get k d); [reflexivity|discriminate].
  - rewrite get_set_other; [reflexivity|]. now apply PyFacts.eqb_neq.
Qed.

End DictFacts.

Module IntFacts.

Import Py.
Local Open Scope N_scope.

Lemma In_lstrip (c : N) (s : pystr) :
  In c s -> isspace c = false -> In c (lstrip s).
Proof.
  intros Hin Hc. induction s as [|x s IH]; [destruct Hin|].
  cbn [lstrip]. destruct (isspace x) eqn:Ex.
  - destruct Hin as [->|Hin]; [congruence|]. now apply IH.
  - exact Hin.
Qed.

Lemma In_strip (c : N) (s : pystr) :
  In c s -> isspace c = false -> In c (strip s).
Proof.
  intros Hin Hc. unfold strip, rstrip.
  apply in_rev. rewrite rev_involutive.
  apply In_lstrip; [|exact Hc]. apply -> in_rev. now apply In_lstrip.
Qed.

Lemma digits_acc_bad (c : N) (t : pystr) :
  In c t -> decimal c = None -> c <> 95 ->
  forall a b, digits_acc a b t = None.
Proof.
  intros Hin Hd Hu. induction t as [|x t IH]; [destruct Hin|]. intros a b.
  cbn [digits_acc]. destruct Hin as [->|Hin].
  - rewrite Hd. destruct (N.eqb_spec c 95); [contradiction|reflexivity].
  - destruct (decimal x); [now apply IH|].
    destruct (x =? 95); [|reflexivity].
    destruct b; [now apply IH|reflexivity].
Qed.

(** A string that holds a code point with no decimal value that is no
    underscore, no sign and no white space is not an integer literal. *)
Lemma int_of_str_bad (c : N) (s : pystr) :
  In c s -> decimal c = None -> c <> 95 -> c <> 43 -> c <> 45 ->
  isspace c = false -> int_of_str s = None.
Proof.
  intros Hin Hd Hu Hp Hm Hs. unfold int_of_str.
  pose proof (In_strip c s Hin Hs) as Ht.
  destruct (strip s) as [|x r]; [reflexivity|].
  destruct (N.eqb_spec x 45) as [->|_].
  - destruct Ht as [E|Ht]; [congruence|].
    now rewrite (digits_acc_bad c r Ht Hd Hu).
  - destruct (N.eqb_spec x 43) as [->|_].
    + destruct Ht as [E|Ht]; [congruence|].
      now rewrite (digits_acc_bad c r Ht Hd Hu).
    + now rewrite (digits_acc_bad c (x :: r) Ht Hd Hu).
Qed.

Lemma int_of_str_colon (s : pystr) : In 58 s -> int_of_str s = None.
Proof.
  intros H. apply (int_of_str_bad 58 s H); try reflexivity; discriminate.
Qed.

End IntFacts.

(** ** The JSON index *)

Module Csv2JsonFacts.

Import Pandas Csv2Json.
Local Open Scope N_scope.

Lemma truthy_spec (s : pystr) : Py.truthy s = true <-> s <> [].
Proof. destruct s; cbn; split; congruence. Qed.

Lemma truthy_false (s : pystr) : Py.truthy s = false <-> s = [].
Proof. destruct s; cbn; split; congruence. Qed.

Lemma parse_disc_cases (raw : pystr) :
  let t := Py.strip raw in
  (forall z, Py.int_of_str t = Some z -> parse_disc t = DInt z)
  /\ (t <> [] -> Py.int_of_str t = None -> parse_disc t = DStr t)
  /\ (t = [] -> parse_disc t = DNone).
Proof.
  intros t. unfold parse_disc. repeat split.
  - intros z Hz. destruct t as [|c r] eqn:E; [discriminate Hz|].
    cbn [Py.truthy]. now rewrite Hz.
  - intros Hne Hz. apply truthy_spec in Hne. now rewrite Hne, Hz.
  - intros ->. reflexivity.
Qed.

Lemma repr_int_strip (z : Z) : Py.strip (Py.repr_int z) = Py.repr_int z.
Proof.
  unfold Py.repr_int. destruct z as [|p|p].
  - reflexivity.
  - destruct (PyFacts.dec_digits_spec (Z.to_N (Z.pos p)))
      as (c & ds & E & Hc & Hds & _). rewrite E.
    apply PyFacts.strip_id; [now apply PyFacts.digit_not_space|].
    now apply PyFacts.last_of_digits.
  - destruct (PyFacts.dec_digits_spec (N.pos p))
      as (c & ds & E & Hc & Hds & _). rewrite E.
    apply PyFacts.strip_id; [reflexivity|].
    change (45 :: c :: ds) with ([45] ++ c :: ds). rewrite rev_app_distr.
    pose proof (PyFacts.last_of_digits c ds Hc Hds) as Hl.
    destruct (rev (c :: ds)); [reflexivity|exact Hl].
Qed.

Lemma repr_int_nonempty (z : Z) : Py.repr_int z <> [].
Proof.
  unfold Py.repr_int. destruct z as [|p|p]; try discriminate.
  destruct (PyFacts.dec_digits_spec (Z.to_N (Z.pos p))) as (c & ds & E & _).
  rewrite E. discriminate.
Qed.

Lemma parse_disc_repr (z : Z) : parse_disc (Py.strip (Py.repr_int z)) = DInt z.
Proof.
  rewrite repr_int_strip. unfold parse_disc.
  pose proof (repr_int_nonempty z) as H. apply truthy_spec in H.
  now rewrite H, PyFacts.int_of_str_repr.
Qed.

Example disc_3 : parse_disc (Py.strip lit:("3")) = DInt 3.
Proof. reflexivity. Qed.
Example disc_3_5 : parse_disc (Py.strip lit:("3/5")) = DStr lit:("3/5").
Proof. reflexivity. Qed.
Example disc_empty : parse_disc (Py.strip lit:("")) = DNone.
Proof. reflexivity. Qed.

Lemma acronyms_truthy (name a : pystr) :
  Dict.get name GENRE_ACRONYMS = Some a -> Py.truthy a = true.
Proof.
  unfold GENRE_ACRONYMS. cbn [Dict.get].
  repeat (destruct (Py.eqb name _); [intros [= <-]; reflexivity|]).
  discriminate.
Qed.

Lemma genre_name_spec (cols : list pystr) (row : list cell) (a : pystr) :
  get_strip cols row lit:("album") = Ok a ->
  (a <> [] -> genre_name cols row = Ok a)
  /\ (a = [] -> genre_name cols row = get_strip cols row lit:("genre")).
Proof.
  intros H. unfold genre_name. rewrite H. cbn [bind]. split.
  - intros Hne. apply truthy_spec in Hne. now rewrite Hne.
  - intros ->. reflexivity.
Qed.

(** Inversion of [row_update]. *)
Lemma row_update_some (cols : list pystr) (row : list cell) (k : pystr) (e : entry) :
  row_update cols row = Ok (Some (k, e)) ->
  exists name acr,
    genre_name cols row = Ok name
    /\ Dict.get name GENRE_ACRONYMS = Some acr
    /\ get_strip cols row lit:("filename") = Ok (filename e)
    /\ filename e <> []
    /\ k = acr ++ pipe ++ fst (Py.splitext (filename e)).
Proof.
  unfold row_update. intros H.
  destruct (genre_name cols row) as [name|?]; [|discriminate]. cbn [bind] in H.
  destruct (get_strip cols row lit:("filename")) as [fn|?]; [|discriminate].
  cbn [bind] in H.
  destruct (Dict.get name GENRE_ACRONYMS) as [acr|] eqn:Ea; [|discriminate].
  destruct (Py.truthy acr); [|discriminate].
  destruct (Py.truthy fn) eqn:Efn; [|discriminate]. cbn [negb orb] in H.
  destruct (get_strip cols row lit:("disc")); [|discriminate]. cbn [bind] in H.
  destruct (parse_int (row_get cols row lit:("length"))); [|discriminate].
  cbn [bind] in H.
  destruct (parse_int (row_get cols row lit:("bitrate"))); [|discriminate].
  cbn [bind] in H.
  destruct (get_strip cols row lit:("title")); [|discriminate]. cbn [bind] in H.
  destruct (get_strip cols row lit:("artist")); [|discriminate]. cbn [bind] in H.
  destruct (get_strip cols row lit:("album")); [|discriminate]. cbn [bind] in H.
  destruct (get_strip cols row lit:("composer")); [|discriminate]. cbn [bind] in H.
  destruct (get_strip cols row lit:("comments")); [|discriminate]. cbn [bind] in H.
  injection H as <- <-. cbn [filename].
  exists name, acr.
  split; [reflexivity|]. split; [exact Ea|]. split; [reflexivity|].
  split; [now apply truthy_spec|reflexivity].
Qed.

Lemma row_update_excluded (cols : list pystr) (row : list cell) (name fn : pystr) :
  genre_name cols row = Ok name ->
  Dict.get name GENRE_ACRONYMS = None ->
  get_strip cols row lit:("filename") = Ok fn ->
  row_update cols row = Ok None.
Proof.
  intros Hn Ha Hf. unfold row_update. rewrite Hn. cbn [bind].
  rewrite Hf. cbn [bind]. now rewrite Ha.
Qed.

Lemma process_row_last_write (cols : list pystr) (row : list cell)
    (combined : Dict.t entry) (k : pystr) (e : entry) :
  row_update cols row = Ok (Some (k, e)) ->
  process_row cols row combined = Ok (Dict.set k e combined)
  /\ Dict.get k (Dict.set k e combined) = Some e
  /\ forall k', k' <> k -> Dict.get k' (Dict.set k e combined) = Dict.get k' combined.
Proof.
  intros H. unfold process_row. rewrite H. cbn [bind]. split; [reflexivity|].
  split; [apply DictFacts.get_set_same|].
  intros k' Hk. now apply DictFacts.get_set_other.
Qed.

Lemma row_update_bad_length (cols : list pystr) (row : list cell)
    (name acr fn s : pystr) :
  genre_name cols row = Ok name ->
  Dict.get name GENRE_ACRONYMS = Some acr ->
  get_strip cols row lit:("filename") = Ok fn ->
  fn <> [] ->
  row_get cols row lit:("length") = Some (Str s) ->
  s <> [] ->
  Py.int_of_str s = None ->
  exists e, row_update cols row = Raise e.
Proof.
  intros Hn Ha Hf Hfn Hl Hs Hi. unfold row_update.
  rewrite Hn. cbn [bind]. rewrite Hf. cbn [bind]. rewrite Ha.
  rewrite (acronyms_truthy name acr Ha).
  apply truthy_spec in Hfn. rewrite Hfn. cbn [negb orb].
  destruct (get_strip cols row lit:("disc")) as [d|e]; [|now exists e].
  cbn [bind]. rewrite Hl. unfold parse_int.
  apply truthy_spec in Hs. rewrite Hs, Hi. cbn [bind]. now exists ValueError.
Qed.

Lemma process_rows_raise (cols : list pystr) (rows : list (list cell)) (row : list cell) :
  In row rows ->
  (exists e, row_update cols row = Raise e) ->
  forall combined, exists e, process_rows cols rows combined = Raise e.
Proof.
  intros Hin (e & He). induction rows as [|r rows IH]; [destruct Hin|].
  intros combined. cbn [process_rows].
  destruct Hin as [->|Hin].
  - unfold process_row. rewrite He. cbn [bind]. now exists e.
  - destruct (process_row cols r combined) as [c'|e']; cbn [bind].
    + now apply IH.
    + now exists e'.
Qed.

Lemma process_files_raise (csv_files : list table) (f : table) (row : list cell) :
  In f csv_files ->
  In row (data f) ->
  (exists e, row_update (columns f) row = Raise e) ->
  forall combined, exists e, process_files csv_files combined = Raise e.
Proof.
  intros Hin Hrow He. induction csv_files as [|g files IH]; [destruct Hin|].
  intros combined. cbn [process_files].
  destruct Hin as [->|Hin].
  - unfold read_csv. destruct (columns f) eqn:Ec.
    + cbn [bind]. now exists EmptyDataError.
    + cbn [bind]. rewrite Ec in *.
      destruct (process_rows_raise (p :: l) (data f) row Hrow He combined) as (e & E).
      rewrite E. cbn [bind]. now exists e.
  - destruct (read_csv (Some g)) as [df|e']; cbn [bind]; [|now exists e'].
    destruct (process_rows (columns df) (data df) combined) as [c'|e']; cbn [bind].
    + now apply IH.
    + now exists e'.
Qed.

Lemma bad_length_raises (csv_files : list table) (output : option (Dict.t entry))
    (f : table) (row : list cell) (name acr fn s : pystr) :
  In f csv_files ->
  In row (data f) ->
  genre_name (columns f) row = Ok name ->
  Dict.get name GENRE_ACRONYMS = Some acr ->
  get_strip (columns f) row lit:("filename") = Ok fn ->
  fn <> [] ->
  row_get (columns f) row lit:("length") = Some (Str s) ->
  s <> [] ->
  Py.int_of_str s = None ->
  exists e, convert_csvs_to_json csv_files output = (output, Raise e).
Proof.
  intros Hin Hrow Hn Ha Hf Hfn Hl Hs Hi.
  pose proof (row_update_bad_length (columns f) row name acr fn s
                Hn Ha Hf Hfn Hl Hs Hi) as He.
  destruct (process_files_raise csv_files f row Hin Hrow He []) as (e & E).
  unfold convert_csvs_to_json.
  destruct csv_files as [|g files]; [destruct Hin|].
  rewrite E. now exists e.
Qed.

Lemma row_update_disc (cols : list pystr) (row : list cell) (k : pystr)
    (e : entry) (raw : pystr) :
  row_update cols row = Ok (Some (k, e)) ->
  row_get cols row lit:("disc") = Some (Str raw) ->
  disc e = parse_disc (Py.strip raw).
Proof.
  unfold row_update. intros H Hd.
  destruct (genre_name cols row) as [name|?]; [|discriminate]. cbn [bind] in H.
  destruct (get_strip cols row lit:("filename")) as [fn|?]; [|discriminate].
  cbn [bind] in H.
  destruct (Dict.get name GENRE_ACRONYMS) as [acr|]; [|discriminate].
  destruct (Py.truthy acr); [|discriminate].
  destruct (Py.truthy fn); [|discriminate]. cbn [negb orb] in H.
  unfold get_strip at 1 in H. rewrite Hd in H. cbn [bind] in H.
  destruct (parse_int (row_get cols row lit:("length"))); [|discriminate].
  cbn [bind] in H.
  destruct (parse_int (row_get cols row lit:("bitrate"))); [|discriminate].
  cbn [bind] in H.
  destruct (get_strip cols row lit:("title")); [|discriminate]. cbn [bind] in H.
  destruct (get_strip cols row lit:("artist")); [|discriminate]. cbn [bind] in H.
  destruct (get_strip cols row lit:("album")); [|discriminate]. cbn [bind] in H.
  destruct (get_strip cols row lit:("composer")); [|discriminate]. cbn [bind] in H.
  destruct (get_strip cols row lit:("comments")); [|discriminate]. cbn [bind] in H.
  injection H as <- <-. reflexivity.
Qed.

Lemma row_update_no_filename (cols : list pystr) (row : list cell) (name : pystr) :
  genre_name cols row = Ok name ->
  get_strip cols row lit:("filename") = Ok [] ->
  row_update cols row = Ok None.
Proof.
  intros Hn Hf. unfold row_update. rewrite Hn, Hf. cbn [bind].
  destruct (Dict.get name GENRE_ACRONYMS) as [acr|]; [|reflexivity].
  cbn [Py.truthy negb]. now rewrite orb_true_r.
Qed.

End Csv2JsonFacts.

(** ** Export: the disc number, the records, the table *)

Module ExportFacts.

Import ID3 Pandas Transfer.
Local Open Scope N_scope.

Lemma is_disc_desc_spec (d : pystr) :
  is_disc_desc d = true <->
  Py.lower (Py.strip d) = lit:("disc") \/ Py.lower (Py.strip d) = lit:("disk").
Proof.
  unfold is_disc_desc. rewrite orb_true_iff, !PyFacts.eqb_eq. reflexivity.
Qed.

Lemma scan_txxx_first (disc : pystr) (pre : list frame) (txxx : frame)
    (post : list frame) (d : pystr) :
  Forall no_disc_desc pre ->
  desc txxx = Ok d -> is_disc_desc d = true ->
  scan_txxx disc (pre ++ txxx :: post) = text0 txxx.
Proof.
  intros Hpre Hd Hm. induction Hpre as [|g pre (dg & Hg & Hn) _ IH].
  - cbn [app scan_txxx]. rewrite Hd. cbn [bind]. now rewrite Hm.
  - cbn [app scan_txxx]. rewrite Hg. cbn [bind]. now rewrite Hn.
Qed.

Lemma scan_txxx_none (disc : pystr) (l : list frame) :
  Forall no_disc_desc l -> scan_txxx disc l = Ok disc.
Proof.
  intros H. induction H as [|g l (dg & Hg & Hn) _ IH]; [reflexivity|].
  cbn [scan_txxx]. rewrite Hg. cbn [bind]. now rewrite Hn.
Qed.

Lemma no_tpos_get_txt (id3 : tags) : no_tpos id3 -> get_txt id3 lit:("TPOS") = Ok [].
Proof.
  unfold get_txt. intros [H|(f & H & Ht)]; rewrite H; [reflexivity|exact Ht].
Qed.

Lemma decode_disc_cases (id3 : tags) :
  (forall f t, get lit:("TPOS") id3 = Some f -> text0 f = Ok t -> t <> [] ->
               decode_disc id3 = Ok t)
  /\ (forall pre txxx post d,
        no_tpos id3 ->
        getall lit:("TXXX") id3 = pre ++ txxx :: post ->
        Forall no_disc_desc pre ->
        desc txxx = Ok d ->
        Py.lower (Py.strip d) = lit:("disc") \/ Py.lower (Py.strip d) = lit:("disk") ->
        decode_disc id3 = text0 txxx)
  /\ (no_tpos id3 ->
      Forall no_disc_desc (getall lit:("TXXX") id3) ->
      decode_disc id3 = Ok []).
Proof.
  unfold decode_disc. split; [|split].
  - intros f t Hf Ht Hne. unfold get_txt. rewrite Hf, Ht. cbn [bind].
    destruct t; [contradiction|reflexivity].
  - intros pre txxx post d Hno Hall Hpre Hd Hm.
    rewrite (no_tpos_get_txt id3 Hno). cbn [bind Py.truthy negb].
    rewrite Hall. apply (scan_txxx_first [] pre txxx post d Hpre Hd).
    now apply is_disc_desc_spec.
  - intros Hno Hall. rewrite (no_tpos_get_txt id3 Hno). cbn [bind Py.truthy negb].
    now apply scan_txxx_none.
Qed.

(** What a record holds. *)
Lemma export_record_inv (fmt : pystr) (a : audio) (r : record) :
  export_record fmt a = Ok r ->
  exists disc opt,
    decode_disc (load (id3_file a)) = Ok disc
    /\ Dict.get lit:("disc") r = Some (VStr disc)
    /\ Dict.get lit:("filename") r = Some (VStr (basename a))
    /\ Dict.get lit:("length") r = Some (VStr (format_length fmt (secs a)))
    /\ Dict.keys r = base_columns ++ opt
    /\ In opt [[]; [col_lyrics]; [col_synced_lyrics]; [col_lyrics; col_synced_lyrics]].
Proof.
  unfold export_record. intros H.
  destruct (decode_disc (load (id3_file a))) as [disc|?]; [|discriminate].
  cbn [bind] in H.
  repeat match type of H with
  | context [bind (get_txt ?t ?k) _] =>
      destruct (get_txt t k); [cbn [bind] in H|discriminate]
  end.
  match type of H with
  | context [bind ?c _] => destruct c as [comments|?]; [cbn [bind] in H|discriminate]
  end.
  exists disc.
  destruct (getall lit:("USLT") (load (id3_file a))) as [|u us].
  - cbn [bind] in H.
    destruct (getall lit:("SYLT") (load (id3_file a))) as [|y ys].
    + injection H as <-. exists []. cbn. repeat split; auto.
    + destruct (sync_entries (y :: ys)); [|discriminate]. cbn [bind] in H.
      injection H as <-. exists [col_synced_lyrics]. cbn. repeat split; auto.
  - destruct (lyrics_text u); [|discriminate]. cbn [bind] in H.
    destruct (getall lit:("SYLT") (load (id3_file a))) as [|y ys].
    + injection H as <-. exists [col_lyrics]. cbn. repeat split; auto.
    + destruct (sync_entries (y :: ys)); [|discriminate]. cbn [bind] in H.
      injection H as <-. exists [col_lyrics; col_synced_lyrics]. cbn.
      repeat split; auto 10.
Qed.

Lemma export_records_keys (fmt : pystr) (files : list audio) :
  forall records,
    export_records fmt files = Ok records ->
    Forall record_keys_ok records /\ length records = length files.
Proof.
  induction files as [|a files IH]; intros records H; cbn [export_records] in H.
  - injection H as <-. split; constructor.
  - destruct (export_record fmt a) as [r|?] eqn:Er; [|discriminate].
    cbn [bind] in H.
    destruct (export_records fmt files) as [rs|?]; [|discriminate].
    cbn [bind] in H. injection H as <-.
    destruct (IH rs eq_refl) as [Hrs Hlen]. split; [|cbn; now rewrite Hlen].
    constructor; [|exact Hrs].
    destruct (export_record_inv fmt a r Er) as (d & opt & _ & _ & _ & _ & Hk & Ho).
    now exists opt.
Qed.

Lemma add_columns_first (opt : list pystr) :
  In opt [[]; [col_lyrics]; [col_synced_lyrics]; [col_lyrics; col_synced_lyrics]] ->
  In opt optional_orders /\ add_columns [] (base_columns ++ opt) = base_columns ++ opt.
Proof.
  cbn [In]. intros H.
  repeat (destruct H as [<-|H]; [split; [cbn; auto 10|reflexivity]|]).
  destruct H.
Qed.

Lemma add_columns_next (o opt : list pystr) :
  In o optional_orders ->
  In opt [[]; [col_lyrics]; [col_synced_lyrics]; [col_lyrics; col_synced_lyrics]] ->
  exists o', In o' optional_orders
             /\ add_columns (base_columns ++ o) (base_columns ++ opt) = base_columns ++ o'.
Proof.
  unfold optional_orders. cbn [In]. intros Ho Hopt.
  repeat (destruct Ho as [<-|Ho];
          [repeat (destruct Hopt as [<-|Hopt];
                   [eexists; split; [|reflexivity]; cbn; auto 10|]);
           destruct Hopt|]).
  destruct Ho.
Qed.

Lemma fold_columns (records : list record) :
  Forall record_keys_ok records ->
  forall o, In o optional_orders ->
    exists o', In o' optional_orders
      /\ fold_left (fun acc r => add_columns acc (Dict.keys r)) records (base_columns ++ o)
         = base_columns ++ o'.
Proof.
  intros H. induction H as [|r rs (opt & Hk & Hopt) _ IH]; intros o Ho.
  - exists o. now split.
  - cbn [fold_left]. rewrite Hk.
    destruct (add_columns_next o opt Ho Hopt) as (o1 & Ho1 & E1).
    rewrite E1. now apply IH.
Qed.

(** The columns of a frame built from exported records. *)
Lemma record_columns_order (records : list record) :
  Forall record_keys_ok records -> records <> [] ->
  exists opt, In opt optional_orders /\ record_columns records = base_columns ++ opt.
Proof.
  intros H Hne. destruct H as [|r rs (opt & Hk & Hopt) Hrs]; [contradiction|].
  unfold record_columns. cbn [fold_left]. rewrite Hk.
  destruct (add_columns_first opt Hopt) as (Ho & E). rewrite E.
  now apply fold_columns.
Qed.

Lemma mem_In (c : pystr) (l : list pystr) : Py.mem c l = true <-> In c l.
Proof.
  unfold Py.mem. rewrite existsb_exists. split.
  - intros (x & Hx & E). apply PyFacts.eqb_eq in E. now subst.
  - intros H. exists c. split; [exact H|apply PyFacts.eqb_refl].
Qed.

Lemma forallb_mem_self (l : list pystr) :
  forallb (fun c => Py.mem c l) l = true.
Proof. apply forallb_forall. intros c H. now apply mem_In. Qed.

Lemma write_records_new (records : list record) (csv : option table) :
  no_data csv ->
  exists rows,
    write_records records csv
    = (Some (mkDataFrame (record_columns records) rows), Ok tt)
    /\ length rows = length records.
Proof.
  intros Hno. unfold write_records.
  set (df_new := DataFrame_of_records records).
  assert (Hnew : exists rows,
             to_csv_rows render_value None df_new (columns df_new) = Ok rows
             /\ length rows = length records).
  { unfold to_csv_rows. rewrite forallb_mem_self. eexists. split; [reflexivity|].
    unfold df_new, DataFrame_of_records. cbn [data]. now rewrite !length_map. }
  destruct Hnew as (rows & Hrows & Hlen). exists rows. split; [|exact Hlen].
  rewrite Hrows.
  destruct csv as [df|]; cbn [read_csv].
  - cbn in Hno. destruct (columns df) eqn:Ec; [reflexivity|].
    now rewrite Hno.
  - reflexivity.
Qed.

Lemma new_table_header (fmt : pystr) (files : list audio) (csv : option table) :
  files <> [] -> no_data csv ->
  forall records, export_records fmt files = Ok records ->
  exists opt rows,
    In opt optional_orders
    /\ export_metadata files csv fmt
       = (Some (mkDataFrame (base_columns ++ opt) rows), Ok tt)
    /\ length rows = length files.
Proof.
  intros Hne Hno records Hr.
  destruct (export_records_keys fmt files records Hr) as [Hk Hlen].
  assert (Hrne : records <> []).
  { destruct records; [|discriminate]. destruct files; [contradiction|discriminate]. }
  destruct (record_columns_order records Hk Hrne) as (opt & Ho & Ec).
  destruct (write_records_new records csv Hno) as (rows & Hw & Hl).
  exists opt, rows. split; [exact Ho|]. split; [|congruence].
  unfold export_metadata. rewrite Hr, Hw, Ec. reflexivity.
Qed.

Lemma to_csv_rows_KeyError {C : Type} (render : C -> pystr) (na : C)
    (df : DataFrame C) (cols : list pystr) (c : pystr) :
  In c cols -> Py.mem c (columns df) = false ->
  to_csv_rows render na df cols = Raise KeyError.
Proof.
  intros Hin Hm. unfold to_csv_rows.
  destruct (forallb (fun c => Py.mem c (columns df)) cols) eqn:E; [|reflexivity].
  rewrite forallb_forall in E. specialize (E c Hin). congruence.
Qed.

Lemma to_csv_rows_length {C : Type} (render : C -> pystr) (na : C)
    (df : DataFrame C) (cols : list pystr) (rows : list (list cell)) :
  to_csv_rows render na df cols = Ok rows -> length rows = length (data df).
Proof.
  unfold to_csv_rows. destruct (forallb _ cols); [|discriminate].
  intros [= <-]. apply length_map.
Qed.

Lemma set_column_length (c : pystr) (v : cell) (df : table) :
  length (data (set_column c v df)) = length (data df).
Proof.
  unfold set_column. destruct (index_of c (columns df)); cbn [data]; apply length_map.
Qed.

Lemma fold_set_column_length (cs : list pystr) (v : cell) :
  forall df, length (data (fold_left (fun df c => set_column c v df) cs df))
             = length (data df).
Proof.
  induction cs as [|c cs IH]; intros df; [reflexivity|].
  cbn [fold_left]. rewrite IH. apply set_column_length.
Qed.

Lemma append_missing_column_raises (records : list record) (df : table) (c : pystr) :
  empty df = false ->
  In c (columns df) ->
  Py.mem c (record_columns records) = false ->
  exists file,
    write_records records (Some df) = (Some file, Raise KeyError)
    /\ length (data file) = length (data df).
Proof.
  intros Hne Hin Hmem. unfold write_records.
  assert (Hcols : columns df <> []) by (destruct (columns df); [destruct Hin|discriminate]).
  unfold read_csv. destruct (columns df) as [|c0 cs] eqn:Ec; [contradiction|].
  rewrite <- Ec in *. rewrite Hne. cbn [negb].
  set (df_new := DataFrame_of_records records).
  set (missing := filter _ (columns df_new)).
  destruct missing as [|m ms] eqn:Em.
  - rewrite (to_csv_rows_KeyError render_value None df_new (columns df) c Hin Hmem).
    exists df. now split.
  - set (df' := fold_left _ (m :: ms) df).
    destruct (to_csv_rows render_cell NaN df' (columns df ++ m :: ms)) as [rows|e] eqn:Er.
    + cbn [bind].
      rewrite (to_csv_rows_KeyError render_value None df_new (columns df ++ m :: ms) c).
      * eexists. split; [reflexivity|]. cbn [data].
        rewrite (to_csv_rows_length _ _ _ _ _ Er).
        unfold df'. apply fold_set_column_length.
      * apply in_or_app. now left.
      * exact Hmem.
    + cbn [bind]. exists df. split; [|reflexivity].
      unfold to_csv_rows in Er. destruct (forallb _ _) in Er; [discriminate|].
      now injection Er as <-.
Qed.

Lemma format_length_colon (fmt : pystr) (secs : Z) :
  fmt <> lit:("seconds") ->
  In 58%N (format_length fmt secs).
Proof.
  intros H. unfold format_length.
  apply PyFacts.eqb_neq in H. rewrite H.
  apply in_or_app. right. now left.
Qed.

Lemma format_length_not_int (fmt : pystr) (secs : Z) :
  fmt <> lit:("seconds") ->
  format_length fmt secs <> []
  /\ Py.int_of_str (format_length fmt secs) = None.
Proof.
  intros H. pose proof (format_length_colon fmt secs H) as Hin. split.
  - intros E. rewrite E in Hin. destruct Hin.
  - now apply IntFacts.int_of_str_colon.
Qed.

End ExportFacts.

(** ** Import: the frames written, the loop over the rows *)

Module ImportFacts.

Import ID3 Pandas Transfer.
Local Open Scope N_scope.


Lemma filter_filter {A : Type} (p q : A -> bool) (l : list A) :
  filter q (filter p l) = filter (fun x => p x && q x) l.
Proof.
  induction l as [|x l IH]; [reflexivity|]. cbn [filter].
  destruct (p x); cbn [filter andb]; [destruct (q x)|]; now rewrite IH.
Qed.

Lemma find_app_l {A : Type} (p : A -> bool) (a b : list A) :
  find p (a ++ b) = match find p a with Some x => Some x | None => find p b end.
Proof.
  induction a as [|x a IH]; [reflexivity|]. cbn [app find].
  destruct (p x); [reflexivity|exact IH].
Qed.

Lemma find_none_all {A : Type} (p : A -> bool) (l : list A) :
  (forall x, In x l -> p x = false) -> find p l = None.
Proof.
  intros H. induction l as [|x l IH]; [reflexivity|]. cbn [find].
  rewrite (H x (or_introl eq_refl)). apply IH. intros y Hy. apply H. now right.
Qed.

Lemma filter_none_all {A : Type} (p : A -> bool) (l : list A) :
  (forall x, In x l -> p x = false) -> filter p l = [].
Proof.
  intros H. induction l as [|x l IH]; [reflexivity|]. cbn [filter].
  rewrite (H x (or_introl eq_refl)). apply IH. intros y Hy. apply H. now right.
Qed.

Lemma existsb_false {A : Type} (p : A -> bool) (l : list A) :
  existsb p l = false <-> (forall x, In x l -> p x = false).
Proof.
  induction l as [|y l IH]; cbn [existsb In].
  - split; [intros _ x []|reflexivity].
  - rewrite orb_false_iff, IH. split.
    + intros [Hy Hl] x [<-|Hx]; auto.
    + intros H. split; [apply H; now left|intros x Hx; apply H; now right].
Qed.

Lemma wf_text (f : frame) (m : pystr) :
  wf_frame f = true -> In m text_ids -> has_prefix m f = false.
Proof.
  unfold wf_frame. intros H Hm. apply andb_true_iff in H as [H _].
  rewrite forallb_forall in H. specialize (H m Hm). now apply negb_true_iff in H.
Qed.

Lemma wf_described (f : frame) (m : pystr) :
  wf_frame f = true -> In m described_ids -> has_key m f = false.
Proof.
  unfold wf_frame. intros H Hm. apply andb_true_iff in H as [_ H].
  rewrite forallb_forall in H. specialize (H m Hm). now apply negb_true_iff in H.
Qed.

Lemma managed_split (m : pystr) :
  In m managed_frames -> In m text_ids \/ In m described_ids.
Proof.
  unfold managed_frames, text_ids, described_ids. cbn [map snd text_fields In].
  intuition.
Qed.

(** In a well-formed container [delall] removes exactly the frames the
    identifier selects. *)
Lemma delall_filter (m : pystr) (t : tags) :
  wf_tags t = true -> In m managed_frames ->
  delall m t = filter (clean m) t.
Proof.
  intros Hwf Hm. unfold wf_tags in Hwf. rewrite forallb_forall in Hwf.
  unfold delall, clean. destruct (managed_split m Hm) as [Ht|Hd].
  - assert (Hp : forall f, In f t -> has_prefix m f = false)
      by (intros f Hf; apply wf_text; auto).
    destruct (contains m t) eqn:Ec.
    + apply filter_ext_in. intros f Hf. rewrite (Hp f Hf). now rewrite andb_true_r.
    + apply filter_ext_in. intros f Hf.
      unfold contains in Ec. rewrite existsb_false in Ec.
      now rewrite (Ec f Hf).
  - assert (Hk : forall f, In f t -> has_key m f = false)
      by (intros f Hf; apply wf_described; auto).
    assert (Ec : contains m t = false).
    { unfold contains. apply existsb_false. exact Hk. }
    rewrite Ec. apply filter_ext_in. intros f Hf. now rewrite (Hk f Hf).
Qed.

Lemma wf_filter (p : frame -> bool) (t : tags) :
  wf_tags t = true -> wf_tags (filter p t) = true.
Proof.
  unfold wf_tags. rewrite !forallb_forall. intros H f Hf.
  apply filter_In in Hf as [Hf _]. now apply H.
Qed.

Lemma fold_delall (ms : list pystr) :
  (forall m, In m ms -> In m managed_frames) ->
  forall t, wf_tags t = true ->
    fold_left (fun t frame => delall frame t) ms t
    = filter (fun f => forallb (fun m => clean m f) ms) t.
Proof.
  induction ms as [|m ms IH]; intros Hms t Hwf.
  - cbn. symmetry. clear. induction t as [|f t IH]; [reflexivity|].
    cbn [filter]. now rewrite IH.
  - cbn [fold_left]. rewrite (delall_filter m t Hwf) by (apply Hms; now left).
    rewrite IH.
    + rewrite filter_filter. reflexivity.
    + intros m' H'. apply Hms. now right.
    + now apply wf_filter.
Qed.

Lemma delete_managed_filter (t : tags) :
  wf_tags t = true -> delete_managed t = filter unmanaged t.
Proof.
  intros Hwf. unfold delete_managed. now rewrite fold_delall.
Qed.

Lemma add_fresh (f : frame) (t : tags) :
  forallb (fun g => negb (has_key (HashKey f) g)) t = true -> add f t = t ++ [f].
Proof.
  induction t as [|g t IH]; [reflexivity|]. cbn [forallb add app].
  intros H. apply andb_true_iff in H as [Hg Ht]. apply negb_true_iff in Hg.
  now rewrite Hg, IH.
Qed.

Lemma add_if_cond (cols : list pystr) (row : list cell) (c : pystr)
    (mk : list pystr -> frame) (t : tags) :
  add_if cols row c mk t = cond_add t (piece cols row c mk).
Proof.
  unfold add_if, cond_add, piece, field_set, field_text. cbn [fst snd].
  destruct (row_get cols row c) as [x|]; reflexivity.
Qed.

Lemma fold_cond_add (pieces : list (bool * frame)) :
  forall d,
    distinct (map (fun p => HashKey (snd p)) pieces) = true ->
    (forall p, In p pieces ->
       forallb (fun g => negb (has_key (HashKey (snd p)) g)) d = true) ->
    fold_left cond_add pieces d = d ++ frames_of pieces.
Proof.
  induction pieces as [|[b f] pieces IH]; intros d Hd Hfresh.
  - cbn. now rewrite app_nil_r.
  - cbn [fold_left map distinct snd] in *.
    apply andb_true_iff in Hd as [Hf Hd]. apply negb_true_iff in Hf.
    assert (E : cond_add d (b, f) = d ++ opt_frame b f).
    { unfold cond_add, opt_frame. cbn [fst snd]. destruct b.
      - apply add_fresh. apply (Hfresh (true, f)). now left.
      - now rewrite app_nil_r. }
    rewrite E, IH.
    + unfold frames_of. cbn [flat_map fst snd]. now rewrite <- app_assoc.
    + exact Hd.
    + intros p Hp. rewrite forallb_app.
      rewrite (Hfresh p (or_intror Hp)). cbn [andb].
      unfold opt_frame. destruct b; [|reflexivity]. cbn [forallb].
      rewrite andb_true_r. apply negb_true_iff.
      unfold has_key. apply PyFacts.eqb_neq. intros Heq.
      assert (Hin : Py.mem (HashKey f) (map (fun p => HashKey (snd p)) pieces) = true).
      { unfold Py.mem. apply existsb_exists. exists (HashKey (snd p)). split.
        - now apply (in_map (fun p => HashKey (snd p))).
        - rewrite Heq. apply PyFacts.eqb_refl. }
      congruence.
Qed.

(** The frames a managed identifier selects among conditional frames. *)
Lemma getall_frames_of (m : pystr) (pieces : list (bool * frame)) :
  getall m (frames_of pieces) =
  match find (fun p => has_key m (snd p) && fst p) pieces with
  | Some p => [snd p]
  | None => map snd (filter (fun p => has_prefix m (snd p) && fst p) pieces)
  end.
Proof.
  unfold getall, get.
  assert (Hfind : find (has_key m) (frames_of pieces)
                  = option_map snd (find (fun p => has_key m (snd p) && fst p) pieces)).
  { induction pieces as [|[b f] pieces IH]; [reflexivity|].
    unfold frames_of in *. cbn [flat_map fst snd find]. rewrite find_app_l, IH.
    unfold opt_frame. destruct b; cbn [find].
    - destruct (has_key m f); reflexivity.
    - now rewrite andb_false_r. }
  assert (Hfilter : filter (has_prefix m) (frames_of pieces)
                    = map snd (filter (fun p => has_prefix m (snd p) && fst p) pieces)).
  { clear Hfind. induction pieces as [|[b f] pieces IH]; [reflexivity|].
    unfold frames_of in *. cbn [flat_map fst snd filter]. rewrite filter_app, IH.
    unfold opt_frame. destruct b; cbn [filter].
    - destruct (has_prefix m f); reflexivity.
    - now rewrite andb_false_r. }
  rewrite Hfind, Hfilter.
  destruct (find (fun p => has_key m (snd p) && fst p) pieces); reflexivity.
Qed.

Lemma unmanaged_clean (g : frame) (m : pystr) :
  unmanaged g = true -> In m managed_frames ->
  has_key m g = false /\ has_prefix m g = false.
Proof.
  unfold unmanaged. rewrite forallb_forall. intros H Hm.
  specialize (H m Hm). apply andb_true_iff in H as [H1 H2].
  now rewrite negb_true_iff in H1, H2.
Qed.

Lemma getall_app_unmanaged (m : pystr) (d w : tags) :
  In m managed_frames ->
  (forall g, In g d -> unmanaged g = true) ->
  getall m (d ++ w) = getall m w.
Proof.
  intros Hm Hd. unfold getall, get.
  rewrite find_app_l, filter_app.
  rewrite find_none_all, filter_none_all; [reflexivity| |];
    intros g Hg; now apply (unmanaged_clean g m (Hd g Hg) Hm).
Qed.

Lemma unmanaged_fresh (g : frame) (k : pystr) :
  unmanaged g = true -> In k written_keys -> has_key k g = false.
Proof.
  intros Hu Hk. unfold written_keys in Hk. apply in_app_or in Hk as [Hk|Hk].
  - apply (unmanaged_clean g k Hu).
    unfold text_ids, managed_frames in *. cbn [map snd text_fields In] in *.
    intuition.
  - destruct (has_key k g) eqn:E; [|reflexivity]. exfalso.
    unfold has_key in E. apply PyFacts.eqb_eq in E.
    cbn [In] in Hk.
    destruct Hk as [<-|[<-|[<-|[]]]].
    + destruct (unmanaged_clean g lit:("COMM") Hu) as [_ H]; [cbn; auto 12|].
      unfold has_prefix in H. rewrite E in H. discriminate H.
    + destruct (unmanaged_clean g lit:("USLT") Hu) as [_ H]; [cbn; auto 12|].
      unfold has_prefix in H. rewrite E in H. discriminate H.
    + destruct (unmanaged_clean g lit:("SYLT") Hu) as [_ H]; [cbn; auto 12|].
      unfold has_prefix in H. rewrite E in H. discriminate H.
Qed.

Lemma fresh_in_unmanaged (d : tags) (k : pystr) :
  (forall g, In g d -> unmanaged g = true) -> In k written_keys ->
  forallb (fun g => negb (has_key k g)) d = true.
Proof.
  intros Hd Hk. apply forallb_forall. intros g Hg.
  now rewrite (unmanaged_fresh g k (Hd g Hg) Hk).
Qed.

(** What [write_frames] builds: the unmanaged frames of the container, then
    the frames of the fields that are set. *)
Lemma write_frames_eq (cols : list pystr) (row : list cell) (t0 : tags) :
  wf_tags t0 = true ->
  write_frames cols row t0 =
  if field_set cols row lit:("synced_lyrics") then
    do cues <- load_cues (match row_get cols row lit:("synced_lyrics") with
                          | Some c => c | None => NaN end);
    Ok (filter unmanaged t0 ++ frames_of (text_pieces cols row ++ [sylt_piece cues]))
  else Ok (filter unmanaged t0 ++ frames_of (text_pieces cols row)).
Proof.
  intros Hwf. unfold write_frames. rewrite !add_if_cond.
  rewrite (delete_managed_filter t0 Hwf).
  set (d := filter unmanaged t0).
  assert (Hd : forall g, In g d -> unmanaged g = true)
    by (intros g Hg; now apply filter_In in Hg).
  change (cond_add (cond_add (cond_add (cond_add (cond_add (cond_add (cond_add
            (cond_add (cond_add (cond_add d ?p1) ?p2) ?p3) ?p4) ?p5) ?p6) ?p7)
            ?p8) ?p9) ?p10)
    with (fold_left cond_add (text_pieces cols row) d).
  assert (E : fold_left cond_add (text_pieces cols row) d
              = d ++ frames_of (text_pieces cols row)).
  { apply fold_cond_add; [reflexivity|].
    intros p Hp. apply fresh_in_unmanaged; [exact Hd|].
    unfold text_pieces, piece in Hp. cbn [In] in Hp.
    repeat (destruct Hp as [<-|Hp]; [cbn; auto 15|]). destruct Hp. }
  unfold field_set.
  destruct (row_get cols row lit:("synced_lyrics")) as [c|].
  - destruct (truthy c); [|now rewrite E].
    destruct (load_cues c) as [cues|e]; cbn [bind]; [|reflexivity].
    f_equal.
    change (add (SYLT [] eng 1 (fst cues) (snd cues))
              (fold_left cond_add (text_pieces cols row) d))
      with (fold_left cond_add (text_pieces cols row ++ [sylt_piece cues]) d).
    apply fold_cond_add; [reflexivity|].
    intros p Hp. apply fresh_in_unmanaged; [exact Hd|].
    unfold text_pieces, piece, sylt_piece in Hp. cbn [In app] in Hp.
    repeat (destruct Hp as [<-|Hp]; [cbn; auto 15|]). destruct Hp.
  - now rewrite E.
Qed.

Local Opaque field_set field_text.

Lemma field_text_nonempty (cols : list pystr) (row : list cell) (c : pystr) :
  field_set cols row c = true -> field_text cols row c <> [].
Proof.
  Local Transparent field_set field_text.
  unfold field_set, field_text.
  destruct (row_get cols row c) as [[|s]|]; cbn; try discriminate.
  destruct s; discriminate.
  Local Opaque field_set field_text.
Qed.

Ltac case_field :=
  unfold opt_frame;
  match goal with |- context [if ?b then _ else _] => destruct b end;
  reflexivity.

Ltac select_frames Hd :=
  rewrite getall_app_unmanaged;
  [rewrite getall_frames_of | cbn; auto 15 | exact Hd].

Lemma import_frames (cols : list pystr) (row : list cell) (t0 t : tags) :
  wf_tags t0 = true ->
  write_frames cols row t0 = Ok t ->
  (forall c fid, In (c, fid) text_fields ->
     getall fid t = opt_frame (field_set cols row c)
                              (TextFrame fid [field_text cols row c]))
  /\ getall lit:("COMM") t
     = opt_frame (field_set cols row lit:("comments"))
                 (COMM [] eng [field_text cols row lit:("comments")])
  /\ getall lit:("USLT") t
     = opt_frame (field_set cols row lit:("lyrics"))
                 (USLT [] eng (inr [field_text cols row lit:("lyrics")]))
  /\ (field_set cols row lit:("synced_lyrics") = false -> getall lit:("SYLT") t = [])
  /\ (field_set cols row lit:("synced_lyrics") = true ->
      exists c cues,
        row_get cols row lit:("synced_lyrics") = Some c
        /\ load_cues c = Ok cues
        /\ getall lit:("SYLT") t = [SYLT [] eng 1 (fst cues) (snd cues)])
  /\ getall lit:("TXXX") t = []
  /\ (forall f, In f t0 -> unmanaged f = true -> In f t).
Proof.
  intros Hwf H. rewrite (write_frames_eq cols row t0 Hwf) in H.
  assert (Hd : forall g, In g (filter unmanaged t0) -> unmanaged g = true)
    by (intros g Hg; now apply filter_In in Hg).
  assert (Hkeep : forall w f, In f t0 -> unmanaged f = true ->
                              In f (filter unmanaged t0 ++ w)).
  { intros w f Hf Hu. apply in_or_app. left. apply filter_In. now split. }
  destruct (field_set cols row lit:("synced_lyrics")) eqn:Es.
  - assert (Hc : exists c, row_get cols row lit:("synced_lyrics") = Some c).
    { Local Transparent field_set. unfold field_set in Es.
      destruct (row_get cols row lit:("synced_lyrics")) as [c|]; [now exists c|discriminate].
      Local Opaque field_set. }
    destruct Hc as (c & Hc). rewrite Hc in H.
    destruct (load_cues c) as [cues|e] eqn:El; [|discriminate]. cbn [bind] in H.
    assert (Et : t = filter unmanaged t0
                     ++ frames_of (text_pieces cols row ++ [sylt_piece cues]))
      by congruence.
    clear H. subst t.
    split; [|split; [|split; [|split; [|split; [|split]]]]].
    + intros c0 fid Hin. unfold text_fields in Hin. cbn [In] in Hin.
      repeat (destruct Hin as [[= <- <-]|Hin];
              [select_frames Hd; cbn; case_field|]).
      destruct Hin.
    + select_frames Hd.
      cbn. case_field.
    + select_frames Hd.
      cbn. case_field.
    + discriminate.
    + intros _. exists c, cues. split; [exact Hc|]. split; [exact El|].
      select_frames Hd.
      reflexivity.
    + select_frames Hd.
      reflexivity.
    + apply Hkeep.
  - assert (Et : t = filter unmanaged t0 ++ frames_of (text_pieces cols row))
      by congruence.
    clear H. subst t.
    split; [|split; [|split; [|split; [|split; [|split]]]]].
    + intros c0 fid Hin. unfold text_fields in Hin. cbn [In] in Hin.
      repeat (destruct Hin as [[= <- <-]|Hin];
              [select_frames Hd; cbn; case_field|]).
      destruct Hin.
    + select_frames Hd.
      cbn. case_field.
    + select_frames Hd.
      cbn. case_field.
    + intros _. select_frames Hd.
      reflexivity.
    + discriminate.
    + select_frames Hd.
      reflexivity.
    + apply Hkeep.
Qed.

Local Transparent field_set field_text.

(** ** The loops over the rows *)

Lemma import_rows_app (mp3_dir : pystr) (cols : list pystr)
    (pre post : list (list cell)) :
  forall st,
    import_rows mp3_dir cols (pre ++ post) st =
    match import_rows mp3_dir cols pre st with
    | (st1, Ok _) => import_rows mp3_dir cols post st1
    | (st1, Raise e) => (st1, Raise e)
    end.
Proof.
  induction pre as [|row pre IH]; intros st; [reflexivity|].
  cbn [app import_rows].
  destruct (row_item cols row lit:("filename")) as [fn|e]; [|reflexivity].
  destruct (isfile (fs st) _); cbn [negb]; [|apply IH].
  destruct (write_frames cols row _); [apply IH|reflexivity].
Qed.

Lemma write_frames_malformed (cols : list pystr) (row : list cell) (t0 : tags)
    (c : cell) (e : exn) :
  row_get cols row lit:("synced_lyrics") = Some c ->
  truthy c = true ->
  load_cues c = Raise e ->
  write_frames cols row t0 = Raise e.
Proof.
  intros Hc Ht Hl. unfold write_frames. now rewrite Hc, Ht, Hl.
Qed.

Lemma import_rows_malformed (mp3_dir : pystr) (cols : list pystr)
    (pre : list (list cell)) (row : list cell) (post : list (list cell))
    (st st1 : state) (fn c : cell) (e : exn) :
  import_rows mp3_dir cols pre st = (st1, Ok tt) ->
  row_item cols row lit:("filename") = Ok fn ->
  isfile (fs st1) (Py.path_join mp3_dir (cell_str fn)) = true ->
  row_get cols row lit:("synced_lyrics") = Some c ->
  truthy c = true ->
  load_cues c = Raise e ->
  import_rows mp3_dir cols (pre ++ row :: post) st = (st1, Raise e).
Proof.
  intros Hpre Hfn Hf Hc Ht Hl. rewrite import_rows_app, Hpre.
  cbn [import_rows]. rewrite Hfn, Hf. cbn [negb].
  now rewrite (write_frames_malformed cols row _ c e Hc Ht Hl).
Qed.

Lemma endswith_sep_snoc (a : pystr) : Py.endswith_sep (a ++ [47]) = true.
Proof. unfold Py.endswith_sep. now rewrite rev_app_distr. Qed.

(** The directory joined with an empty name is no file. *)
Lemma isfile_join_empty (files : filesystem) (a : pystr) :
  isfile files (Py.path_join a []) = false.
Proof.
  unfold isfile, Py.path_join.
  destruct (Py.truthy a) eqn:Ea; cbn [negb orb].
  - destruct (Py.endswith_sep a) eqn:Es.
    + rewrite app_nil_r, Es. cbn [negb]. now rewrite andb_false_r.
    + rewrite endswith_sep_snoc. cbn [negb]. now rewrite andb_false_r.
  - destruct a; [reflexivity|discriminate].
Qed.

Lemma falsy_cell (fn : cell) : truthy fn = false -> fn = Str [].
Proof. destruct fn as [|[|? ?]]; cbn; congruence. Qed.

(** The later importer passes over a row with an empty file name and
    leaves the state as it is. *)
Lemma import_rows_skip (mp3_dir : pystr) (cols : list pystr) (row : list cell)
    (rest : list (list cell)) (st : state) (fn : cell) :
  row_item cols row lit:("filename") = Ok fn ->
  truthy fn = false ->
  import_rows mp3_dir cols (row :: rest) st = import_rows mp3_dir cols rest st.
Proof.
  intros Hfn Ht. apply falsy_cell in Ht. subst fn.
  cbn [import_rows]. rewrite Hfn. cbn [cell_str].
  now rewrite isfile_join_empty.
Qed.

Lemma import_rows_stderr (mp3_dir : pystr) (cols : list pystr)
    (rows : list (list cell)) :
  forall st, stderr (fst (import_rows mp3_dir cols rows st)) = stderr st.
Proof.
  induction rows as [|row rows IH]; intros st; [reflexivity|].
  cbn [import_rows].
  destruct (row_item cols row lit:("filename")) as [fn|e]; [|reflexivity].
  destruct (isfile (fs st) _); cbn [negb]; [|apply IH].
  destruct (write_frames cols row _); [|reflexivity].
  now rewrite IH.
Qed.

Lemma isfile_set (files : filesystem) (path p : pystr) (f : ID3.file) :
  isfile files path = true ->
  isfile (Dict.set path f files) p = isfile files p.
Proof.
  unfold isfile. intros H. apply andb_true_iff in H as [_ H].
  now rewrite (DictFacts.mem_set_iff path p f files H).
Qed.

Lemma names_file_set (mp3_dir : pystr) (cols : list pystr) (files : filesystem)
    (path : pystr) (f : ID3.file) (row : list cell) :
  isfile files path = true ->
  names_file mp3_dir cols (Dict.set path f files) row
  = names_file mp3_dir cols files row.
Proof.
  intros H. unfold names_file. destruct (row_get cols row _); [|reflexivity].
  now apply isfile_set.
Qed.

Lemma filter_names_file_set (mp3_dir : pystr) (cols : list pystr)
    (files : filesystem) (path : pystr) (f : ID3.file) (rows : list (list cell)) :
  isfile files path = true ->
  filter (names_file mp3_dir cols (Dict.set path f files)) rows
  = filter (names_file mp3_dir cols files) rows.
Proof.
  intros H. apply filter_ext. intros row. now apply names_file_set.
Qed.

(** When the later importer ends without an exception, it has updated one
    file for each row that names a file. *)
Lemma import_rows_updated (mp3_dir : pystr) (cols : list pystr)
    (rows : list (list cell)) :
  forall st st',
    import_rows mp3_dir cols rows st = (st', Ok tt) ->
    updated st' = (updated st + length (filter (names_file mp3_dir cols (fs st)) rows))%nat.
Proof.
  induction rows as [|row rows IH]; intros st st' H.
  - injection H as <-. cbn. lia.
  - cbn [import_rows] in H. cbn [filter]. unfold names_file at 1.
    unfold row_item in H.
    destruct (row_get cols row lit:("filename")) as [fn|]; [|discriminate].
    destruct (isfile (fs st) _) eqn:Ef; cbn [negb] in H.
    + destruct (write_frames cols row _) as [tags|]; [|discriminate].
      apply IH in H. cbn [fs updated] in H.
      rewrite filter_names_file_set in H by exact Ef. cbn [length]. lia.
    + now apply IH in H.
Qed.

Lemma index_of_mem (c : pystr) (cols : list pystr) :
  Py.mem c cols = true -> exists i, index_of c cols = Some i.
Proof.
  induction cols as [|x cols IH]; [discriminate|].
  unfold Py.mem in *. cbn [existsb index_of].
  destruct (Py.eqb c x); [now exists O|].
  cbn [orb]. intros H. destruct (IH H) as (i & E). rewrite E. now exists (S i).
Qed.

Lemma row_item_mem (c : pystr) (cols : list pystr) (row : list cell) :
  Py.mem c cols = true -> exists x, row_get cols row c = Some x /\ row_item cols row c = Ok x.
Proof.
  intros H. destruct (index_of_mem c cols H) as (i & E).
  unfold row_item, row_get. rewrite E. eexists. split; reflexivity.
Qed.

End ImportFacts.

(** ** Import, the earlier importer *)

Module ImportV1Facts.

Import ID3 Pandas Transfer TransferV1 ImportFacts.
Local Open Scope N_scope.

Lemma v1_import_rows_skip (mp3_dir : pystr) (cols : list pystr) (idx : nat)
    (row : list cell) (rest : list (list cell)) (st : state) (fn : cell) :
  row_item cols row lit:("filename") = Ok fn ->
  truthy fn = false ->
  import_rows mp3_dir cols idx (row :: rest) st
  = import_rows mp3_dir cols (S idx) rest
      (mkState (fs st) (updated st) (stderr st ++ [warn_missing_filename idx])).
Proof.
  intros Hfn Ht. cbn [import_rows]. now rewrite Hfn, Ht.
Qed.

Lemma v1_import_rows_spec (mp3_dir : pystr) (cols : list pystr)
    (rows : list (list cell)) :
  Py.mem lit:("filename") cols = true ->
  forall idx st,
  exists st',
    import_rows mp3_dir cols idx rows st = (st', Ok tt)
    /\ updated st'
       = (updated st
          + length (filter (names_file mp3_dir cols (files (fs st))) rows))%nat
    /\ (forall i row fn,
          nth_error rows i = Some row ->
          row_get cols row lit:("filename") = Some fn ->
          truthy fn = false ->
          In (warn_missing_filename (idx + i)) (stderr st'))
    /\ (forall w, In w (stderr st) -> In w (stderr st')).
Proof.
  intros Hcol. induction rows as [|row rows IH]; intros idx st.
  - exists st. split; [reflexivity|]. split; [cbn; lia|].
    split; [intros [|i] ? ? H; discriminate H|auto].
  - cbn [import_rows filter]. unfold names_file at 1.
    destruct (row_item_mem lit:("filename") cols row Hcol) as (fn & Hget & Hitem).
    rewrite Hitem, Hget.
    destruct (truthy fn) eqn:Et; cbn [negb].
    + fold (isfile (fs st) (Py.path_join mp3_dir (cell_str fn))).
      unfold isfile at 1 2.
      destruct (Transfer.isfile (files (fs st)) _) eqn:Ef; cbn [negb].
      * match goal with |- context [import_rows _ _ _ _ ?s] =>
          destruct (IH (S idx) s) as (st' & E & Hu & Hw & Hs) end.
        exists st'. split; [exact E|]. cbn [fs updated files stderr] in *.
        rewrite filter_names_file_set in Hu by exact Ef.
        split; [cbn [length]; lia|]. split; [|exact Hs].
        intros [|i] r f Hn Hg Hf.
        -- injection Hn as <-. congruence.
        -- replace (idx + S i)%nat with (S idx + i)%nat by lia.
           now apply (Hw i r f).
      * match goal with |- context [import_rows _ _ _ _ ?s] =>
          destruct (IH (S idx) s) as (st' & E & Hu & Hw & Hs) end.
        exists st'. split; [exact E|]. cbn [fs updated files stderr] in *.
        split; [lia|]. split.
        -- intros [|i] r f Hn Hg Hf.
           ++ injection Hn as <-. congruence.
           ++ replace (idx + S i)%nat with (S idx + i)%nat by lia.
              now apply (Hw i r f).
        -- intros w Hin. apply Hs. apply in_or_app. now left.
    + apply falsy_cell in Et as Efn. subst fn. cbn [cell_str].
      rewrite isfile_join_empty.
      match goal with |- context [import_rows _ _ _ _ ?s] =>
        destruct (IH (S idx) s) as (st' & E & Hu & Hw & Hs) end.
      exists st'. split; [exact E|]. cbn [fs updated files stderr] in *.
      split; [lia|]. split.
      * intros [|i] r f Hn Hg Hf.
        -- apply Hs. apply in_or_app. right. rewrite Nat.add_0_r. now left.
        -- replace (idx + S i)%nat with (S idx + i)%nat by lia.
           now apply (Hw i r f).
      * intros w Hin. apply Hs. apply in_or_app. now left.
Qed.

End ImportV1Facts.

Module JsonOutcomeFacts.
Import Json.
Local Open Scope N_scope.

Lemma skip_ws_length (s : pystr) : (length (skip_ws s) <= length s)%nat.
Proof.
  induction s as [|c s IH]; [cbn; lia|]. cbn [skip_ws].
  destruct (is_ws c); cbn [length]; lia.
Qed.

Lemma push_inv (c : N) (res : result (pystr * pystr)) (x r : pystr) :
  push c res = Ok (x, r) -> exists x', res = Ok (x', r).
Proof.
  unfold push. destruct res as [[x' r']|e]; cbn [bind fst snd]; [|discriminate].
  intros H. injection H as _ <-. now exists x'.
Qed.



Lemma push_decodes (c : N) (res : result (pystr * pystr)) :
  decodes res -> decodes (push c res).
Proof. unfold push. destruct res as [[x' r']|e]; cbn [bind decodes]; auto. Qed.

Lemma scanstring_decodes (n : nat) :
  forall s, (length s <= n)%nat -> decodes (scanstring s).
Proof.
  induction n as [|n IH]; intros s Hn.
  - destruct s; [reflexivity|cbn in Hn; lia].
  - destruct s as [|c s0]; [reflexivity|]. cbn [length] in Hn.
    cbn [scanstring].
    assert (IH' : forall s', (length s' <= n)%nat -> decodes (scanstring s'))
      by exact IH.
    clear IH.
    destruct (c =? 34); [exact I|].
    destruct (c =? 92).
    + destruct s0 as [|e r1]; [reflexivity|]. cbn [length] in Hn.
      destruct (e =? 117).
      * destruct r1 as [|h1 [|h2 [|h3 [|h4 r2]]]]; try reflexivity.
        cbn [length] in Hn.
        destruct (hex4 h1 h2 h3 h4) as [uni|]; [|reflexivity].
        assert (K : decodes (push uni (scanstring r2)))
          by (apply push_decodes, IH'; lia).
        destruct ((55296 <=? uni) && (uni <=? 56319)); [|exact K].
        destruct r2 as [|b [|u r3]]; try exact K.
        destruct ((b =? 92) && (u =? 117)); [|exact K].
        destruct r3 as [|k1 [|k2 [|k3 [|k4 r4]]]]; try reflexivity.
        destruct (hex4 k1 k2 k3 k4) as [uni2|]; [|reflexivity].
        destruct ((56320 <=? uni2) && (uni2 <=? 57343)); [|exact K].
        apply push_decodes, IH'. cbn [length] in *. lia.
      * destruct (backslash e); [|reflexivity]. apply push_decodes, IH'. lia.
    + destruct (c <? 32); [reflexivity|]. apply push_decodes, IH'. lia.
Qed.

Lemma scanstring_length (n : nat) :
  forall s x r, (length s <= n)%nat -> scanstring s = Ok (x, r) ->
                (length r < length s)%nat.
Proof.
  induction n as [|n IH]; intros s x r Hn H.
  - destruct s; [discriminate|cbn in Hn; lia].
  - destruct s as [|c s0]; [discriminate|]. cbn [length] in Hn.
    cbn [scanstring] in H.
    assert (IH' : forall s' x' r', (length s' <= n)%nat -> scanstring s' = Ok (x', r') ->
                                   (length r' < length s')%nat) by exact IH.
    clear IH.
    destruct (c =? 34); [injection H as <- <-; cbn; lia|].
    destruct (c =? 92).
    + destruct s0 as [|e r1]; [discriminate|]. cbn [length] in Hn.
      destruct (e =? 117).
      * destruct r1 as [|h1 [|h2 [|h3 [|h4 r2]]]]; try discriminate.
        cbn [length] in Hn.
        destruct (hex4 h1 h2 h3 h4) as [uni|]; [|discriminate].
        assert (K : forall x', scanstring r2 = Ok (x', r) ->
                      (length r < length (c :: e :: h1 :: h2 :: h3 :: h4 :: r2))%nat).
        { intros x' Hx. apply IH' in Hx; [cbn [length]; lia|lia]. }
        destruct ((55296 <=? uni) && (uni <=? 56319)).
        2:{ apply push_inv in H as (x' & H). now apply (K x'). }
        destruct r2 as [|b [|u r3]];
          try (apply push_inv in H as (x' & H); now apply (K x')).
        destruct ((b =? 92) && (u =? 117)).
        2:{ apply push_inv in H as (x' & H). now apply (K x'). }
        destruct r3 as [|k1 [|k2 [|k3 [|k4 r4]]]]; try discriminate.
        destruct (hex4 k1 k2 k3 k4) as [uni2|]; [|discriminate].
        destruct ((56320 <=? uni2) && (uni2 <=? 57343)).
        -- apply push_inv in H as (x' & H). apply IH' in H; cbn [length] in *; lia.
        -- apply push_inv in H as (x' & H). now apply (K x').
      * destruct (backslash e); [|discriminate].
        apply push_inv in H as (x' & H). apply IH' in H; cbn [length] in *; lia.
    + destruct (c <? 32); [discriminate|].
      apply push_inv in H as (x' & H). apply IH' in H; cbn [length] in *; lia.
Qed.


Lemma span_digits_length (s : pystr) :
  (length (snd (span_digits s)) <= length s)%nat.
Proof.
  induction s as [|c s IH]; [cbn; lia|]. cbn [span_digits].
  destruct (Py.is_digit c); [|cbn; lia].
  destruct (span_digits s) as [d r']. cbn [snd length] in *. lia.
Qed.

Lemma match_integer_length (s i r : pystr) :
  match_integer s = Some (i, r) -> (length r < length s)%nat.
Proof.
  unfold match_integer. intros H.
  assert (G : forall sign s1, (length s1 <= length s)%nat ->
            match s1 with
            | c :: r0 =>
                if c =? 48 then Some (sign ++ [48], r0)
                else if Py.is_digit c then
                  let (d, r') := span_digits r0 in Some (sign ++ c :: d, r')
                else None
            | [] => None
            end = Some (i, r) -> (length r < length s)%nat).
  { intros sign s1 Hl. destruct s1 as [|c r0]; [discriminate|]. cbn [length] in Hl.
    destruct (c =? 48); [intros E; injection E as _ <-; lia|].
    destruct (Py.is_digit c); [|discriminate].
    pose proof (span_digits_length r0) as Hs.
    destruct (span_digits r0) as [d r']. cbn [snd] in Hs.
    intros E; injection E as _ <-; lia. }
  destruct s as [|c r0]; [discriminate|].
  destruct (c =? 45).
  - apply (G [45] r0) in H; [exact H|cbn; lia].
  - apply (G [] (c :: r0)) in H; [exact H|lia].
Qed.

Lemma match_frac_length (s : pystr) :
  (length (snd (match_frac s)) <= length s)%nat.
Proof.
  unfold match_frac. destruct s as [|c r]; [cbn; lia|].
  destruct (c =? 46); [|cbn; lia].
  pose proof (span_digits_length r) as Hs.
  destruct (span_digits r) as [d r']. cbn [snd] in Hs.
  destruct d; cbn [snd length] in *; lia.
Qed.

Lemma match_exp_length (s : pystr) :
  (length (snd (match_exp s)) <= length s)%nat.
Proof.
  unfold match_exp. destruct s as [|c r]; [cbn; lia|].
  destruct ((c =? 101) || (c =? 69)); [|cbn; lia].
  assert (G : forall sg r1, (length r1 <= length r)%nat ->
            (length (snd (let (d, r2) := span_digits r1 in
                          match d with
                          | [] => ([], c :: r)
                          | _ :: _ => (c :: sg ++ d, r2)
                          end)) <= length (c :: r))%nat).
  { intros sg r1 Hl. pose proof (span_digits_length r1) as Hs.
    destruct (span_digits r1) as [d r2]. cbn [snd] in Hs.
    destruct d; cbn [snd length] in *; lia. }
  destruct r as [|x r0]; [apply (G [] []); lia|].
  destruct ((x =? 43) || (x =? 45)); [apply (G [x] r0); cbn; lia|apply (G [] (x :: r0)); lia].
Qed.

Lemma match_number_length (s : pystr) (v : value) (r : pystr) :
  match_number s = Some (Ok (v, r)) -> (length r < length s)%nat.
Proof.
  unfold match_number.
  destruct (match_integer s) as [[i r0]|] eqn:Ei; [|discriminate].
  apply match_integer_length in Ei.
  pose proof (match_frac_length r0) as Hf.
  destruct (match_frac r0) as [frac r1]. cbn [snd] in Hf.
  pose proof (match_exp_length r1) as He.
  destruct (match_exp r1) as [ex r2]. cbn [snd] in He.
  destruct frac, ex; intros H; try (injection H as _ <-; lia).
  destruct (Py.int_of_str i); [injection H as _ <-; lia|discriminate].
Qed.


Lemma span_digits_digits (s : pystr) :
  forallb Py.is_digit (fst (span_digits s)) = true.
Proof.
  induction s as [|c s IH]; [reflexivity|]. cbn [span_digits].
  destruct (Py.is_digit c) eqn:E; [|reflexivity].
  destruct (span_digits s) as [d r']. cbn [fst forallb] in *. now rewrite E, IH.
Qed.

Lemma digits_acc_digits (ds : pystr) :
  forallb Py.is_digit ds = true ->
  forall a, exists n, Py.digits_acc a true ds = Some n.
Proof.
  induction ds as [|c ds IH]; intros H a; cbn [Py.digits_acc].
  - now exists a.
  - cbn [forallb] in H. apply andb_true_iff in H as [Hc Hds].
    rewrite (PyFacts.decimal_ascii c Hc). now apply IH.
Qed.

(** The integer part of a number is an integer literal. *)
Lemma int_of_lexeme (sign : pystr) (c : N) (ds : pystr) :
  sign = [] \/ sign = [45] ->
  Py.is_digit c = true -> forallb Py.is_digit ds = true ->
  exists z, Py.int_of_str (sign ++ c :: ds) = Some z.
Proof.
  intros Hs Hc Hds. unfold Py.int_of_str.
  pose proof (PyFacts.last_of_digits c ds Hc Hds) as Hl.
  apply PyFacts.is_digit_spec in Hc as Hc'.
  destruct (digits_acc_digits ds Hds (10 * 0 + (c - 48))) as (n & Hn).
  assert (Hd : Py.digits_acc 0 false (c :: ds) = Some n).
  { cbn [Py.digits_acc]. now rewrite (PyFacts.decimal_ascii c Hc). }
  destruct Hs as [-> | ->]; cbn [app].
  - rewrite PyFacts.strip_id; [|now apply PyFacts.digit_not_space|exact Hl].
    destruct (N.eqb_spec c 45) as [->|_]; [lia|].
    destruct (N.eqb_spec c 43) as [->|_]; [lia|].
    rewrite Hd. now eexists.
  - rewrite PyFacts.strip_id.
    + cbn [N.eqb Pos.eqb]. rewrite Hd. now eexists.
    + reflexivity.
    + change (45 :: c :: ds) with ([45] ++ c :: ds). rewrite rev_app_distr.
      destruct (rev (c :: ds)); [reflexivity|exact Hl].
Qed.

Lemma match_integer_literal (s i r : pystr) :
  match_integer s = Some (i, r) -> exists z, Py.int_of_str i = Some z.
Proof.
  unfold match_integer. intros H.
  assert (G : forall sign s1, sign = [] \/ sign = [45] ->
            match s1 with
            | c :: r0 =>
                if c =? 48 then Some (sign ++ [48], r0)
                else if Py.is_digit c then
                  let (d, r') := span_digits r0 in Some (sign ++ c :: d, r')
                else None
            | [] => None
            end = Some (i, r) -> exists z, Py.int_of_str i = Some z).
  { intros sign s1 Hs. destruct s1 as [|c r0]; [discriminate|].
    destruct (c =? 48).
    - intros E; injection E as <- _. now apply int_of_lexeme.
    - destruct (Py.is_digit c) eqn:Ec; [|discriminate].
      pose proof (span_digits_digits r0) as Hd.
      destruct (span_digits r0) as [d r']. cbn [fst] in Hd.
      intros E; injection E as <- _. now apply int_of_lexeme. }
  destruct s as [|c r0]; [discriminate|].
  destruct (c =? 45).
  - apply (G [45] r0) in H; [exact H|now right].
  - apply (G [] (c :: r0)) in H; [exact H|now left].
Qed.

Lemma match_number_decodes (s : pystr) (res : result (value * pystr)) :
  match_number s = Some res -> decodes res.
Proof.
  unfold match_number.
  destruct (match_integer s) as [[i r0]|] eqn:Ei; [|discriminate].
  destruct (match_integer_literal s i r0 Ei) as (z & Hz).
  destruct (match_frac r0) as [frac r1]. destruct (match_exp r1) as [ex r2].
  destruct frac, ex; intros H; injection H as <-; try exact I.
  now rewrite Hz.
Qed.

Lemma skipn_length_lt (n : nat) (p s : pystr) :
  Py.startswith p s = true -> length p = n -> (0 < n)%nat ->
  (length (skipn n s) < length s)%nat.
Proof.
  intros Hp Hl Hn. rewrite length_skipn.
  assert (length p <= length s)%nat.
  { clear -Hp. revert s Hp. induction p as [|x p IH]; intros s Hp; [cbn; lia|].
    destruct s as [|y s]; [discriminate|]. cbn [Py.startswith] in Hp.
    apply andb_true_iff in Hp as [_ Hp]. apply IH in Hp. cbn [length]. lia. }
  lia.
Qed.


Lemma scan_once_S (f : nat) (c : N) (r : pystr) :
  scan_once (S f) (c :: r) =
  let s := c :: r in
  if c =? 34 then
    do xr <- scanstring r; Ok (JStr (fst xr), snd xr)
  else if c =? 123 then
    match skip_ws r with
    | c1 :: r1 =>
        if c1 =? 125 then Ok (JDict [], r1)
        else if c1 =? 34 then
          do pr <- object_pairs f r1; Ok (JDict (Dict.of_pairs (fst pr)), snd pr)
        else Raise JSONDecodeError
    | [] => Raise JSONDecodeError
    end
  else if c =? 91 then
    match skip_ws r with
    | c1 :: r1 =>
        if c1 =? 93 then Ok (JList [], r1)
        else do vr <- array_items f (c1 :: r1); Ok (JList (fst vr), snd vr)
    | [] => Raise JSONDecodeError
    end
  else if Py.startswith lit_null s then Ok (JNull, skipn 4 s)
  else if Py.startswith lit_true s then Ok (JBool true, skipn 4 s)
  else if Py.startswith lit_false s then Ok (JBool false, skipn 5 s)
  else
    match match_number s with
    | Some res => res
    | None =>
        if Py.startswith lit_NaN s then Ok (JFloat lit_NaN, skipn 3 s)
        else if Py.startswith lit_Infinity s then Ok (JFloat lit_Infinity, skipn 8 s)
        else if Py.startswith lit_minus_Infinity s
        then Ok (JFloat lit_minus_Infinity, skipn 9 s)
        else Raise JSONDecodeError
    end.
Proof. reflexivity. Qed.

Local Arguments scan_once : simpl never.
Local Arguments array_items : simpl never.
Local Arguments object_pairs : simpl never.

(** Every value read takes at least one code point. *)
Lemma json_progress (f : nat) :
  (forall s v r, scan_once f s = Ok (v, r) -> (length r < length s)%nat)
  /\ (forall s vs r, array_items f s = Ok (vs, r) -> (length r < length s)%nat)
  /\ (forall s ps r, object_pairs f s = Ok (ps, r) -> (length r < length s)%nat).
Proof.
  induction f as [|f (IHs & IHa & IHo)].
  { repeat split; intros; discriminate. }
  split; [|split].
  - intros s v r H. destruct s as [|c r0]; [discriminate|].
    rewrite scan_once_S in H. cbv zeta in H.
    destruct (c =? 34).
    { destruct (scanstring r0) as [[x r1]|] eqn:E; [|discriminate]. cbn in H.
      injection H as _ <-. apply (scanstring_length (length r0)) in E; [cbn; lia|lia]. }
    destruct (c =? 123).
    { pose proof (skip_ws_length r0) as Hs.
      destruct (skip_ws r0) as [|c1 r1]; [discriminate|]. cbn [length] in Hs.
      destruct (c1 =? 125); [injection H as _ <-; cbn; lia|].
      destruct (c1 =? 34); [|discriminate].
      destruct (object_pairs f r1) as [[ps r2]|] eqn:E; [|discriminate]. cbn in H.
      injection H as _ <-. apply IHo in E. cbn; lia. }
    destruct (c =? 91).
    { pose proof (skip_ws_length r0) as Hs.
      destruct (skip_ws r0) as [|c1 r1]; [discriminate|]. cbn [length] in Hs.
      destruct (c1 =? 93); [injection H as _ <-; cbn; lia|].
      destruct (array_items f (c1 :: r1)) as [[vs r2]|] eqn:E; [|discriminate]. cbn in H.
      injection H as _ <-. apply IHa in E. cbn [length] in *; lia. }
    destruct (Py.startswith lit_null (c :: r0)) eqn:E1.
    { pose proof (skipn_length_lt 4 lit_null (c :: r0) ltac:(eassumption) eq_refl ltac:(lia)) as L.
      injection H as _ <-. exact L. }
    destruct (Py.startswith lit_true (c :: r0)) eqn:E2.
    { pose proof (skipn_length_lt 4 lit_true (c :: r0) ltac:(eassumption) eq_refl ltac:(lia)) as L.
      injection H as _ <-. exact L. }
    destruct (Py.startswith lit_false (c :: r0)) eqn:E3.
    { pose proof (skipn_length_lt 5 lit_false (c :: r0) ltac:(eassumption) eq_refl ltac:(lia)) as L.
      injection H as _ <-. exact L. }
    destruct (match_number (c :: r0)) as [res|] eqn:En.
    { subst res. now apply match_number_length in En. }
    destruct (Py.startswith lit_NaN (c :: r0)) eqn:E4.
    { pose proof (skipn_length_lt 3 lit_NaN (c :: r0) ltac:(eassumption) eq_refl ltac:(lia)) as L.
      injection H as _ <-. exact L. }
    destruct (Py.startswith lit_Infinity (c :: r0)) eqn:E5.
    { pose proof (skipn_length_lt 8 lit_Infinity (c :: r0) ltac:(eassumption) eq_refl ltac:(lia)) as L.
      injection H as _ <-. exact L. }
    destruct (Py.startswith lit_minus_Infinity (c :: r0)) eqn:E6; [|discriminate].
    pose proof (skipn_length_lt 9 lit_minus_Infinity (c :: r0) E6 eq_refl ltac:(lia)) as L.
    injection H as _ <-. exact L.
  - intros s vs r H. rewrite JsonFacts.array_items_S in H.
    destruct (scan_once f s) as [[v r1]|] eqn:E; [|discriminate]. cbn [bind fst snd] in H.
    apply IHs in E. pose proof (skip_ws_length r1) as Hs.
    destruct (skip_ws r1) as [|c r2]; [discriminate|]. cbn [length] in Hs.
    destruct (c =? 93); [injection H as _ <-; lia|].
    destruct (c =? 44); [|discriminate].
    destruct (array_items f (skip_ws r2)) as [[vs' r3]|] eqn:E2; [|discriminate].
    cbn in H. injection H as _ <-. apply IHa in E2.
    pose proof (skip_ws_length r2). lia.
  - intros s ps r H. rewrite JsonFacts.object_pairs_S in H.
    destruct (scanstring s) as [[k s1]|] eqn:E; [|discriminate]. cbn [bind fst snd] in H.
    apply (scanstring_length (length s)) in E; [|lia].
    pose proof (skip_ws_length s1) as Hs.
    destruct (skip_ws s1) as [|c r1]; [discriminate|]. cbn [length] in Hs.
    destruct (c =? 58); [|discriminate].
    destruct (scan_once f (skip_ws r1)) as [[v r2]|] eqn:E2; [|discriminate].
    cbn [bind fst snd] in H. apply IHs in E2. pose proof (skip_ws_length r1) as Hs1.
    pose proof (skip_ws_length r2) as Hs2.
    destruct (skip_ws r2) as [|c1 r3]; [discriminate|]. cbn [length] in Hs2.
    destruct (c1 =? 125); [injection H as _ <-; lia|].
    destruct (c1 =? 44); [|discriminate].
    pose proof (skip_ws_length r3) as Hs3.
    destruct (skip_ws r3) as [|q r4]; [discriminate|]. cbn [length] in Hs3.
    destruct (q =? 34); [|discriminate].
    destruct (object_pairs f r4) as [[ps' r5]|] eqn:E3; [|discriminate].
    cbn in H. injection H as _ <-. apply IHo in E3. lia.
Qed.

Ltac bind_decodes K :=
  match goal with
  | |- decodes (bind ?r _) => destruct r as [[? ?]|?]; cbn [bind fst snd decodes] in *;
                              [|exact K]
  end.

(** With fuel of twice the length of the input, and one or two units more,
    the outcome is a value or a decoding error: the fuel is never used up. *)
Lemma json_decodes (f : nat) :
  (forall s, (2 * length s + 1 <= f)%nat -> decodes (scan_once f s))
  /\ (forall s, (2 * length s + 2 <= f)%nat -> decodes (array_items f s))
  /\ (forall s, (2 * length s + 2 <= f)%nat -> decodes (object_pairs f s)).
Proof.
  induction f as [|f (IHs & IHa & IHo)].
  { repeat split; intros s H; lia. }
  destruct (json_progress f) as (Ps & Pa & Po).
  split; [|split].
  - intros s Hf. destruct s as [|c r0]; [reflexivity|]. cbn [length] in Hf.
    rewrite scan_once_S. cbv zeta.
    destruct (c =? 34).
    { pose proof (scanstring_decodes (length r0) r0 (le_n _)) as K.
      destruct (scanstring r0) as [[x r1]|e]; cbn [bind decodes] in *; [exact I|exact K]. }
    destruct (c =? 123).
    { pose proof (skip_ws_length r0) as Hs.
      destruct (skip_ws r0) as [|c1 r1]; [reflexivity|]. cbn [length] in Hs.
      destruct (c1 =? 125); [exact I|].
      destruct (c1 =? 34); [|reflexivity].
      assert (K : decodes (object_pairs f r1)) by (apply IHo; lia).
      destruct (object_pairs f r1) as [[ps r2]|e]; cbn [bind decodes] in *;
        [exact I|exact K]. }
    destruct (c =? 91).
    { pose proof (skip_ws_length r0) as Hs.
      destruct (skip_ws r0) as [|c1 r1]; [reflexivity|]. cbn [length] in Hs.
      destruct (c1 =? 93); [exact I|].
      assert (K : decodes (array_items f (c1 :: r1)))
        by (apply IHa; cbn [length]; lia).
      destruct (array_items f (c1 :: r1)) as [[vs r2]|e]; cbn [bind decodes] in *;
        [exact I|exact K]. }
    destruct (Py.startswith lit_null (c :: r0)); [exact I|].
    destruct (Py.startswith lit_true (c :: r0)); [exact I|].
    destruct (Py.startswith lit_false (c :: r0)); [exact I|].
    destruct (match_number (c :: r0)) as [res|] eqn:En.
    { now apply match_number_decodes in En. }
    destruct (Py.startswith lit_NaN (c :: r0)); [exact I|].
    destruct (Py.startswith lit_Infinity (c :: r0)); [exact I|].
    destruct (Py.startswith lit_minus_Infinity (c :: r0)); [exact I|reflexivity].
  - intros s Hf. rewrite JsonFacts.array_items_S.
    assert (K : decodes (scan_once f s)) by (apply IHs; lia).
    destruct (scan_once f s) as [[v r1]|e] eqn:E; cbn [bind fst snd decodes] in *;
      [|exact K].
    apply Ps in E. pose proof (skip_ws_length r1) as Hs.
    destruct (skip_ws r1) as [|c r2]; [reflexivity|]. cbn [length] in Hs.
    destruct (c =? 93); [exact I|].
    destruct (c =? 44); [|reflexivity].
    pose proof (skip_ws_length r2) as Hs2.
    assert (K2 : decodes (array_items f (skip_ws r2))) by (apply IHa; lia).
    destruct (array_items f (skip_ws r2)) as [[vs r3]|e]; cbn [bind decodes] in *;
      [exact I|exact K2].
  - intros s Hf. rewrite JsonFacts.object_pairs_S.
    pose proof (scanstring_decodes (length s) s (le_n _)) as K.
    destruct (scanstring s) as [[k s1]|e] eqn:E; cbn [bind fst snd decodes] in *;
      [|exact K].
    apply (scanstring_length (length s)) in E; [|lia].
    pose proof (skip_ws_length s1) as Hs.
    destruct (skip_ws s1) as [|c r1]; [reflexivity|]. cbn [length] in Hs.
    destruct (c =? 58); [|reflexivity].
    pose proof (skip_ws_length r1) as Hs1.
    assert (K2 : decodes (scan_once f (skip_ws r1))) by (apply IHs; lia).
    destruct (scan_once f (skip_ws r1)) as [[v r2]|e] eqn:E2;
      cbn [bind fst snd decodes] in *; [|exact K2].
    apply Ps in E2. pose proof (skip_ws_length r2) as Hs2.
    destruct (skip_ws r2) as [|c1 r3]; [reflexivity|]. cbn [length] in Hs2.
    destruct (c1 =? 125); [exact I|].
    destruct (c1 =? 44); [|reflexivity].
    pose proof (skip_ws_length r3) as Hs3.
    destruct (skip_ws r3) as [|q r4]; [reflexivity|]. cbn [length] in Hs3.
    destruct (q =? 34); [|reflexivity].
    assert (K3 : decodes (object_pairs f r4)) by (apply IHo; lia).
    destruct (object_pairs f r4) as [[ps r5]|e]; cbn [bind decodes] in *;
      [exact I|exact K3].
Qed.

(** [json.loads] gives a value or a decoding error; it never runs out of
    fuel. *)
Lemma loads_decodes (s : pystr) : decodes (loads s).
Proof.
  unfold loads.
  assert (K : decodes (scan_once (S (2 * length s)) (skip_ws s))).
  { apply json_decodes. pose proof (skip_ws_length s). lia. }
  assert (G : decodes (do vr <- scan_once (S (2 * length s)) (skip_ws s);
                       match skip_ws (snd vr) with
                       | [] => Ok (fst vr)
                       | _ :: _ => Raise JSONDecodeError
                       end)).
  { destruct (scan_once _ _) as [[v r]|e]; cbn [bind fst snd decodes] in *; [|exact K].
    destruct (skip_ws r); [exact I|reflexivity]. }
  destruct s as [|c r]; [exact G|].
  destruct c as [|p]; [exact G|].
  repeat (destruct p as [p|p|]; try exact G; try reflexivity).
Qed.

Lemma comprehension_length (g : value -> result value) (l : list value) :
  forall xs, Transfer.comprehension g l = Ok xs -> length xs = length l.
Proof.
  induction l as [|e l IH]; intros xs H; cbn [Transfer.comprehension] in H.
  - now injection H as <-.
  - destruct (g e); [|discriminate]. cbn [bind] in H.
    destruct (Transfer.comprehension g l) as [ys|]; [|discriminate]. cbn [bind] in H.
    injection H as <-. cbn [length]. now rewrite (IH ys eq_refl).
Qed.

Lemma comprehension_getitem (k : pystr) (l : list value) (e : exn) :
  Transfer.comprehension (Transfer.getitem k) l = Raise e ->
  e = TypeError \/ e = KeyError.
Proof.
  induction l as [|x l IH]; cbn [Transfer.comprehension]; [discriminate|].
  destruct (Transfer.getitem k x) as [v|e0] eqn:Eg; cbn [bind].
  - destruct (Transfer.comprehension (Transfer.getitem k) l); cbn [bind];
      [discriminate|]. intros H. injection H as <-. now apply IH.
  - intros H. injection H as <-. unfold Transfer.getitem in Eg.
    destruct x; try (injection Eg as <-; now left).
    destruct (Dict.get k d); [discriminate|]. injection Eg as <-. now right.
Qed.

End JsonOutcomeFacts.
Module TableFacts.

Import ID3 Pandas.

Lemma index_of_nth (c : pystr) (cols : list pystr) (i : nat) :
  index_of c cols = Some i -> (i < length cols)%nat /\ forall d, nth i cols d = c.
Proof.
  revert i. induction cols as [|x cols IH]; intros i H; cbn [index_of] in H.
  - discriminate.
  - destruct (Py.eqb c x) eqn:E.
    + injection H as <-. apply PyFacts.eqb_eq in E. subst x. cbn. split; [lia|reflexivity].
    + destruct (index_of c cols) as [j|]; [|discriminate]. injection H as <-.
      destruct (IH j eq_refl) as (Hl & Hn). cbn [length nth]. split; [lia|exact Hn].
Qed.

(** No cell of a text row reads as a missing value. *)
Lemma text_row_get (cols : list pystr) (row : list cell) (c : pystr) :
  text_row cols row = true -> row_get cols row c <> Some NaN.
Proof.
  unfold text_row, row_get. intros H. apply andb_true_iff in H as [Hl Ht].
  apply Nat.leb_le in Hl.
  destruct (index_of c cols) as [i|] eqn:Ei; [|discriminate].
  destruct (index_of_nth c cols i Ei) as (Hi & _).
  rewrite forallb_forall in Ht. specialize (Ht (nth i row NaN)).
  intros E. injection E as E. rewrite E in Ht.
  assert (Hin : In NaN row) by (rewrite <- E; apply nth_In; lia).
  specialize (Ht Hin). discriminate.
Qed.

End TableFacts.

Module IndexFacts.
Import ID3 Pandas.
Import Csv2Json.

Lemma row_update_length (cols : list pystr) (row : list cell) (k : pystr) (e : entry) :
  row_update cols row = Ok (Some (k, e)) ->
  parse_int (row_get cols row lit:("length")) = Ok (length e)
  /\ parse_int (row_get cols row lit:("bitrate")) = Ok (bitrate e)
  /\ get_strip cols row lit:("album") = Ok (genre e)
  /\ get_strip cols row lit:("title") = Ok (title e)
  /\ get_strip cols row lit:("artist") = Ok (artist e)
  /\ get_strip cols row lit:("composer") = Ok (composer e)
  /\ get_strip cols row lit:("comments") = Ok (poet e).
Proof.
  unfold row_update. intros H.
  destruct (genre_name cols row) as [name|?]; [|discriminate]. cbn [bind] in H.
  destruct (get_strip cols row lit:("filename")) as [fn|?]; [|discriminate].
  cbn [bind] in H.
  destruct (Dict.get name GENRE_ACRONYMS) as [acr|]; [|discriminate].
  destruct (negb (Py.truthy acr) || negb (Py.truthy fn)); [discriminate|].
  destruct (get_strip cols row lit:("disc")); [|discriminate]. cbn [bind] in H.
  destruct (parse_int (row_get cols row lit:("length"))); [|discriminate].
  cbn [bind] in H.
  destruct (parse_int (row_get cols row lit:("bitrate"))); [|discriminate].
  cbn [bind] in H.
  destruct (get_strip cols row lit:("title")); [|discriminate]. cbn [bind] in H.
  destruct (get_strip cols row lit:("artist")); [|discriminate]. cbn [bind] in H.
  destruct (get_strip cols row lit:("album")); [|discriminate]. cbn [bind] in H.
  destruct (get_strip cols row lit:("composer")); [|discriminate]. cbn [bind] in H.
  destruct (get_strip cols row lit:("comments")); [|discriminate]. cbn [bind] in H.
  injection H as <- <-. cbn. repeat split; reflexivity.
Qed.

Lemma parse_int_repr (z : Z) : parse_int (Some (Str (Py.repr_int z))) = Ok (Some z).
Proof.
  unfold parse_int.
  destruct (Py.truthy (Py.repr_int z)) eqn:E.
  - now rewrite PyFacts.int_of_str_repr.
  - apply Csv2JsonFacts.truthy_false in E. now apply Csv2JsonFacts.repr_int_nonempty in E.
Qed.

Lemma row_update_keyed (cols : list pystr) (row : list cell) (k : pystr) (e : entry) :
  row_update cols row = Ok (Some (k, e)) -> keyed k e.
Proof.
  intros H.
  destruct (Csv2JsonFacts.row_update_some cols row k e H)
    as (name & acr & _ & Hg & _ & Hf & Hk).
  exists name, acr. split; [exact Hg|]. split; [exact Hf|exact Hk].
Qed.

Lemma process_row_keyed (cols : list pystr) (row : list cell)
    (combined combined' : Dict.t entry) :
  (forall k e, Dict.get k combined = Some e -> keyed k e) ->
  process_row cols row combined = Ok combined' ->
  forall k e, Dict.get k combined' = Some e -> keyed k e.
Proof.
  intros Inv H k e Hk. unfold process_row in H.
  destruct (row_update cols row) as [[[k0 e0]|]|?] eqn:Eu; cbn [bind] in H;
    try discriminate.
  - injection H as <-.
    destruct (Py.eqb k k0) eqn:Ek.
    + apply PyFacts.eqb_eq in Ek. subst k0.
      rewrite DictFacts.get_set_same in Hk. injection Hk as <-.
      now apply (row_update_keyed cols row).
    + apply PyFacts.eqb_neq in Ek.
      rewrite DictFacts.get_set_other in Hk by exact Ek. now apply Inv.
  - injection H as <-. now apply Inv.
Qed.

Lemma process_rows_keyed (cols : list pystr) (rows : list (list cell)) :
  forall combined combined',
    (forall k e, Dict.get k combined = Some e -> keyed k e) ->
    process_rows cols rows combined = Ok combined' ->
    forall k e, Dict.get k combined' = Some e -> keyed k e.
Proof.
  induction rows as [|row rows IH]; intros combined combined' Inv H; cbn [process_rows] in H.
  - injection H as <-. exact Inv.
  - destruct (process_row cols row combined) as [c1|?] eqn:E1; [|discriminate].
    cbn [bind] in H.
    apply (IH c1 combined'); [|exact H].
    now apply (process_row_keyed cols row combined).
Qed.

Lemma process_files_keyed (csv_files : list table) :
  forall combined combined',
    (forall k e, Dict.get k combined = Some e -> keyed k e) ->
    process_files csv_files combined = Ok combined' ->
    forall k e, Dict.get k combined' = Some e -> keyed k e.
Proof.
  induction csv_files as [|f files IH]; intros combined combined' Inv H;
    cbn [process_files] in H.
  - injection H as <-. exact Inv.
  - destruct (read_csv (Some f)) as [df|?] eqn:Er; [|discriminate]. cbn [bind] in H.
    destruct (process_rows (columns df) (data df) combined) as [c1|?] eqn:E1;
      [|discriminate].
    cbn [bind] in H. apply (IH c1 combined'); [|exact H].
    now apply (process_rows_keyed (columns df) (data df) combined).
Qed.

Lemma get_strip_readable (cols : list pystr) (row : list cell) (c : pystr) :
  readable cols row = true -> exists s, get_strip cols row c = Ok s.
Proof.
  unfold readable. intros H. apply andb_true_iff in H as [H _].
  apply andb_true_iff in H as [H _].
  pose proof (TableFacts.text_row_get cols row c H) as Hn. unfold get_strip.
  destruct (row_get cols row c) as [[|s]|]; [congruence| |]; eexists; reflexivity.
Qed.

Lemma parse_int_readable (cols : list pystr) (row : list cell) (c : pystr) :
  int_cell cols row c = true ->
  exists z, parse_int (row_get cols row c) = Ok z.
Proof.
  unfold int_cell, parse_int.
  destruct (row_get cols row c) as [[|s]|]; try (eexists; reflexivity).
  destruct (Py.truthy s); cbn [negb orb]; [|eexists; reflexivity].
  destruct (Py.int_of_str s); [eexists; reflexivity|discriminate].
Qed.

Lemma row_update_readable (cols : list pystr) (row : list cell) :
  readable cols row = true -> exists u, row_update cols row = Ok u.
Proof.
  intros Hr. unfold row_update, genre_name.
  assert (Hl : int_cell cols row lit:("length") = true
               /\ int_cell cols row lit:("bitrate") = true).
  { unfold readable in Hr. apply andb_true_iff in Hr as [Hr Hb].
    apply andb_true_iff in Hr as [_ Hl]. now split. }
  destruct Hl as [Hl Hb].
  destruct (get_strip_readable cols row lit:("album") Hr) as (album & ->).
  cbn [bind].
  assert (Hg : exists name,
             (if Py.truthy album then Ok album else get_strip cols row lit:("genre"))
             = Ok name).
  { destruct (Py.truthy album); [now exists album|].
    apply get_strip_readable, Hr. }
  destruct Hg as (name & ->). cbn [bind].
  destruct (get_strip_readable cols row lit:("filename") Hr) as (fn & ->). cbn [bind].
  destruct (Dict.get name GENRE_ACRONYMS) as [acr|]; [|eexists; reflexivity].
  destruct (negb (Py.truthy acr) || negb (Py.truthy fn)); [eexists; reflexivity|].
  destruct (get_strip_readable cols row lit:("disc") Hr) as (d & ->). cbn [bind].
  destruct (parse_int_readable cols row lit:("length") Hl) as (l & ->).
  cbn [bind].
  destruct (parse_int_readable cols row lit:("bitrate") Hb) as (b & ->).
  cbn [bind].
  destruct (get_strip_readable cols row lit:("title") Hr) as (x1 & ->). cbn [bind].
  destruct (get_strip_readable cols row lit:("artist") Hr) as (x2 & ->). cbn [bind].
  destruct (get_strip_readable cols row lit:("composer") Hr) as (x4 & ->). cbn [bind].
  destruct (get_strip_readable cols row lit:("comments") Hr) as (x5 & ->). cbn [bind].
  eexists; reflexivity.
Qed.

Lemma process_rows_readable (cols : list pystr) (rows : list (list cell)) :
  forallb (readable cols) rows = true ->
  forall combined, exists combined', process_rows cols rows combined = Ok combined'.
Proof.
  induction rows as [|row rows IH]; intros Hr combined; cbn [process_rows].
  - now exists combined.
  - cbn [forallb] in Hr. apply andb_true_iff in Hr as [Hrow Hr].
    unfold process_row.
    destruct (row_update_readable cols row Hrow) as (u & ->).
    cbn [bind].
    destruct u as [[k e]|]; cbn [bind]; now apply IH.
Qed.

Lemma process_files_readable (csv_files : list table) :
  forallb readable_file csv_files = true ->
  forall combined, exists combined', process_files csv_files combined = Ok combined'.
Proof.
  induction csv_files as [|f files IH]; intros H combined; cbn [process_files].
  - now exists combined.
  - cbn [forallb] in H. apply andb_true_iff in H as [Hf H].
    unfold readable_file in Hf.
    assert (Ef : read_csv (Some f) = Ok f).
    { unfold read_csv. destruct (columns f); [discriminate|reflexivity]. }
    rewrite Ef. cbn [bind].
    assert (Hr : forallb (readable (columns f)) (data f) = true).
    { destruct (columns f); [discriminate|exact Hf]. }
    destruct (process_rows_readable (columns f) (data f) Hr combined) as (c1 & ->).
    cbn [bind]. now apply IH.
Qed.

Lemma process_files_empty_file (csv_files : list table) (f : table) :
  In f csv_files -> columns f = [] ->
  forall combined, exists e, process_files csv_files combined = Raise e.
Proof.
  intros Hin Hf. induction csv_files as [|g files IH]; [destruct Hin|].
  intros combined. cbn [process_files].
  destruct (read_csv (Some g)) as [df|e] eqn:Er; [|now exists e]. cbn [bind].
  destruct (process_rows (columns df) (data df) combined) as [c1|e]; [|now exists e].
  cbn [bind]. destruct Hin as [->|Hin].
  - unfold read_csv in Er. rewrite Hf in Er. discriminate.
  - now apply IH.
Qed.

End IndexFacts.

Module RecordFacts.
Import ID3 Pandas.
Import Transfer.

Lemma export_records_raise (fmt : pystr) (files : list audio) (a : audio) (e : exn) :
  In a files -> export_record fmt a = Raise e ->
  exists e', export_records fmt files = Raise e'.
Proof.
  intros Hin Ha. induction files as [|b files IH]; [destruct Hin|].
  cbn [export_records].
  destruct (export_record fmt b) as [r|e0] eqn:Eb; [|now exists e0].
  cbn [bind]. destruct Hin as [->|Hin]; [congruence|].
  destruct (IH Hin) as (e' & He). rewrite He. now exists e'.
Qed.

Lemma sync_entries_app (a b : list frame) :
  sync_entries (a ++ b)
  = do x <- sync_entries a; do y <- sync_entries b; Ok (x ++ y).
Proof.
  induction a as [|f a IH]; cbn [app sync_entries bind].
  - destruct (sync_entries b); reflexivity.
  - destruct (frame_entries f) as [es|?]; [|reflexivity]. cbn [bind].
    rewrite IH. destruct (sync_entries a) as [x|?]; [|reflexivity]. cbn [bind].
    destruct (sync_entries b) as [y|?]; [|reflexivity]. cbn [bind].
    now rewrite app_assoc.
Qed.

End RecordFacts.

Module AppendFacts.
Import ID3 Pandas.
Import Transfer ExportFacts TableFacts.

Lemma index_of_none (c : pystr) (cols : list pystr) :
  Py.mem c cols = false -> index_of c cols = None.
Proof.
  induction cols as [|x cols IH]; [reflexivity|]. unfold Py.mem. cbn [existsb index_of].
  intros H. apply orb_false_iff in H as [H1 H2]. rewrite H1.
  unfold Py.mem in IH. now rewrite (IH H2).
Qed.

Lemma index_of_distinct (cols : list pystr) :
  distinct cols = true ->
  forall j d, (j < length cols)%nat -> index_of (nth j cols d) cols = Some j.
Proof.
  induction cols as [|x cols IH]; intros Hd j d Hj; [cbn in Hj; lia|].
  cbn [distinct] in Hd. apply andb_true_iff in Hd as [Hx Hd].
  apply negb_true_iff in Hx.
  destruct j as [|j]; cbn [nth index_of].
  - now rewrite PyFacts.eqb_refl.
  - cbn [length] in Hj.
    destruct (Py.eqb (nth j cols d) x) eqn:E.
    + apply PyFacts.eqb_eq in E. exfalso.
      assert (Hin : In x cols) by (rewrite <- E; apply nth_In; lia).
      apply mem_In in Hin. congruence.
    + rewrite (IH Hd j d) by lia. reflexivity.
Qed.

(** The rows [to_csv] selects from the frame of the records. *)
Lemma to_csv_records (records : list record) (cols : list pystr) :
  forallb (fun c => Py.mem c (record_columns records)) cols = true ->
  to_csv_rows render_value None (DataFrame_of_records records) cols
  = Ok (map (record_row cols) records).
Proof.
  intros H. unfold to_csv_rows, DataFrame_of_records. cbn [columns data].
  rewrite H. f_equal. rewrite map_map. apply map_ext. intros r.
  unfold record_row. apply map_ext_in. intros c Hc.
  rewrite forallb_forall in H. specialize (H c Hc).
  destruct (index_of c (record_columns records)) as [i|] eqn:Ei.
  - destruct (index_of_nth c _ i Ei) as (Hl & Hn).
    rewrite (nth_indep _ None (Dict.get c r)) by (now rewrite length_map).
    rewrite (map_nth (fun c => Dict.get c r)). now rewrite Hn.
  - apply mem_In in H. exfalso. clear -H Ei.
    induction (record_columns records) as [|x l IH]; [destruct H|].
    cbn [index_of] in Ei. destruct (Py.eqb c x) eqn:E; [discriminate|].
    destruct H as [->|H]; [now rewrite PyFacts.eqb_refl in E|].
    destruct (index_of c l); [discriminate|]. now apply IH.
Qed.

(** The rows [to_csv] writes for a rectangular table under its own header. *)
Lemma to_csv_self (df : table) :
  distinct (columns df) = true ->
  (forall row, In row (data df) -> length row = length (columns df)) ->
  to_csv_rows render_cell NaN df (columns df)
  = Ok (map (map (fun c => Str (render_cell c))) (data df)).
Proof.
  intros Hd Hr. unfold to_csv_rows. rewrite forallb_mem_self. f_equal.
  apply map_ext_in. intros row Hrow. specialize (Hr row Hrow).
  apply nth_ext with (d := Str []) (d' := Str []).
  - now rewrite !length_map.
  - intros j Hj. rewrite length_map in Hj.
    rewrite (nth_indep _ (Str []) ((fun c => match index_of c (columns df) with
                                           | Some i => Str (render_cell (nth i row NaN))
                                           | None => Str []
                                           end) [])) by (now rewrite length_map).
    rewrite (map_nth (fun c => match index_of c (columns df) with
                               | Some i => Str (render_cell (nth i row NaN))
                               | None => Str []
                               end)).
    rewrite (index_of_distinct _ Hd j [] Hj).
    rewrite (nth_indep _ (Str []) ((fun c => Str (render_cell c)) NaN))
      by (rewrite length_map; lia).
    now rewrite (map_nth (fun c => Str (render_cell c))).
Qed.

Lemma fit_length (n : nat) (row : list cell) : length (fit n row) = n.
Proof.
  unfold fit. rewrite length_firstn, length_app, repeat_length. lia.
Qed.

Lemma fit_id (n : nat) (row : list cell) : length row = n -> fit n row = row.
Proof.
  intros <-. unfold fit. rewrite firstn_app, Nat.sub_diag, firstn_all.
  cbn [firstn]. apply app_nil_r.
Qed.

(** New columns, one after the other. *)
Lemma fold_set_column_fresh (ms : list pystr) :
  forall (cols : list pystr) (rows : list (list cell)),
    distinct (cols ++ ms) = true ->
    (forall row, In row rows -> length row = length cols) ->
    fold_left (fun df c => set_column c (Str []) df) ms (mkDataFrame cols rows)
    = mkDataFrame (cols ++ ms)
        (map (fun row => row ++ repeat (Str []) (length ms)) rows).
Proof.
  induction ms as [|c ms IH]; intros cols rows Hd Hr; cbn [fold_left].
  - rewrite app_nil_r. f_equal. cbn [length repeat].
    rewrite <- (map_id rows) at 1. apply map_ext. intros row. now rewrite app_nil_r.
  - assert (Hc : index_of c cols = None).
    { apply index_of_none. clear -Hd.
      induction cols as [|x cols IH].
      - reflexivity.
      - cbn [app distinct] in Hd. apply andb_true_iff in Hd as [Hx Hd].
        apply negb_true_iff in Hx. unfold Py.mem in *. cbn [existsb].
        rewrite existsb_app in Hx. apply orb_false_iff in Hx as [_ Hx].
        cbn [existsb] in Hx. apply orb_false_iff in Hx as [Hx _].
        rewrite PyFacts.eqb_sym, Hx. cbn [orb]. now apply IH. }
    unfold set_column at 2. cbn [columns data]. rewrite Hc.
    rewrite IH.
    + rewrite <- app_assoc. cbn [app]. f_equal. rewrite map_map.
      apply map_ext_in. intros row Hrow.
      rewrite (fit_id _ row (Hr row Hrow)). rewrite <- app_assoc. reflexivity.
    + now rewrite <- app_assoc.
    + intros row Hrow. apply in_map_iff in Hrow as (r0 & <- & Hr0).
      rewrite !length_app, fit_length. reflexivity.
Qed.


Lemma mem_app_false (x : pystr) (a b : list pystr) :
  Py.mem x (a ++ b) = Py.mem x a || Py.mem x b.
Proof. unfold Py.mem. apply existsb_app. Qed.

Lemma distinct_snoc (l : list pystr) (k : pystr) :
  distinct l = true -> Py.mem k l = false -> distinct (l ++ [k]) = true.
Proof.
  induction l as [|x l IH]; intros Hd Hk; [reflexivity|].
  cbn [app distinct] in *. apply andb_true_iff in Hd as [Hx Hd].
  unfold Py.mem in Hk. cbn [existsb] in Hk. apply orb_false_iff in Hk as [Hkx Hk].
  apply andb_true_iff. split; [|now apply IH].
  rewrite mem_app_false. apply negb_true_iff in Hx. rewrite Hx.
  unfold Py.mem. cbn [existsb]. now rewrite PyFacts.eqb_sym, Hkx.
Qed.

Lemma add_columns_distinct (keys : list pystr) :
  forall cols, distinct cols = true -> distinct (add_columns cols keys) = true.
Proof.
  unfold add_columns. induction keys as [|k keys IH]; intros cols Hd; cbn [fold_left].
  - exact Hd.
  - apply IH. destruct (Py.mem k cols) eqn:E; [exact Hd|]. now apply distinct_snoc.
Qed.

Lemma record_columns_distinct (records : list record) :
  distinct (record_columns records) = true.
Proof.
  unfold record_columns.
  assert (H : forall cols, distinct cols = true ->
            distinct (fold_left (fun acc r => add_columns acc (Dict.keys r)) records cols)
            = true).
  { induction records as [|r records IH]; intros cols Hd; cbn [fold_left]; [exact Hd|].
    apply IH. now apply add_columns_distinct. }
  now apply H.
Qed.

Lemma mem_filter (x : pystr) (p : pystr -> bool) (l : list pystr) :
  Py.mem x l = false -> Py.mem x (filter p l) = false.
Proof.
  unfold Py.mem. induction l as [|y l IH]; [reflexivity|]. cbn [existsb filter].
  intros H. apply orb_false_iff in H as [H1 H2].
  destruct (p y); cbn [existsb]; [rewrite H1|]; now apply IH.
Qed.

Lemma distinct_filter (p : pystr -> bool) (l : list pystr) :
  distinct l = true -> distinct (filter p l) = true.
Proof.
  induction l as [|x l IH]; intros Hd; [reflexivity|].
  cbn [distinct] in Hd. apply andb_true_iff in Hd as [Hx Hd]. cbn [filter].
  destruct (p x); [|now apply IH]. cbn [distinct].
  apply andb_true_iff. split; [|now apply IH].
  apply negb_true_iff in Hx. apply negb_true_iff. now apply mem_filter.
Qed.

Lemma distinct_app (a b : list pystr) :
  distinct a = true -> distinct b = true ->
  (forall x, In x b -> Py.mem x a = false) ->
  distinct (a ++ b) = true.
Proof.
  intros Ha Hb H. induction a as [|x a IH]; [exact Hb|].
  cbn [app distinct] in *. apply andb_true_iff in Ha as [Hx Ha].
  apply andb_true_iff. split.
  - rewrite mem_app_false. apply negb_true_iff in Hx. rewrite Hx. cbn [orb].
    apply negb_true_iff. destruct (Py.mem x b) eqn:E; [|reflexivity].
    apply mem_In in E. specialize (H x E). unfold Py.mem in H. cbn [existsb] in H.
    now rewrite PyFacts.eqb_refl in H.
  - apply IH; [exact Ha|]. intros y Hy. specialize (H y Hy).
    unfold Py.mem in *. cbn [existsb] in H. now apply orb_false_iff in H as [_ H].
Qed.

(** The table after the new columns are set, for any rows. *)
Lemma fold_set_column_missing (ms cols : list pystr) (rows : list (list cell)) :
  distinct (cols ++ ms) = true ->
  ms <> [] ->
  fold_left (fun df c => set_column c (Str []) df) ms (mkDataFrame cols rows)
  = mkDataFrame (cols ++ ms)
      (map (fun row => fit (length cols) row ++ repeat (Str []) (length ms)) rows).
Proof.
  intros Hd Hne. destruct ms as [|c ms]; [congruence|]. cbn [fold_left].
  assert (Hc : index_of c cols = None).
  { apply index_of_none. clear -Hd.
    induction cols as [|x cols IH]; [reflexivity|].
    cbn [app distinct] in Hd. apply andb_true_iff in Hd as [Hx Hd].
    apply negb_true_iff in Hx. rewrite mem_app_false in Hx.
    apply orb_false_iff in Hx as [_ Hx]. unfold Py.mem in *. cbn [existsb] in *.
    apply orb_false_iff in Hx as [Hx _].
    rewrite PyFacts.eqb_sym, Hx. cbn [orb]. now apply IH. }
  unfold set_column. cbn [columns data]. rewrite Hc.
  change (fun df c0 => match index_of c0 (columns df) with
                       | Some i => _ | None => _ end)
    with (fun df c0 => set_column c0 (Str []) df).
  rewrite fold_set_column_fresh.
  - rewrite <- app_assoc. cbn [app]. f_equal. rewrite map_map.
    apply map_ext. intros row. now rewrite <- app_assoc.
  - now rewrite <- app_assoc.
  - intros row Hrow. apply in_map_iff in Hrow as (r0 & <- & _).
    rewrite !length_app, fit_length. reflexivity.
Qed.

Lemma map_render_repeat (k : nat) :
  map (fun c => Str (render_cell c)) (repeat (Str []) k) = repeat (Str []) k.
Proof. induction k as [|k IH]; [reflexivity|]. cbn [repeat map]. now rewrite IH. Qed.

(** The last step of the export on a table with data whose columns the new
    records all have. *)
Lemma write_records_append (records : list record) (df : table) :
  empty df = false ->
  distinct (columns df) = true ->
  forallb (fun c => Py.mem c (record_columns records)) (columns df) = true ->
  let missing := filter (fun c => negb (Py.mem c (columns df))) (record_columns records) in
  let cols := columns df ++ missing in
  write_records records (Some df)
  = (Some (mkDataFrame cols
             (match missing with
              | [] => data df
              | _ :: _ => map (widen (length (columns df)) (length missing)) (data df)
              end ++ map (record_row cols) records)),
     Ok tt).
Proof.
  intros He Hd Hsub missing cols. unfold write_records.
  assert (Er : read_csv (Some df) = Ok df).
  { unfold read_csv. unfold empty in He. destruct (columns df); [discriminate|reflexivity]. }
  rewrite Er, He. cbn [negb].
  change (columns (DataFrame_of_records records)) with (record_columns records).
  fold missing.
  assert (Hcols : forallb (fun c => Py.mem c (record_columns records)) cols = true).
  { unfold cols. rewrite forallb_app, Hsub. cbn [andb].
    apply forallb_forall. intros c Hc. apply filter_In in Hc as [Hc _].
    now apply mem_In. }
  assert (Hdc : distinct cols = true).
  { apply distinct_app; [exact Hd| |].
    - apply distinct_filter, record_columns_distinct.
    - intros x Hx. apply filter_In in Hx as [_ Hx]. now apply negb_true_iff in Hx. }
  destruct missing as [|m ms] eqn:Em.
  - unfold cols in *. rewrite app_nil_r in *.
    rewrite (to_csv_records records (columns df) Hsub). cbn [option_map columns data].
    destruct df as [c d]. reflexivity.
  - destruct df as [c d]. cbn [columns data] in *.
    rewrite fold_set_column_missing by (exact Hdc || discriminate).
    rewrite to_csv_self.
    + cbn [bind data]. change (c ++ m :: ms) with cols.
      rewrite (to_csv_records records _ Hcols).
      cbn [option_map columns data]. do 3 f_equal. rewrite map_map.
      f_equal. apply map_ext. intros row. unfold widen.
      now rewrite map_app, map_render_repeat.
    + exact Hdc.
    + cbn [data columns]. intros row Hrow. apply in_map_iff in Hrow as (r0 & <- & _).
      rewrite !length_app, fit_length, repeat_length. reflexivity.
Qed.

End AppendFacts.
Module NewTableFacts.
Import ID3 Pandas.
Import Transfer ExportFacts AppendFacts.

Lemma write_records_rows (records : list record) (csv : option table) :
  no_data csv ->
  write_records records csv
  = (Some (mkDataFrame (record_columns records)
             (map (record_row (record_columns records)) records)), Ok tt).
Proof.
  intros Hn. unfold write_records.
  change (columns (DataFrame_of_records records)) with (record_columns records).
  rewrite (to_csv_records records _ (forallb_mem_self _)).
  destruct csv as [df|]; [|reflexivity]. cbn [no_data] in Hn.
  destruct (read_csv (Some df)) as [d|e] eqn:Er; [|reflexivity].
  unfold read_csv in Er. destruct (columns df) eqn:Ec; [discriminate|].
  injection Er as <-. now rewrite Hn.
Qed.

Lemma format_02d_digits :
  forallb (fun n => Py.eqb (format_02d (Z.of_nat n))
                      [48 + N.of_nat (n / 10); 48 + N.of_nat (n mod 10)]%N)
          (seq 0 60) = true.
Proof. vm_compute. reflexivity. Qed.

Lemma format_02d_spec (s : Z) :
  (0 <= s < 60)%Z ->
  format_02d s = [48 + Z.to_N (s / 10); 48 + Z.to_N (s mod 10)]%N.
Proof.
  intros Hs. pose proof format_02d_digits as H.
  rewrite forallb_forall in H.
  specialize (H (Z.to_nat s)).
  rewrite Z2Nat.id in H by lia.
  assert (Hin : In (Z.to_nat s) (seq 0 60)) by (apply in_seq; lia).
  apply H in Hin. apply PyFacts.eqb_eq in Hin. rewrite Hin.
  assert (E1 : N.of_nat (Z.to_nat s / 10) = Z.to_N (s / 10)).
  { rewrite <- (Z2Nat.id s) at 2 by lia.
    change 10%Z with (Z.of_nat 10). rewrite <- Nat2Z.inj_div.
    now rewrite <- nat_N_Z, N2Z.id. }
  assert (E2 : N.of_nat (Z.to_nat s mod 10) = Z.to_N (s mod 10)).
  { rewrite <- (Z2Nat.id s) at 2 by lia.
    change 10%Z with (Z.of_nat 10). rewrite <- Nat2Z.inj_mod.
    now rewrite <- nat_N_Z, N2Z.id. }
  now rewrite E1, E2.
Qed.

End NewTableFacts.
Module SplitextFacts.
Import Py.
Local Open Scope N_scope.

Lemma rfind_from_absent (c : N) (s : pystr) :
  (forall x, In x s -> x <> c) ->
  forall i last, rfind_from i c s last = last.
Proof.
  induction s as [|x s IH]; intros H i last; [reflexivity|]. cbn [rfind_from].
  destruct (N.eqb_spec x c) as [E|_].
  - exfalso. now apply (H x (or_introl eq_refl)).
  - apply IH. intros y Hy. apply H. now right.
Qed.

Lemma rfind_from_last (c : N) (a b : pystr) :
  (forall x, In x b -> x <> c) ->
  forall i last, rfind_from i c (a ++ c :: b) last = Some (i + length a)%nat.
Proof.
  intros Hb. induction a as [|x a IH]; intros i last; cbn [app rfind_from length].
  - rewrite N.eqb_refl. rewrite (rfind_from_absent c b Hb). f_equal. lia.
  - rewrite IH. f_equal. lia.
Qed.

Lemma has_non_dot_prefix (a b : pystr) :
  has_non_dot (a ++ b) 0 (length a) = existsb (fun x => negb (x =? 46)) a.
Proof.
  induction a as [|x a IH]; [now destruct b|]. cbn [app length has_non_dot existsb].
  now rewrite IH.
Qed.

Lemma splitext_plain (base ext : pystr) :
  (forall x, In x base -> x <> 47) ->
  (exists x, In x base /\ x <> 46) ->
  (forall x, In x ext -> x <> 46 /\ x <> 47) ->
  splitext (base ++ 46 :: ext) = (base, 46 :: ext).
Proof.
  intros Hb (x & Hx & Hx46) He. unfold splitext, rfind.
  rewrite (rfind_from_absent 47 (base ++ 46 :: ext)).
  2:{ intros y Hy. apply in_app_or in Hy as [Hy|[<-|Hy]];
        [now apply Hb|discriminate|now apply He]. }
  rewrite (rfind_from_last 46 base ext) by (intros y Hy; now apply He).
  cbn [Nat.add andb]. rewrite has_non_dot_prefix.
  assert (E : existsb (fun x => negb (x =? 46)) base = true).
  { apply existsb_exists. exists x. split; [exact Hx|].
    apply negb_true_iff. now apply N.eqb_neq. }
  rewrite E. f_equal.
  - rewrite firstn_app, Nat.sub_diag, firstn_all. cbn [firstn]. apply app_nil_r.
  - rewrite skipn_app, Nat.sub_diag, skipn_all. reflexivity.
Qed.

Lemma splitext_no_dot (p : pystr) :
  (forall x, In x p -> x <> 46) -> splitext p = (p, []).
Proof.
  intros H. unfold splitext, rfind. now rewrite (rfind_from_absent 46 p H).
Qed.

End SplitextFacts.
Module RewriteFacts.
Import ID3 Pandas.
Import Transfer ImportFacts.

Lemma set_keys {V : Type} (k : pystr) (v : V) (d : Dict.t V) :
  Dict.mem k d = true -> map fst (Dict.set k v d) = map fst d.
Proof.
  unfold Dict.mem. induction d as [|[k' v'] d IH]; cbn [Dict.get Dict.set map fst].
  - discriminate.
  - destruct (Py.eqb k k'); [reflexivity|]. intros H. cbn [map fst].
    f_equal. now apply IH.
Qed.

Lemma isfile_mem (files : filesystem) (p : pystr) :
  isfile files p = true -> Dict.mem p files = true.
Proof.
  unfold isfile. intros H. now apply andb_true_iff in H as [_ H].
Qed.

(** The loop changes no file that no row names, and creates or removes
    none. *)
Lemma import_rows_frame (mp3_dir : pystr) (cols : list pystr) (rows : list (list cell)) :
  forall st,
    map fst (fs (fst (import_rows mp3_dir cols rows st))) = map fst (fs st)
    /\ forall p,
         (forall row fn, In row rows ->
            row_get cols row lit:("filename") = Some fn ->
            Py.path_join mp3_dir (cell_str fn) <> p) ->
         Dict.get p (fs (fst (import_rows mp3_dir cols rows st))) = Dict.get p (fs st).
Proof.
  induction rows as [|row rows IH]; intros st; cbn [import_rows].
  - split; [reflexivity|]. intros; reflexivity.
  - unfold row_item.
    destruct (row_get cols row lit:("filename")) as [fn|] eqn:Ef.
    2:{ split; [reflexivity|]. intros; reflexivity. }
    set (full_path := Py.path_join mp3_dir (cell_str fn)).
    destruct (isfile (fs st) full_path) eqn:Ei; cbn [negb].
    + destruct (write_frames cols row (load (read_file (fs st) full_path))) as [t|e].
      2:{ split; [reflexivity|]. intros; reflexivity. }
      destruct (IH (mkState (Dict.set full_path (Some t) (fs st)) (S (updated st))
                            (stderr st))) as (K & U).
      cbn [fs] in K, U. split.
      * rewrite K. apply set_keys. now apply isfile_mem.
      * intros p Hp. rewrite U.
        -- apply DictFacts.get_set_other. intros ->.
           now apply (Hp row fn (or_introl eq_refl) Ef).
        -- intros r f Hin. apply Hp. now right.
    + destruct (IH st) as (K & U). split; [exact K|].
      intros p Hp. apply U. intros r f Hin. apply Hp. now right.
Qed.

Lemma frames_of_In (f : frame) (ps : list (bool * frame)) :
  In f (frames_of ps) -> exists p, In p ps /\ f = snd p.
Proof.
  unfold frames_of. intros H. apply in_flat_map in H as (p & Hp & Hf).
  exists p. split; [exact Hp|]. unfold opt_frame in Hf.
  destruct (fst p); [|destruct Hf]. destruct Hf as [<-|[]]. reflexivity.
Qed.

(** What the importer adds is well formed, and managed. *)
Lemma pieces_written (cols : list pystr) (row : list cell)
    (cues : list Json.value * list Json.value) (f : frame) :
  In f (frames_of (text_pieces cols row ++ [sylt_piece cues])) ->
  wf_frame f = true /\ unmanaged f = false.
Proof.
  intros H. apply frames_of_In in H as (p & Hp & ->).
  unfold text_pieces, piece, sylt_piece in Hp. cbn [In app] in Hp.
  repeat (destruct Hp as [<-|Hp]; [split; reflexivity|]). destruct Hp.
Qed.

Lemma frames_of_app (a b : list (bool * frame)) :
  frames_of (a ++ b) = frames_of a ++ frames_of b.
Proof. unfold frames_of. apply flat_map_app. Qed.

Lemma pieces_written_text (cols : list pystr) (row : list cell) (f : frame) :
  In f (frames_of (text_pieces cols row)) ->
  wf_frame f = true /\ unmanaged f = false.
Proof.
  intros H. apply (pieces_written cols row ([], [])).
  rewrite frames_of_app. apply in_or_app. now left.
Qed.

Lemma filter_id {A : Type} (p : A -> bool) (l : list A) :
  (forall x, In x l -> p x = true) -> filter p l = l.
Proof.
  induction l as [|x l IH]; intros H; [reflexivity|]. cbn [filter].
  rewrite (H x (or_introl eq_refl)). f_equal. apply IH. intros y Hy. apply H. now right.
Qed.

Lemma rewrite_same (t0 : tags) (w : list frame) :
  wf_tags t0 = true ->
  (forall f, In f w -> wf_frame f = true /\ unmanaged f = false) ->
  wf_tags (filter unmanaged t0 ++ w) = true
  /\ filter unmanaged (filter unmanaged t0 ++ w) = filter unmanaged t0.
Proof.
  intros Hwf Hw. split.
  - unfold wf_tags. rewrite forallb_app. apply andb_true_iff. split.
    + now apply wf_filter.
    + apply forallb_forall. intros f Hf. now apply Hw.
  - rewrite filter_app.
    rewrite (filter_id unmanaged (filter unmanaged t0)).
    + rewrite (filter_none_all unmanaged w); [apply app_nil_r|].
      intros f Hf. now apply Hw.
    + intros f Hf. now apply filter_In in Hf.
Qed.

Lemma write_frames_again (cols : list pystr) (row : list cell) (t0 t : tags) :
  wf_tags t0 = true ->
  write_frames cols row t0 = Ok t ->
  wf_tags t = true /\ write_frames cols row t = Ok t.
Proof.
  intros Hwf H. rewrite (write_frames_eq cols row t0 Hwf) in H.
  destruct (field_set cols row lit:("synced_lyrics")) eqn:Es.
  - destruct (load_cues _) as [cues|?] eqn:El; [|discriminate]. cbn [bind] in H.
    assert (Et : t = filter unmanaged t0
                     ++ frames_of (text_pieces cols row ++ [sylt_piece cues]))
      by congruence.
    clear H. subst t.
    destruct (rewrite_same t0 _ Hwf (pieces_written cols row cues)) as (W & F).
    split; [exact W|].
    rewrite (write_frames_eq cols row _ W), Es, El. cbn [bind]. now rewrite F.
  - assert (Et : t = filter unmanaged t0 ++ frames_of (text_pieces cols row))
      by congruence.
    clear H. subst t.
    destruct (rewrite_same t0 _ Hwf (pieces_written_text cols row)) as (W & F).
    split; [exact W|].
    rewrite (write_frames_eq cols row _ W), Es. now rewrite F.
Qed.

End RewriteFacts.
Module RoundTripFacts.
Import ID3 Pandas.
Import Transfer ImportFacts.

Lemma startswith_longer (a b : pystr) (c : N) : Py.startswith (a ++ c :: b) a = false.
Proof.
  induction a as [|x a IH]; [reflexivity|]. cbn [app Py.startswith].
  now rewrite IH, andb_false_r.
Qed.

Lemma text_frame_no_prefix (fid : pystr) (text : list pystr) :
  has_prefix fid (TextFrame fid text) = false.
Proof. unfold has_prefix, HashKey, colon. apply startswith_longer. Qed.

(** [get_txt] on a container where [getall] selects at most the text frame. *)
Lemma get_txt_of_getall (fid x : pystr) (b : bool) (t : tags) :
  getall fid t = opt_frame b (TextFrame fid [x]) ->
  get_txt t fid = Ok (if b then x else []).
Proof.
  unfold getall, get_txt. destruct (get fid t) as [f|] eqn:Eg; intros H.
  - destruct b; [|discriminate]. injection H as ->. reflexivity.
  - destruct b; [|reflexivity]. exfalso.
    assert (Hin : In (TextFrame fid [x]) (filter (has_prefix fid) t))
      by (rewrite H; now left).
    apply filter_In in Hin as [_ Hp]. now rewrite text_frame_no_prefix in Hp.
Qed.

(** A field that is not set and is no missing value has the empty text. *)
Lemma unset_field_text (cols : list pystr) (row : list cell) (c : pystr) :
  row_get cols row c <> Some NaN ->
  (if field_set cols row c then field_text cols row c else []) = field_text cols row c.
Proof.
  unfold field_set, field_text. intros Hn.
  destruct (row_get cols row c) as [[|s]|]; [congruence| |reflexivity].
  cbn [truthy cell_str]. destruct s; reflexivity.
Qed.

Lemma EncodeCues_truthy (x : list Cues.cue) : Py.truthy (Cues.EncodeCues x) = true.
Proof. now rewrite JsonFacts.EncodeCues_eq. Qed.

Lemma imported_get_txt (cols : list pystr) (row : list cell) (t0 t : tags)
    (c fid : pystr) :
  wf_tags t0 = true ->
  write_frames cols row t0 = Ok t ->
  text_row cols row = true ->
  In (c, fid) text_fields -> get_txt t fid = Ok (field_text cols row c).
Proof.
  intros Hwf Hw Hn Hin.
  destruct (import_frames cols row t0 t Hwf Hw) as (H1 & _).
  rewrite (get_txt_of_getall fid _ _ t (H1 c fid Hin)).
  rewrite unset_field_text; [reflexivity|now apply TableFacts.text_row_get].
Qed.

Lemma imported_decode_disc (cols : list pystr) (row : list cell) (t0 t : tags) :
  wf_tags t0 = true ->
  write_frames cols row t0 = Ok t ->
  text_row cols row = true ->
  decode_disc t = Ok (field_text cols row lit:("disc")).
Proof.
  intros Hwf Hw Hn.
  destruct (import_frames cols row t0 t Hwf Hw) as (_ & _ & _ & _ & _ & H6 & _).
  unfold decode_disc.
  rewrite (imported_get_txt cols row t0 t lit:("disc") lit:("TPOS") Hwf Hw Hn)
    by (cbn; auto 10).
  cbn [bind]. destruct (negb _); [|reflexivity]. now rewrite H6.
Qed.

End RoundTripFacts.

Module V1Facts.
Import ID3 Pandas.
Import Transfer TransferV1 ImportFacts.

(** Every row is either imported or answered with one warning. *)
Lemma v1_import_rows_accounts (mp3_dir : pystr) (cols : list pystr)
    (rows : list (list cell)) :
  Py.mem lit:("filename") cols = true ->
  forall idx st,
  exists st',
    import_rows mp3_dir cols idx rows st = (st', Ok tt)
    /\ (length (stderr st') + updated st'
        = length (stderr st) + updated st + length rows)%nat
    /\ map fst (files (fs st')) = map fst (files (fs st))
    /\ dirs (fs st') = dirs (fs st).
Proof.
  intros Hm. induction rows as [|row rows IH]; intros idx st; cbn [import_rows].
  - exists st. split; [reflexivity|]. cbn [length]. split; [lia|]. split; reflexivity.
  - destruct (row_item_mem lit:("filename") cols row Hm) as (fn & _ & ->).
    destruct (truthy fn); cbn [negb].
    + destruct (isfile (fs st) _) eqn:Ei; cbn [negb].
      * match goal with |- context [import_rows _ _ _ rows ?s] =>
          destruct (IH (S idx) s) as (st' & E & Hc & Hk & Hd) end.
        exists st'. split; [exact E|]. cbn [stderr updated fs files dirs length] in *.
        split; [lia|]. split; [|exact Hd].
        rewrite Hk. apply RewriteFacts.set_keys. now apply RewriteFacts.isfile_mem.
      * match goal with |- context [import_rows _ _ _ rows ?s] =>
          destruct (IH (S idx) s) as (st' & E & Hc & Hk & Hd) end.
        exists st'. split; [exact E|]. cbn [stderr updated fs files dirs length] in *.
        rewrite length_app in Hc. cbn [length] in Hc.
        split; [lia|]. split; assumption.
    + match goal with |- context [import_rows _ _ _ rows ?s] =>
        destruct (IH (S idx) s) as (st' & E & Hc & Hk & Hd) end.
      exists st'. split; [exact E|]. cbn [stderr updated fs files dirs length] in *.
      rewrite length_app in Hc. cbn [length] in Hc.
      split; [lia|]. split; assumption.
Qed.

Lemma In_delall (f : frame) (m : pystr) (t : tags) :
  In f t -> has_key m f = false -> has_prefix m f = false -> In f (delall m t).
Proof.
  intros Hin Hk Hp. unfold delall.
  destruct (contains m t); apply filter_In; (split; [exact Hin|]).
  - now rewrite Hk.
  - now rewrite Hp.
Qed.

Lemma In_add (f g : frame) (t : tags) :
  In f t -> has_key (HashKey g) f = false -> In f (add g t).
Proof.
  intros Hin Hk. induction t as [|x t IH]; [destruct Hin|]. cbn [add].
  destruct (has_key (HashKey g) x) eqn:Ex.
  - destruct Hin as [->|Hin]; [congruence|]. now right.
  - destruct Hin as [->|Hin]; [now left|]. right. now apply IH.
Qed.

Lemma In_add_if (f : frame) (cols : list pystr) (row : list cell) (c : pystr)
    (mk : list pystr -> frame) (t : tags) :
  In f t -> (forall text, has_key (HashKey (mk text)) f = false) ->
  In f (add_if cols row c mk t).
Proof.
  intros Hin Hk. unfold add_if.
  destruct (row_get cols row c) as [x|]; [|exact Hin].
  destruct (truthy x); [|exact Hin]. now apply In_add.
Qed.

Lemma In_fold_delall (f : frame) (ms : list pystr) :
  (forall m, In m ms -> has_key m f = false /\ has_prefix m f = false) ->
  forall t, In f t -> In f (fold_left (fun t frame => delall frame t) ms t).
Proof.
  induction ms as [|m ms IH]; intros H t Hin; cbn [fold_left]; [exact Hin|].
  apply IH.
  - intros m' Hm'. apply H. now right.
  - destruct (H m (or_introl eq_refl)). now apply In_delall.
Qed.

End V1Facts.
Module V1ExportFacts.
Import ID3 Pandas.
Import Transfer TransferV1 ExportFacts AppendFacts.

Lemma export_record_keys (a : mp3) (r : record) :
  export_record a = Ok r -> Dict.keys r = record_keys.
Proof.
  unfold export_record. intros H.
  repeat match type of H with
         | (do _ <- ?x; _) = _ => destruct x; [cbn [bind] in H|discriminate]
         end.
  injection H as <-. reflexivity.
Qed.

Lemma v1_export_records_keys (found : list mp3) :
  forall records, export_records found = Ok records ->
  Forall (fun r => Dict.keys r = record_keys) records /\ length records = length found.
Proof.
  induction found as [|a found IH]; intros records H; cbn [export_records] in H.
  - injection H as <-. split; [constructor|reflexivity].
  - destruct (export_record a) as [r|?] eqn:Ea; [|discriminate]. cbn [bind] in H.
    destruct (export_records found) as [rs|?]; [|discriminate]. cbn [bind] in H.
    injection H as <-. destruct (IH rs eq_refl) as (F & L).
    split; [constructor; [now apply (export_record_keys a)|exact F]|cbn; now rewrite L].
Qed.

Lemma add_columns_same : add_columns record_keys record_keys = record_keys.
Proof. reflexivity. Qed.

Lemma record_columns_nine (records : list record) :
  Forall (fun r => Dict.keys r = record_keys) records ->
  record_columns records = match records with [] => [] | _ :: _ => record_keys end.
Proof.
  intros F. unfold record_columns. destruct F as [|r rs Hr F]; [reflexivity|].
  cbn [fold_left]. rewrite Hr. change (add_columns [] record_keys) with record_keys.
  induction F as [|r' rs' Hr' F IH]; [reflexivity|].
  cbn [fold_left]. rewrite Hr', add_columns_same. exact IH.
Qed.

Lemma cols_to_write_in (existing new_cols : list pystr) :
  Py.mem col_filename new_cols = true ->
  forallb (fun c => Py.mem c new_cols) (cols_to_write existing new_cols) = true.
Proof.
  intros H. unfold cols_to_write. cbn [forallb]. rewrite H. cbn [andb].
  apply forallb_forall. intros c Hc. apply filter_In in Hc as [_ Hc].
  now apply andb_true_iff in Hc as [Hc _].
Qed.

Lemma cols_to_write_empty (existing : list pystr) :
  cols_to_write existing [] = [col_filename].
Proof.
  unfold cols_to_write. f_equal. now apply ImportFacts.filter_none_all.
Qed.

Lemma export_append (fs0 : filesystem) (mp3_dir : pystr) (found : list mp3)
    (csv_path : pystr) (df : table) (records : list record) :
  isdir fs0 mp3_dir = true ->
  export_records found = Ok records ->
  empty df = false ->
  let cols := cols_to_write (columns df) (record_columns records) in
  export_metadata fs0 mp3_dir found csv_path (Some df)
  = if Nat.eqb (length cols) 1
    then (Some df, [warn_no_columns csv_path], Ok tt)
    else (Some (mkDataFrame (columns df) (data df ++ map (record_row cols) records)),
          [], Ok tt).
Proof.
  intros Hd Hr He cols. unfold export_metadata. rewrite Hd, Hr. cbn [negb].
  assert (Er : read_csv (Some df) = Ok df).
  { unfold read_csv. unfold empty in He. destruct (columns df); [discriminate|reflexivity]. }
  rewrite Er, He. cbn [negb].
  change (columns (DataFrame_of_records records)) with (record_columns records).
  fold cols. destruct (Nat.eqb (length cols) 1) eqn:El; [reflexivity|].
  rewrite AppendFacts.to_csv_records; [reflexivity|].
  destruct (v1_export_records_keys found records Hr) as (F & _).
  unfold cols in *. rewrite (record_columns_nine records F) in *.
  destruct records as [|r rs].
  - now rewrite cols_to_write_empty in El.
  - now apply cols_to_write_in.
Qed.

Lemma cols_to_write_header (rest : list pystr) :
  forallb (fun c => Py.mem c record_keys && negb (Py.eqb c col_filename)) rest = true ->
  cols_to_write (col_filename :: rest) record_keys = col_filename :: rest.
Proof.
  intros H. unfold cols_to_write. f_equal. cbn [filter].
  change (Py.mem col_filename record_keys && negb (Py.eqb col_filename col_filename))
    with false.
  apply RewriteFacts.filter_id. now apply forallb_forall.
Qed.

End V1ExportFacts.

Module RtlFacts.
Import Mp4ToMp3.

Lemma fix_rtl_from_run (a : pystr) :
  forallb arabic a = true ->
  forall run rest, fix_rtl_from run (a ++ rest) = fix_rtl_from (rev a ++ run) rest.
Proof.
  induction a as [|c a IH]; intros H run rest; [reflexivity|].
  cbn [forallb] in H. apply andb_true_iff in H as [Hc Ha].
  cbn [app fix_rtl_from rev]. rewrite Hc, (IH Ha). now rewrite <- app_assoc.
Qed.

Lemma forallb_rev (a : pystr) : forallb arabic (rev a) = forallb arabic a.
Proof.
  induction a as [|c a IH]; [reflexivity|]. cbn [rev forallb].
  rewrite forallb_app, IH. cbn [forallb]. rewrite andb_true_r. apply andb_comm.
Qed.

Lemma fix_rtl_twice_from (text : pystr) :
  forall run, forallb arabic run = true ->
    fix_rtl (fix_rtl_from run text) = rev run ++ text.
Proof.
  induction text as [|c r IH]; intros run Hrun; cbn [fix_rtl_from].
  - unfold fix_rtl. rewrite <- (app_nil_r run) at 1.
    rewrite (fix_rtl_from_run run Hrun). cbn [fix_rtl_from]. reflexivity.
  - destruct (arabic c) eqn:Ec.
    + rewrite IH by (cbn [forallb]; now rewrite Ec, Hrun).
      cbn [rev]. now rewrite <- app_assoc.
    + unfold fix_rtl. rewrite (fix_rtl_from_run run Hrun).
      cbn [fix_rtl_from]. rewrite Ec. rewrite app_nil_r. f_equal. f_equal.
      exact (IH [] eq_refl).
Qed.

Lemma fix_rtl_from_length (text : pystr) :
  forall run, length (fix_rtl_from run text) = (length run + length text)%nat.
Proof.
  induction text as [|c r IH]; intros run; cbn [fix_rtl_from].
  - cbn. lia.
  - destruct (arabic c).
    + rewrite IH. cbn [length]. lia.
    + rewrite length_app. cbn [length]. rewrite IH. cbn [length]. lia.
Qed.

Lemma fix_rtl_from_plain (text : pystr) :
  forallb (fun c => negb (arabic c)) text = true -> fix_rtl_from [] text = text.
Proof.
  induction text as [|c r IH]; intros H; [reflexivity|].
  cbn [forallb] in H. apply andb_true_iff in H as [Hc Hr].
  cbn [fix_rtl_from]. apply negb_true_iff in Hc. rewrite Hc. cbn [app].
  now rewrite (IH Hr).
Qed.

End RtlFacts.

(* ################################################################## *)
(** * The claims *)

Import ID3 Pandas.




(** C3. The disc field of an exported record is what the disc decoding
    gives for the container of the file.  That is the first text of the
    dedicated frame whenever this text is not empty, whatever the other
    frames hold; when the dedicated frame is absent or its text is empty, it
    is the first text of the first extended-text frame, in the order of the
    container, whose description, trimmed and in lower case, is one of the
    two disc words; and it is empty when no extended-text frame has such a
    description. *)
Theorem C3_disc_precedence (id3 : tags) :
  (forall fmt a r,
     load (Transfer.id3_file a) = id3 ->
     Transfer.export_record fmt a = Ok r ->
     exists disc, Transfer.decode_disc id3 = Ok disc
                  /\ Dict.get lit:("disc") r = Some (Transfer.VStr disc))
  /\ (forall f t, get lit:("TPOS") id3 = Some f -> text0 f = Ok t -> t <> [] ->
                  Transfer.decode_disc id3 = Ok t)
  /\ (forall pre txxx post d,
        Transfer.no_tpos id3 ->
        getall lit:("TXXX") id3 = pre ++ txxx :: post ->
        Forall Transfer.no_disc_desc pre ->
        desc txxx = Ok d ->
        Py.lower (Py.strip d) = lit:("disc") \/ Py.lower (Py.strip d) = lit:("disk") ->
        Transfer.decode_disc id3 = text0 txxx)
  /\ (Transfer.no_tpos id3 ->
      Forall Transfer.no_disc_desc (getall lit:("TXXX") id3) ->
      Transfer.decode_disc id3 = Ok []).
Proof.
  split; [|apply ExportFacts.decode_disc_cases].
  intros fmt a r <- H.
  destruct (ExportFacts.export_record_inv fmt a r H) as (disc & opt & H1 & H2 & _).
  exists disc. now split.
Qed.

Lemma C3_witness :
  Transfer.decode_disc Samples.tagged = Ok lit:("1")
  /\ Transfer.decode_disc Samples.tagged_fallback = Ok lit:("9").
Proof.
  split.
  - destruct (C3_disc_precedence Samples.tagged) as (_ & H & _).
    apply (H (TextFrame lit:("TPOS") [lit:("1")]) lit:("1"));
      [reflexivity | reflexivity | discriminate].
  - destruct (C3_disc_precedence Samples.tagged_fallback) as (_ & _ & H & _).
    apply (H [TXXX lit:("Note") [lit:("x")]] (TXXX lit:(" Disc ") [lit:("9")])
             [TXXX lit:("disk") [lit:("7")]] lit:(" Disc ")).
    + left. reflexivity.
    + reflexivity.
    + constructor; [|constructor]. exists lit:("Note"). split; reflexivity.
    + reflexivity.
    + left. reflexivity.
Defined.

(** C4. Appending records that have no lyrics to a table that has a lyrics
    column: the batch's fields are a strict subset of the header, nothing is
    missing from the header, and the selection of the header's columns from
    the new records raises a key error.  The file is left as it was and no
    row is appended. *)
Theorem C4_append_subset_fails :
  Transfer.export_metadata [Samples.audio_a; Samples.audio_bare]
    (Some Samples.table_with_lyrics) Samples.mm_ss
  = (Some Samples.table_with_lyrics, Raise KeyError).
Proof. vm_compute. reflexivity. Qed.

(** C5 (as stated, refuted).  A table of two rows whose first row names an
    existing file and holds a cue cell that is no JSON: the import ends with
    the decoding error, no file is written, and the second row, which is
    well formed and names an existing file, is not imported. *)
Lemma C5_counterexample :
  Transfer.import_metadata Samples.csv_path (Some Samples.bad_cue_rows)
    Samples.mp3_dir Samples.files
  = (Transfer.mkState Samples.files 0 [], Raise JSONDecodeError).
Proof. vm_compute. reflexivity. Qed.

(** C5 (amended).  When the rows before it are imported, a row that names an
    existing file and whose cue cell is present, not empty and rejected by
    the cue reader ends the import with the reader's error: the state is the
    one reached after the rows before it, so this row's file is not written,
    and no row after it is processed. *)
Theorem C5_malformed_cue_aborts (mp3_dir : pystr) (cols : list pystr)
    (pre : list (list cell)) (row : list cell) (post : list (list cell))
    (st st1 : Transfer.state) (fn c : cell) (e : exn) :
  Transfer.import_rows mp3_dir cols pre st = (st1, Ok tt) ->
  row_item cols row lit:("filename") = Ok fn ->
  Transfer.isfile (Transfer.fs st1) (Py.path_join mp3_dir (cell_str fn)) = true ->
  row_get cols row lit:("synced_lyrics") = Some c ->
  truthy c = true ->
  Transfer.load_cues c = Raise e ->
  Transfer.import_rows mp3_dir cols (pre ++ row :: post) st = (st1, Raise e).
Proof. apply ImportFacts.import_rows_malformed. Qed.

Lemma C5_witness :
  Transfer.import_rows Samples.mp3_dir (columns Samples.bad_cue_rows)
    ([] ++ Samples.str_row [lit:("a.mp3"); lit:("A"); lit:("not json")]
        :: [Samples.str_row [lit:("b.mp3"); lit:("B"); lit:("")]])
    (Transfer.mkState Samples.files 0 [])
  = (Transfer.mkState Samples.files 0 [], Raise JSONDecodeError).
Proof.
  apply (C5_malformed_cue_aborts Samples.mp3_dir (columns Samples.bad_cue_rows) []
           (Samples.str_row [lit:("a.mp3"); lit:("A"); lit:("not json")])
           [Samples.str_row [lit:("b.mp3"); lit:("B"); lit:("")]]
           (Transfer.mkState Samples.files 0 []) (Transfer.mkState Samples.files 0 [])
           (Str lit:("a.mp3")) (Str lit:("not json")) JSONDecodeError);
    vm_compute; reflexivity.
Defined.







Import Csv2Json.








(* ################################################################## *)
(** * Further properties of the three programs *)

(** ** The exporter *)

(** In every length format but seconds a length is the minutes, not wrapped
    into hours, a colon, and the seconds in exactly two digits, so the number
    of seconds can be read back from it. *)
Theorem length_minutes_seconds (fmt : pystr) (secs : Z) :
  fmt <> lit:("seconds") ->
  Transfer.format_length fmt secs
  = Py.repr_int (secs / 60)
    ++ [58; 48 + Z.to_N ((secs mod 60) / 10); 48 + Z.to_N ((secs mod 60) mod 10)]%N.
Proof.
  intros Hf. unfold Transfer.format_length.
  apply PyFacts.eqb_neq in Hf. rewrite Hf.
  rewrite NewTableFacts.format_02d_spec by (apply Z.mod_pos_bound; lia).
  reflexivity.
Qed.

Lemma length_minutes_seconds_witness :
  Transfer.format_length Samples.mm_ss 3725 = lit:("62:05").
Proof.
  rewrite (length_minutes_seconds Samples.mm_ss 3725); [reflexivity|discriminate].
Defined.

(** With the length format seconds the exporter writes the decimal display
    of the number of seconds, and the converter reads the cell back as that
    number: the entry of a row whose length cell the exporter wrote this way
    has this length. *)
Theorem seconds_length_round_trip (secs : Z) (cols : list pystr) (row : list cell)
    (k : pystr) (e : entry) :
  row_update cols row = Ok (Some (k, e)) ->
  row_get cols row lit:("length")
  = Some (Str (Transfer.format_length lit:("seconds") secs)) ->
  length e = Some secs.
Proof.
  intros H Hl.
  destruct (IndexFacts.row_update_length cols row k e H) as (H1 & _).
  rewrite Hl in H1. change (Transfer.format_length lit:("seconds") secs)
    with (Py.repr_int secs) in H1.
  rewrite IndexFacts.parse_int_repr in H1. congruence.
Qed.

Lemma seconds_length_round_trip_witness :
  exists e, length e = Some 225%Z /\ filename e = lit:("01 Track.mp3").
Proof.
  pose (u := match row_update Samples.index_cols Samples.album_row with
             | Ok (Some u) => u
             | _ => ([], mkEntry [] [] [] [] [] [] None DNone None)
             end).
  exists (snd u). split; [|vm_compute; reflexivity].
  apply (seconds_length_round_trip 225 Samples.index_cols Samples.album_row (fst u));
    vm_compute; reflexivity.
Defined.

(** One file whose tags the exporter cannot read (a frame without text, for
    one) ends the whole export with an exception before anything is written:
    the CSV file is what it was, whatever the other files hold. *)
Theorem export_all_or_nothing (fmt : pystr) (files : list Transfer.audio)
    (csv : option table) (a : Transfer.audio) (e : exn) :
  In a files ->
  Transfer.export_record fmt a = Raise e ->
  exists e', Transfer.export_metadata files csv fmt = (csv, Raise e').
Proof.
  intros Hin Ha. unfold Transfer.export_metadata.
  destruct (RecordFacts.export_records_raise fmt files a e Hin Ha) as (e' & He).
  rewrite He. now exists e'.
Qed.

Lemma export_all_or_nothing_witness :
  exists e', Transfer.export_metadata [Samples.audio_a; Samples.audio_broken]
               (Some Samples.table_with_lyrics) Samples.mm_ss
             = (Some Samples.table_with_lyrics, Raise e').
Proof.
  apply (export_all_or_nothing Samples.mm_ss [Samples.audio_a; Samples.audio_broken]
           (Some Samples.table_with_lyrics) Samples.audio_broken IndexError).
  - right. left. reflexivity.
  - reflexivity.
Defined.



(** A table written as a new file has one row per record, in the order of
    the files, and the cell of a row under a column is the text of the
    record's field, empty when the record has no such field: a file without
    lyrics has an empty cell in the lyrics column that another file brought
    in. *)
Theorem new_table_rows (fmt : pystr) (files : list Transfer.audio)
    (csv : option table) (records : list Transfer.record) :
  Transfer.no_data csv ->
  Transfer.export_records fmt files = Ok records ->
  Transfer.export_metadata files csv fmt
  = (Some (mkDataFrame (Transfer.record_columns records)
             (map (Transfer.record_row (Transfer.record_columns records)) records)),
     Ok tt).
Proof.
  intros Hn Hr. unfold Transfer.export_metadata. rewrite Hr.
  now apply NewTableFacts.write_records_rows.
Qed.

Lemma new_table_rows_witness :
  exists r1 r2,
    Transfer.export_metadata [Samples.audio_a; Samples.audio_b] None Samples.mm_ss
    = (Some (mkDataFrame (Transfer.base_columns ++ [Transfer.col_lyrics])
               [ Transfer.record_row (Transfer.base_columns ++ [Transfer.col_lyrics]) r1;
                 Transfer.record_row (Transfer.base_columns ++ [Transfer.col_lyrics]) r2 ]),
       Ok tt)
    /\ Dict.get Transfer.col_lyrics r1 = None
    /\ Dict.get Transfer.col_lyrics r2 = Some (Transfer.VStr lit:("la la")).
Proof.
  pose (rs := match Transfer.export_records Samples.mm_ss
                      [Samples.audio_a; Samples.audio_b] with
              | Ok r => r
              | Raise _ => []
              end).
  exists (nth 0 rs []), (nth 1 rs []).
  split; [|split; vm_compute; reflexivity].
  etransitivity.
  - apply (new_table_rows Samples.mm_ss [Samples.audio_a; Samples.audio_b] None rs).
    + exact I.
    + vm_compute. reflexivity.
  - vm_compute. reflexivity.
Defined.

(** Appending to a table that has data and a column that no new record has
    raises a key error when the new rows are selected: the rows already in
    the file stay, and no row is appended. *)
Theorem append_lacking_column_fails (fmt : pystr) (files : list Transfer.audio)
    (records : list Transfer.record) (df : table) (c : pystr) :
  Transfer.export_records fmt files = Ok records ->
  empty df = false ->
  In c (columns df) ->
  Py.mem c (Transfer.record_columns records) = false ->
  exists file,
    Transfer.export_metadata files (Some df) fmt = (Some file, Raise KeyError)
    /\ List.length (data file) = List.length (data df).
Proof.
  intros Hr He Hc Hm. unfold Transfer.export_metadata. rewrite Hr.
  now apply ExportFacts.append_missing_column_raises with (c := c).
Qed.

Lemma append_lacking_column_fails_witness :
  exists file,
    Transfer.export_metadata [Samples.audio_a] (Some Samples.table_with_lyrics)
      Samples.mm_ss = (Some file, Raise KeyError)
    /\ List.length (data file) = 1%nat.
Proof.
  refine (append_lacking_column_fails Samples.mm_ss [Samples.audio_a]
            (match Transfer.export_records Samples.mm_ss [Samples.audio_a] with
             | Ok r => r
             | Raise _ => []
             end) Samples.table_with_lyrics Transfer.col_lyrics _ _ _ _).
  - vm_compute. reflexivity.
  - reflexivity.
  - vm_compute. do 12 right. left. reflexivity.
  - vm_compute. reflexivity.
Defined.



(** ** The importer *)


(** Importing a row into the container the same row was imported into
    before changes nothing: the second import builds the same container. *)
Theorem import_idempotent (cols : list pystr) (row : list cell) (t0 t : tags) :
  Transfer.wf_tags t0 = true ->
  Transfer.write_frames cols row t0 = Ok t ->
  Transfer.write_frames cols row t = Ok t.
Proof.
  intros Hwf H. now apply (RewriteFacts.write_frames_again cols row t0 t Hwf H).
Qed.

Lemma import_idempotent_witness :
  Transfer.write_frames Samples.import_cols Samples.import_row Samples.imported
  = Ok Samples.imported.
Proof.
  apply (import_idempotent Samples.import_cols Samples.import_row Samples.tagged);
    reflexivity.
Defined.





(** ** The earlier version *)





(** The earlier importer removes only the eight frame types it writes: a
    frame none of them selects, a disc number, lyrics, timed lyrics or an
    extended-text frame for one, is still in the container after the
    import. *)
Theorem v1_keeps_other_frames (cols : list pystr) (row : list cell) (t0 : tags)
    (f : frame) :
  In f t0 ->
  (forall m, In m TransferV1.standard_frames ->
     has_key m f = false /\ has_prefix m f = false) ->
  In f (TransferV1.write_frames cols row t0).
Proof.
  intros Hin H. unfold TransferV1.write_frames.
  assert (K : forall m, In m TransferV1.standard_frames -> has_key m f = false)
    by (intros m Hm; now apply H).
  assert (Kc : has_key lit:("COMM::eng") f = false).
  { destruct (H lit:("COMM")) as [_ Hp]; [cbn; auto 10|].
    unfold has_key, has_prefix in *.
    destruct (Py.eqb (HashKey f) lit:("COMM::eng")) eqn:E; [|reflexivity].
    apply PyFacts.eqb_eq in E. rewrite E in Hp. discriminate. }
  repeat (apply V1Facts.In_add_if;
          [|intros text; first [exact Kc | apply K; cbn; auto 10]]).
  now apply V1Facts.In_fold_delall.
Qed.

Lemma v1_keeps_other_frames_witness :
  In (TextFrame lit:("TPOS") [lit:("1")])
     (TransferV1.write_frames Samples.import_cols Samples.import_row Samples.tagged).
Proof.
  apply (v1_keeps_other_frames Samples.import_cols Samples.import_row Samples.tagged).
  - right. left. reflexivity.
  - intros m Hm. cbn [In TransferV1.standard_frames] in Hm.
    repeat (destruct Hm as [<-|Hm]; [split; reflexivity|]). destruct Hm.
Defined.

(** The earlier exporter never fails on an append: the columns it selects
    from the new records are columns the records have.  To a table with data
    it either appends one row per record, holding the file name and then the
    fields the header names, in the header's order, or, when the header names
    no field of the records, it warns and leaves the file alone.  Header and
    rows already there are never touched. *)
Theorem v1_append_never_fails (fs0 : TransferV1.filesystem) (mp3_dir : pystr)
    (found : list TransferV1.mp3) (csv_path : pystr) (df : table)
    (records : list Transfer.record) :
  TransferV1.isdir fs0 mp3_dir = true ->
  TransferV1.export_records found = Ok records ->
  empty df = false ->
  let cols := TransferV1.cols_to_write (columns df) (Transfer.record_columns records) in
  TransferV1.export_metadata fs0 mp3_dir found csv_path (Some df)
  = if Nat.eqb (List.length cols) 1
    then (Some df, [TransferV1.warn_no_columns csv_path], Ok tt)
    else (Some (mkDataFrame (columns df)
                  (data df ++ map (Transfer.record_row cols) records)),
          [], Ok tt).
Proof.
  intros Hd Hr He. now apply V1ExportFacts.export_append.
Qed.

Lemma v1_append_never_fails_witness :
  (exists row,
     TransferV1.export_metadata Samples.v1_files Samples.mp3_dir [Samples.mp3_a]
       Samples.csv_path (Some Samples.table_v1)
     = (Some (mkDataFrame (columns Samples.table_v1) (data Samples.table_v1 ++ [row])),
        [], Ok tt)
     /\ row = Samples.str_row [lit:("a.mp3"); lit:("Song A"); lit:("")])
  /\ TransferV1.export_metadata Samples.v1_files Samples.mp3_dir [Samples.mp3_a]
       Samples.csv_path (Some Samples.table_foreign)
     = (Some Samples.table_foreign, [TransferV1.warn_no_columns Samples.csv_path], Ok tt).
Proof.
  pose (rs := match TransferV1.export_records [Samples.mp3_a] with
              | Ok r => r
              | Raise _ => []
              end).
  split.
  - eexists. split.
    + rewrite (v1_append_never_fails Samples.v1_files Samples.mp3_dir [Samples.mp3_a]
                 Samples.csv_path Samples.table_v1 rs);
        [vm_compute; reflexivity | reflexivity | vm_compute; reflexivity | reflexivity].
    + reflexivity.
  - rewrite (v1_append_never_fails Samples.v1_files Samples.mp3_dir [Samples.mp3_a]
               Samples.csv_path Samples.table_foreign rs);
      [vm_compute; reflexivity | reflexivity | vm_compute; reflexivity | reflexivity].
Defined.

(** When the header of the table is the file name followed by fields of the
    records, the rows the earlier exporter appends line up with the header:
    each holds the record's text under each column. *)
Theorem v1_append_aligned (fs0 : TransferV1.filesystem) (mp3_dir : pystr)
    (found : list TransferV1.mp3) (csv_path : pystr) (df : table)
    (records : list Transfer.record) (rest : list pystr) :
  TransferV1.isdir fs0 mp3_dir = true ->
  TransferV1.export_records found = Ok records ->
  records <> [] ->
  columns df = TransferV1.col_filename :: rest ->
  rest <> [] ->
  data df <> [] ->
  forallb (fun c => Py.mem c TransferV1.record_keys
                    && negb (Py.eqb c TransferV1.col_filename)) rest = true ->
  TransferV1.export_metadata fs0 mp3_dir found csv_path (Some df)
  = (Some (mkDataFrame (columns df)
             (data df ++ map (Transfer.record_row (columns df)) records)),
     [], Ok tt).
Proof.
  intros Hd Hr Hne Hc Hrest Hdata Hall.
  assert (He : empty df = false).
  { unfold empty. rewrite Hc. destruct (data df); [congruence|reflexivity]. }
  rewrite (V1ExportFacts.export_append fs0 mp3_dir found csv_path df records Hd Hr He).
  destruct (V1ExportFacts.v1_export_records_keys found records Hr) as (F & _).
  rewrite (V1ExportFacts.record_columns_nine records F).
  destruct records as [|r rs]; [congruence|].
  rewrite Hc, (V1ExportFacts.cols_to_write_header rest Hall).
  destruct rest; [congruence|reflexivity].
Qed.

Lemma v1_append_aligned_witness :
  TransferV1.export_metadata Samples.v1_files Samples.mp3_dir [Samples.mp3_a]
    Samples.csv_path (Some Samples.table_v1)
  = (Some (mkDataFrame (columns Samples.table_v1)
             (data Samples.table_v1
              ++ [Samples.str_row [lit:("a.mp3"); lit:("Song A"); lit:("")]])),
     [], Ok tt).
Proof.
  pose (rs := match TransferV1.export_records [Samples.mp3_a] with
              | Ok r => r
              | Raise _ => []
              end).
  rewrite (v1_append_aligned Samples.v1_files Samples.mp3_dir [Samples.mp3_a]
             Samples.csv_path Samples.table_v1 rs [lit:("title"); lit:("artist")]);
    [vm_compute; reflexivity | reflexivity | vm_compute; reflexivity
    | vm_compute; discriminate | reflexivity | discriminate | discriminate | reflexivity].
Defined.

(** ** The converter *)

(** Every entry of an index the converter writes stands under the key made
    from the entry's own file name: the acronym of a mode of the table, a
    bar, and the file name without its extension; and no entry has an empty
    file name. *)
Theorem index_entries_keyed (csv_files : list table) (output : option (Dict.t entry))
    (combined : Dict.t entry) (k : pystr) (e : entry) :
  convert_csvs_to_json csv_files output = (Some combined, Ok tt) ->
  Dict.get k combined = Some e ->
  keyed k e.
Proof.
  unfold convert_csvs_to_json. intros H Hk.
  destruct csv_files as [|f files]; [discriminate|].
  destruct (process_files (f :: files) []) as [c|?] eqn:E; [|discriminate].
  injection H as <-.
  apply (IndexFacts.process_files_keyed (f :: files) [] c); [|exact E|exact Hk].
  intros k0 e0 H0. discriminate.
Qed.

Lemma index_entries_keyed_witness :
  exists e, keyed lit:("SHUR|01 Track") e /\ disc e = DStr lit:("3/5").
Proof.
  pose (c := match fst (convert_csvs_to_json [Samples.good_index_table] None) with
             | Some c => c
             | None => []
             end).
  pose (e := match Dict.get lit:("SHUR|01 Track") c with
             | Some e => e
             | None => mkEntry [] [] [] [] [] [] None DNone None
             end).
  exists e. split; [|vm_compute; reflexivity].
  apply (index_entries_keyed [Samples.good_index_table] None c);
    vm_compute; reflexivity.
Defined.

(** The genre field of an entry is the trimmed album cell of its row, not
    the name the row was looked up by: a row taken through its genre cell,
    its album being blank, has an empty genre field. *)
Theorem entry_genre_is_album (cols : list pystr) (row : list cell) (k : pystr)
    (e : entry) :
  row_update cols row = Ok (Some (k, e)) ->
  get_strip cols row lit:("album") = Ok (genre e)
  /\ (genre e = [] ->
      exists name, get_strip cols row lit:("genre") = Ok name /\ name <> []).
Proof.
  intros H.
  destruct (IndexFacts.row_update_length cols row k e H) as (_ & _ & Ha & _).
  split; [exact Ha|]. intros He.
  destruct (Csv2JsonFacts.row_update_some cols row k e H)
    as (name & acr & Hn & Hg & _).
  destruct (Csv2JsonFacts.genre_name_spec cols row (genre e) Ha) as (_ & H2).
  exists name. split; [now rewrite <- (H2 He)|].
  intros ->. discriminate.
Qed.

Lemma entry_genre_is_album_witness :
  exists k e,
    row_update Samples.index_cols Samples.genre_row = Ok (Some (k, e))
    /\ genre e = []
    /\ get_strip Samples.index_cols Samples.genre_row lit:("genre") = Ok Samples.shur.
Proof.
  pose (u := match row_update Samples.index_cols Samples.genre_row with
             | Ok (Some u) => u
             | _ => ([], mkEntry [] [] [] [] [] [] None DNone None)
             end).
  assert (E : row_update Samples.index_cols Samples.genre_row = Ok (Some (fst u, snd u)))
    by (vm_compute; reflexivity).
  exists (fst u), (snd u). split; [exact E|].
  destruct (entry_genre_is_album Samples.index_cols Samples.genre_row (fst u) (snd u) E)
    as (Ha & _).
  split; [|reflexivity].
  assert (Hb : get_strip Samples.index_cols Samples.genre_row lit:("album") = Ok [])
    by reflexivity.
  congruence.
Defined.



(** An input file without a header line ends the conversion with an
    exception, and nothing is written. *)
Theorem conversion_empty_file_aborts (csv_files : list table)
    (output : option (Dict.t entry)) (f : table) :
  In f csv_files -> columns f = [] ->
  exists e, convert_csvs_to_json csv_files output = (output, Raise e).
Proof.
  intros Hin Hf. unfold convert_csvs_to_json.
  destruct csv_files as [|g files]; [destruct Hin|].
  destruct (IndexFacts.process_files_empty_file (g :: files) f Hin Hf []) as (e & ->).
  now exists e.
Qed.

Lemma conversion_empty_file_aborts_witness :
  exists e, convert_csvs_to_json [Samples.good_index_table; mkDataFrame [] []] None
            = (None, Raise e).
Proof.
  apply (conversion_empty_file_aborts [Samples.good_index_table; mkDataFrame [] []]
           None (mkDataFrame [] [])).
  - right. left. reflexivity.
  - reflexivity.
Defined.

(** The key of a file name that ends in a dot and an extension without dot
    or slash, and whose part before that dot has no slash and is not made of
    dots alone, is the acronym, a bar and that part: the extension is
    dropped, and dots inside the name are kept.  So two such file names that
    differ only in the extension have the same key. *)
Theorem key_drops_extension (acr base ext : pystr) :
  (forall x, In x base -> x <> 47%N) ->
  (exists x, In x base /\ x <> 46%N) ->
  (forall x, In x ext -> x <> 46%N /\ x <> 47%N) ->
  make_key acr (base ++ 46%N :: ext) = acr ++ pipe ++ base
  /\ (forall ext', (forall x, In x ext' -> x <> 46%N /\ x <> 47%N) ->
        make_key acr (base ++ 46%N :: ext') = make_key acr (base ++ 46%N :: ext)).
Proof.
  intros Hb Hx He. unfold make_key. split.
  - now rewrite SplitextFacts.splitext_plain.
  - intros ext' He'. now rewrite !SplitextFacts.splitext_plain.
Qed.

Lemma key_drops_extension_witness :
  make_key lit:("SHUR") lit:("01. Track.mp3") = lit:("SHUR|01. Track").
Proof.
  refine (proj1 (key_drops_extension lit:("SHUR") lit:("01. Track") lit:("mp3") _ _ _)).
  - intros x Hin. cbn [In] in Hin.
    repeat (destruct Hin as [<-|Hin]; [discriminate|]). destruct Hin.
  - exists 48%N. split; [left; reflexivity|discriminate].
  - intros x Hin. cbn [In] in Hin.
    repeat (destruct Hin as [<-|Hin]; [split; discriminate|]). destruct Hin.
Defined.

(** ** The two small scripts *)

(** Reversing the runs of Arabic script twice gives the text back; the
    reversal keeps the length of the text, and it leaves a text without
    Arabic script as it is. *)
Theorem fix_rtl_involutive (text : pystr) :
  Mp4ToMp3.fix_rtl (Mp4ToMp3.fix_rtl text) = text
  /\ List.length (Mp4ToMp3.fix_rtl text) = List.length text
  /\ (forallb (fun c => negb (Mp4ToMp3.arabic c)) text = true ->
      Mp4ToMp3.fix_rtl text = text).
Proof.
  split; [|split].
  - exact (RtlFacts.fix_rtl_twice_from text [] eq_refl).
  - unfold Mp4ToMp3.fix_rtl. now rewrite RtlFacts.fix_rtl_from_length.
  - apply RtlFacts.fix_rtl_from_plain.
Qed.

Lemma fix_rtl_involutive_witness :
  Mp4ToMp3.fix_rtl [97; 1583; 1587; 1578; 32; 1588; 1608; 46]%N
  = [97; 1578; 1587; 1583; 32; 1608; 1588; 46]%N
  /\ Mp4ToMp3.fix_rtl lit:("01 Track.mp4") = lit:("01 Track.mp4").
Proof.
  split; [reflexivity|].
  apply (fix_rtl_involutive lit:("01 Track.mp4")). reflexivity.
Defined.

(** The bit rate handed to the encoder is a number of kilobits of 32 or
    more followed by the letter k, whatever the probe printed and also when
    it failed. *)
Theorem bitrate_at_least_32k (stdout : result pystr) :
  exists kbps, (32 <= kbps)%Z
    /\ ConvertReal.get_bitrate_kbps stdout = Py.repr_int kbps ++ lit:("k").
Proof.
  unfold ConvertReal.get_bitrate_kbps.
  destruct stdout as [out|e]; [|exists 192%Z; split; [lia|reflexivity]].
  destruct (Py.int_of_str (Py.strip out)) as [bps|];
    [|exists 192%Z; split; [lia|reflexivity]].
  exists (Z.max 32 (bps / 1000)). split; [lia|reflexivity].
Qed.
